(** * Warehouse co-placement recommender: the analytic pipeline

    A shallow embedding of the four analysis classes of the
    [Recomendation] package

      - [market_basket_analyzer.py]   (class [MarketBasketAnalyzer])
      - [similarity_calculator.py]    (class [SimilarityCalculator])
      - [clustering_analyzer.py]      (class [ClusteringAnalyzer])
      - [recommendation_generator.py] (class [RecommendationGenerator])

    Conventions of the embedding.

      - A Python object with mutable attributes is a record; a method that
        assigns attributes is a function
        [self -> args -> self * (exn + value)]: the first component is the
        object after the call (attribute assignments made before a [raise]
        persist, as in Python), the second is the raised exception or the
        returned value.  A method that assigns nothing returns only the
        second component.  Console output ([print]) is not modelled.
      - A pandas column / Python list is a [list]; a two-dimensional numpy
        array is a list of rows, read and written by position.
      - Python [int] is [Z]; a sum of an [int64] column is a [Z] wrapped
        around by [Np.int64]; numpy [float64] is idealised as the exact
        rationals [Q] (no rounding, no NaN, no infinities); [np.sqrt] and
        [np.log], which have no rational model, are parameters.  Where the
        code's float is not a finite number (the logarithm of a
        non-positive total) the properties carry the condition that
        excludes it.
      - Strings (stock codes, invoice numbers, metric names) are [string]. *)

From Stdlib Require Import ZArith QArith List String Ascii Bool Lia Lqa Permutation Sorted.
From stdpp Require Import base list.
Import ListNotations.

Local Open Scope Z_scope.

(** ** Python and pandas primitives used by the package *)

(** Exceptions: every [raise] in the four classes is a [ValueError] carrying
    a message; reading an attribute of [None] is an [AttributeError];
    dividing a Python number by zero is a [ZeroDivisionError]; a missing
    column or key is a [KeyError]. *)
Inductive exn : Type :=
| ValueError (msg : string)
| AttributeError (msg : string)
| ZeroDivisionError (msg : string)
| KeyError (msg : string).

(** Sequencing of computations that may raise. *)
Definition bind_exn {A B : Type} (c : exn + A) (k : A -> exn + B) : exn + B :=
  match c with
  | inl e => inl e
  | inr a => k a
  end.

Notation "'let*' x ':=' c 'in' k" := (bind_exn c (fun x => k))
  (at level 10, x name, c at level 100, k at level 200).

Module Py.

(** [x in l] for a list of strings. *)
Definition mem (x : string) (l : list string) : bool :=
  existsb (String.eqb x) l.

(** [l[:n]], also [DataFrame.head(n)] / [Series.head(n)]: the first [n]
    elements when [n >= 0], all but the last [-n] when [n < 0]. *)
Definition slice_to {A : Type} (n : Z) (l : list A) : list A :=
  if 0 <=? n then firstn (Z.to_nat n) l
  else firstn (length l - Z.to_nat (- n))%nat l.

(** [Series.unique()]: the distinct values in order of first appearance. *)
Fixpoint unique {A : Type} (eqb : A -> A -> bool) (l : list A) : list A :=
  match l with
  | [] => []
  | x :: l' => x :: List.filter (fun y => negb (eqb y x)) (unique eqb l')
  end.

(** A stable sort: [insert_by leb x l] puts [x] in front of the first
    element [y] with [leb x y]; equal keys keep their original order, as
    [sorted] and [list.sort] guarantee. *)
Fixpoint insert_by {A : Type} (leb : A -> A -> bool) (x : A) (l : list A)
  : list A :=
  match l with
  | [] => [x]
  | y :: l' => if leb x y then x :: y :: l' else y :: insert_by leb x l'
  end.

Fixpoint sort_by {A : Type} (leb : A -> A -> bool) (l : list A) : list A :=
  match l with
  | [] => []
  | x :: l' => insert_by leb x (sort_by leb l')
  end.

(** [sorted(l)] on strings. *)
Definition sorted (l : list string) : list string := sort_by String.leb l.

(** [Series.value_counts()]: one entry per distinct value with the number
    of rows holding it, most frequent first. *)
Definition count (x : string) (l : list string) : Z :=
  Z.of_nat (length (List.filter (String.eqb x) l)).

Definition value_counts (l : list string) : list (string * Z) :=
  sort_by (fun a b => snd b <=? snd a)
          (map (fun x => (x, count x l)) (unique String.eqb l)).

(** [sum(l)] over integers and over floats, [np.mean].  The mean is the
    exact one; the rounded mean of [float64] values can leave the interval
    they span by a rounding error, so the only bounds stated for a mean
    below are 0 and 1, which rounding respects. *)
Definition sumZ (l : list Z) : Z := fold_right Z.add 0 l.
Definition sumQ (l : list Q) : Q := fold_right Qplus (0 # 1)%Q l.
Definition mean (l : list Q) : Q :=
  (sumQ l / inject_Z (Z.of_nat (length l)))%Q.

(** [a / b] on Python numbers. *)
Definition true_divide (a b : Z) : exn + Q :=
  if b =? 0 then inl (ZeroDivisionError "division by zero")
  else inr (inject_Z a / inject_Z b)%Q.

End Py.

(** ** market_basket_analyzer.py *)

(** One line item of the transaction table ([df] has one row per line
    item; only [InvoiceNo] and [StockCode] are read here). *)
Record TransactionRecord : Type := mkTransaction {
  InvoiceNo : string;
  StockCode : string;
  Quantity : Z
}.

(** The binary basket matrix: a DataFrame with product columns and one row
    per kept basket. *)
Record BasketMatrix : Type := mkBasketMatrix {
  bm_columns : list string;
  bm_rows : list (list Z)
}.

Module MarketBasketAnalyzer.

Record t : Type := mk {
  basket_matrix : option BasketMatrix;
  frequent_products : option (list string)
}.

(** [__init__] *)
Definition init : t := mk None None.

(** [df.groupby('InvoiceNo')['StockCode'].apply(list).reset_index()]:
    one row per invoice, invoices in sorted order, each with the stock
    codes of its line items in table order (duplicates kept). *)
Definition groupby_InvoiceNo (df : list TransactionRecord)
  : list (string * list string) :=
  map (fun k =>
         (k, map StockCode
                 (List.filter (fun r => String.eqb (InvoiceNo r) k) df)))
      (Py.sorted (Py.unique String.eqb (map InvoiceNo df))).

(** [product_counts[product_counts >= min_support].index.tolist()] *)
Definition select_frequent (df : list TransactionRecord) (min_support : Z)
  : list string :=
  map fst (List.filter (fun pc => min_support <=? snd pc)
                       (Py.value_counts (map StockCode df))).

(** The loop building [basket_data]. *)
Fixpoint build_basket_data (frequent : list string)
         (baskets : list (string * list string))
  : list (string * list string) :=
  match baskets with
  | [] => []
  | (invoice, products) :: rest =>
      let products_in_basket :=
        List.filter (fun p => Py.mem p frequent) products in
      if (1 <? length products_in_basket)%nat
      then (invoice, products_in_basket) :: build_basket_data frequent rest
      else build_basket_data frequent rest
  end.

(** [[1 if product in basket['products'] else 0 for product in all_products]] *)
Definition matrix_row (all_products : list string) (products : list string)
  : list Z :=
  map (fun product => if Py.mem product products then 1 else 0) all_products.

Definition create_market_baskets (self : t) (df : list TransactionRecord)
           (min_support : Z) : t * (exn + BasketMatrix) :=
  let baskets := groupby_InvoiceNo df in
  let frequent := select_frequent df min_support in
  let basket_data := build_basket_data frequent baskets in
  let all_products := Py.sorted frequent in
  let matrix_data := map (fun b => matrix_row all_products (snd b)) basket_data in
  let m := mkBasketMatrix all_products matrix_data in
  (mk (Some m) (Some frequent), inr m).

End MarketBasketAnalyzer.

(** ** Numbers *)

(** The two numpy functions without a rational model. *)
Class NumPy : Type := {
  np_sqrt : Q -> Q;
  np_log : Q -> Q
}.

(** [x < y] on rationals, as [Qlt] computes it. *)
Definition Qltb (x y : Q) : bool :=
  (Qnum x * QDen y <? Qnum y * QDen x)%Z.

Definition qmin (x y : Q) : Q := if Qle_bool x y then x else y.
Definition qmax (x y : Q) : Q := if Qle_bool y x then x else y.

(** ** Two-dimensional arrays *)

Module Array2.

Abbreviation t := (list (list Q)) (only parsing).

(** [np.zeros((n, m))] *)
Definition zeros (n m : nat) : t := replicate n (replicate m (0 # 1)%Q).

(** [a[i, j]]; [None] stands for numpy's IndexError. *)
Definition get (a : t) (i j : nat) : option Q := a !! i ≫= (.!! j).

(** [a[i, j] = v]; the loops below only write inside the array. *)
Definition set (a : t) (i j : nat) (v : Q) : t := alter (<[j := v]>) i a.

(** An [n] by [n] array. *)
Definition square (n : nat) (a : t) : Prop :=
  length a = n /\ Forall (fun row => length row = n) a.

(** [a[i, j] == a[j, i]] at every pair of positions. *)
Definition symmetric (a : t) : Prop :=
  forall i j : nat, get a i j = get a j i.

(** [np.triu(a, k=1)]: entries on or below the diagonal become 0. *)
Definition triu1 (a : t) : t :=
  imap (fun i row => imap (fun j x => if (i <? j)%nat then x else (0 # 1)%Q) row) a.

(** [1 - a] followed by [np.fill_diagonal(_, 0)] *)
Definition distance (a : t) : t :=
  imap (fun i row =>
          imap (fun j x => if (i =? j)%nat then (0 # 1)%Q else ((1 # 1) - x)%Q) row) a.

End Array2.

(** ** numpy reductions over one-dimensional arrays *)

Module Np.

(** A value of type [np.int64]: arithmetic on the type wraps around. *)
Definition int64 (z : Z) : Z := (z + 2 ^ 63) mod 2 ^ 64 - 2 ^ 63.

(** [np.min], [np.max]: a zero-size array has no minimum or maximum. *)
Definition min (l : list Q) : exn + Q :=
  match l with
  | [] => inl (ValueError "zero-size array to reduction operation minimum which has no identity")
  | x :: l' => inr (fold_left qmin l' x)
  end.

Definition max (l : list Q) : exn + Q :=
  match l with
  | [] => inl (ValueError "zero-size array to reduction operation maximum which has no identity")
  | x :: l' => inr (fold_left qmax l' x)
  end.

(** [np.median]: the middle element of the sorted values, or the mean of
    the two middle elements. *)
Definition median (l : list Q) : Q :=
  let s := Py.sort_by Qle_bool l in
  let n := length s in
  if Nat.even n
  then ((nth (n / 2 - 1) s (0 # 1) + nth (n / 2) s (0 # 1)) / (2 # 1))%Q
  else nth (n / 2) s (0 # 1)%Q.

(** [np.std]: the square root of the mean squared deviation. *)
Definition std `{NumPy} (l : list Q) : Q :=
  let m := Py.mean l in
  np_sqrt (Py.mean (map (fun x => (x - m) * (x - m))%Q l)).

End Np.

(** [enumerate(l)] *)
Definition enumerate {A : Type} (l : list A) : list (nat * A) :=
  combine (seq 0 (length l)) l.

(** ** sklearn.metrics.pairwise.cosine_similarity

    The library routine called by [_calculate_cosine_similarity], after its
    documentation: the input is validated (at least one sample and one
    feature), every row is scaled to unit L2 norm (a zero norm is replaced
    by 1), and the result is the Gram matrix of the scaled rows. *)
Module Sklearn.
Section WithNumPy.
Context `{NumPy}.

Definition l2_norm (row : list Q) : Q :=
  np_sqrt (Py.sumQ (map (fun x => x * x)%Q row)).

Definition normalize (X : list (list Q)) : list (list Q) :=
  map (fun row =>
         let norm := l2_norm row in
         let norm := if Qeq_bool norm (0 # 1) then (1 # 1)%Q else norm in
         map (fun x => x / norm)%Q row) X.

Definition dot (u v : list Q) : Q :=
  Py.sumQ (map (fun ab => fst ab * snd ab)%Q (combine u v)).

Definition gram (X : list (list Q)) : Array2.t :=
  map (fun u => map (fun v => dot u v) X) X.

Definition cosine_similarity (X : list (list Q)) : exn + Array2.t :=
  match X with
  | [] => inl (ValueError "Found array with 0 sample(s)")
  | row :: _ =>
      if (length row =? 0)%nat
      then inl (ValueError "Found array with 0 feature(s)")
      else inr (gram (normalize X))
  end.
End WithNumPy.
End Sklearn.

(** ** similarity_calculator.py *)

(** The similarity DataFrame: [index] and [columns] are both the basket
    matrix's product columns. *)
Record SimilarityMatrix : Type := mkSimilarityMatrix {
  sm_index : list string;
  sm_values : Array2.t
}.

(** Position of a label in an index. *)
Fixpoint index_of (x : string) (l : list string) : option nat :=
  match l with
  | [] => None
  | y :: l' => if String.eqb x y then Some 0%nat else S <$> index_of x l'
  end.

(** [df.loc[prod1, prod2]] on a similarity DataFrame. *)
Definition loc (m : SimilarityMatrix) (prod1 prod2 : string) : option Q :=
  i ← index_of prod1 (sm_index m);
  j ← index_of prod2 (sm_index m);
  Array2.get (sm_values m) i j.

(** Summary dictionary returned by [get_similarity_statistics]. *)
Record SimilarityStatistics : Type := mkSimilarityStatistics {
  mean_similarity : Q;
  median_similarity : Q;
  std_similarity : Q;
  min_similarity : Q;
  max_similarity : Q;
  high_similarity_pairs : Z;
  total_pairs : Z
}.

Module SimilarityCalculator.

Record t : Type := mk {
  similarity_matrix : option SimilarityMatrix;
  basket_matrix : option BasketMatrix
}.

(** [__init__] *)
Definition init : t := mk None None.

(** [self.basket_matrix[prod]]: the column labelled [prod], one cell per
    basket.  Column labels are distinct in every matrix the analyzer
    builds; the first match is taken. *)
Definition column (bm : BasketMatrix) (prod : string) : list Z :=
  match index_of prod (bm_columns bm) with
  | Some k => map (fun row => nth k row 0) (bm_rows bm)
  | None => []
  end.

(** [((c1 == 1) & (c2 == 1)).sum()] and [((c1 == 1) | (c2 == 1)).sum()] *)
Definition count_both (c1 c2 : list Z) : Z :=
  Z.of_nat (length (List.filter (fun ab => (fst ab =? 1) && (snd ab =? 1))
                                (combine c1 c2))).

Definition count_either (c1 c2 : list Z) : Z :=
  Z.of_nat (length (List.filter (fun ab => (fst ab =? 1) || (snd ab =? 1))
                                (combine c1 c2))).

(** The loop nest shared by the jaccard and lift computations:
<<
    for i, prod1 in enumerate(products):
        for j, prod2 in enumerate(products):
            if i <= j:
                v = ...
                matrix[i, j] = v
                matrix[j, i] = v
>>
*)
Definition fill_pairs (products : list string) (value : string -> string -> Q)
           (matrix : Array2.t) : Array2.t :=
  fold_left
    (fun m ip1 =>
       fold_left
         (fun m jp2 =>
            if (fst ip1 <=? fst jp2)%nat
            then let v := value (snd ip1) (snd jp2) in
                 Array2.set (Array2.set m (fst ip1) (fst jp2) v)
                            (fst jp2) (fst ip1) v
            else m)
         (enumerate products) m)
    (enumerate products) matrix.

Definition jaccard_sim (bm : BasketMatrix) (prod1 prod2 : string) : Q :=
  let intersection := count_both (column bm prod1) (column bm prod2) in
  let union := count_either (column bm prod1) (column bm prod2) in
  if 0 <? union then (inject_Z intersection / inject_Z union)%Q else (0 # 1)%Q.

Definition _calculate_jaccard_similarity (bm : BasketMatrix) : Array2.t :=
  let products := bm_columns bm in
  fill_pairs products (jaccard_sim bm)
             (Array2.zeros (length products) (length products)).

(** The first loop of [_calculate_lift_similarity]:
<<
    support = {}
    for product in products:
        support[product] = self.basket_matrix[product].sum() / n_transactions
>>
    The dictionary is a list of bindings, the newest first.  On the
    matrix without rows that [create_market_baskets] builds, the column
    sum is the Python integer 0 and the division by [n_transactions = 0]
    raises at the first product. *)
Fixpoint support_loop (bm : BasketMatrix) (n_transactions : Z)
         (products : list string) (support : list (string * Q))
  : exn + list (string * Q) :=
  match products with
  | [] => inr support
  | product :: rest =>
      let* s := Py.true_divide (Py.sumZ (column bm product)) n_transactions in
      support_loop bm n_transactions rest ((product, s) :: support)
  end.

(** [support[product]]; every product read in the pair loop has a
    binding. *)
Definition support_get (support : list (string * Q)) (product : string) : Q :=
  match List.find (fun e => String.eqb (fst e) product) support with
  | Some e => snd e
  | None => (0 # 1)%Q
  end.

(** The body of the pair loop, reading [support[prod2]] through
    [support]. *)
Definition lift_of (bm : BasketMatrix) (support : string -> Q)
           (prod1 prod2 : string) : Q :=
  let both := count_both (column bm prod1) (column bm prod2) in
  let confidence_1_2 :=
    if 0 <? Py.sumZ (column bm prod1)
    then (inject_Z both / inject_Z (Py.sumZ (column bm prod1)))%Q
    else (0 # 1)%Q in
  let lift :=
    if Qltb (0 # 1) (support prod2)
    then (confidence_1_2 / support prod2)%Q
    else (0 # 1)%Q in
  if Qltb (0 # 1) lift
  then qmax (0 # 1) (qmin (1 # 1) ((lift - (1 # 1)) / (10 # 1) + (1 # 2)))%Q
  else (0 # 1)%Q.

Definition _calculate_lift_similarity (bm : BasketMatrix) : exn + Array2.t :=
  let products := bm_columns bm in
  let n_transactions := Z.of_nat (length (bm_rows bm)) in
  let* support := support_loop bm n_transactions products [] in
  inr (fill_pairs products (lift_of bm (support_get support))
                  (Array2.zeros (length products) (length products))).

(** The binding the first loop stores for [product] on a matrix with
    rows, and the score of the pair loop read with those bindings. *)
Definition support (bm : BasketMatrix) (product : string) : Q :=
  (inject_Z (Py.sumZ (column bm product))
   / inject_Z (Z.of_nat (length (bm_rows bm))))%Q.

Definition lift_similarity (bm : BasketMatrix) (prod1 prod2 : string) : Q :=
  lift_of bm (support bm) prod1 prod2.

Section WithNumPy.
Context `{NumPy}.

(** [self.basket_matrix.T]: one row per product column. *)
Definition transposed (bm : BasketMatrix) : list (list Q) :=
  map (fun k => map (fun row => inject_Z (nth k row 0)) (bm_rows bm))
      (seq 0 (length (bm_columns bm))).

Definition _calculate_cosine_similarity (bm : BasketMatrix)
  : exn + Array2.t :=
  Sklearn.cosine_similarity (transposed bm).

Definition calculate_similarity_matrix (self : t) (bm : BasketMatrix)
           (metric : string) : t * (exn + SimilarityMatrix) :=
  let self := mk (similarity_matrix self) (Some bm) in
  let computed : exn + Array2.t :=
    if String.eqb metric "jaccard" then
      inr (_calculate_jaccard_similarity bm)
    else if String.eqb metric "cosine" then
      _calculate_cosine_similarity bm
    else if String.eqb metric "lift" then
      _calculate_lift_similarity bm
    else
      inl (ValueError ("Unknown similarity metric: " ++ metric)) in
  match computed with
  | inl e => (self, inl e)
  | inr values =>
      let sm := mkSimilarityMatrix (bm_columns bm) values in
      (mk (Some sm) (basket_matrix self), inr sm)
  end.

(** [get_similarity_matrix] *)
Definition get_similarity_matrix (self : t) : exn + SimilarityMatrix :=
  match similarity_matrix self with
  | None => inl (ValueError "Similarity matrix not calculated yet. Call calculate_similarity_matrix() first.")
  | Some sm => inr sm
  end.

(** [get_distance_matrix] *)
Definition get_distance_matrix (self : t) : exn + Array2.t :=
  let* sm := get_similarity_matrix self in
  inr (Array2.distance (sm_values sm)).

(** [upper_triangle[upper_triangle > 0]]: boolean-mask selection over the
    whole array returned by [np.triu], in row-major order. *)
Definition selected_similarities (sm : SimilarityMatrix) : list Q :=
  List.filter (fun x => Qltb (0 # 1) x) (concat (Array2.triu1 (sm_values sm))).

Definition get_similarity_statistics (self : t)
  : exn + SimilarityStatistics :=
  let* sm := get_similarity_matrix self in
  let similarities := selected_similarities sm in
  let* lo := Np.min similarities in
  let* hi := Np.max similarities in
  inr {| mean_similarity := Py.mean similarities;
         median_similarity := Np.median similarities;
         std_similarity := Np.std similarities;
         min_similarity := lo;
         max_similarity := hi;
         high_similarity_pairs :=
           Z.of_nat (length (List.filter (fun x => Qltb (1 # 2) x) similarities));
         total_pairs := Z.of_nat (length similarities) |}.

(** [self.similarity_matrix[product]]: the column labelled [product] as
    a Series of (index label, value). *)
Definition series (sm : SimilarityMatrix) (product : string)
  : list (string * Q) :=
  match index_of product (sm_index sm) with
  | Some k => combine (sm_index sm)
                      (map (fun row => nth k row (0 # 1)%Q) (sm_values sm))
  | None => []
  end.

(** [Series.sort_values(ascending=False)]; the order pandas gives to
    equal values is not specified, here they keep their index order. *)
Definition sort_values_descending (s : list (string * Q))
  : list (string * Q) :=
  Py.sort_by (fun a b => Qle_bool (snd b) (snd a)) s.

Definition get_most_similar_products (self : t) (product : string)
           (top_n : Z) : exn + list (string * Q) :=
  let* sm := get_similarity_matrix self in
  if negb (Py.mem product (sm_index sm))
  then inl (ValueError ("Product " ++ product ++ " not found in similarity matrix"))
  else
    let similarities := sort_values_descending (series sm product) in
    let similarities :=
      List.filter (fun e => negb (String.eqb (fst e) product)) similarities in
    inr (Py.slice_to top_n similarities).

End WithNumPy.

End SimilarityCalculator.

(** ** clustering_analyzer.py *)

(** One row of the product summary table ([product_info]). *)
Record ProductInfo : Type := mkProductInfo {
  pi_StockCode : string;
  pi_Description : string;
  pi_AvgUnitPrice : Q;
  pi_TotalQuantity : Z
}.

(** One row of [self.clusters]: a product, its cluster label, and the
    columns joined from [product_info] ([None] where the left join found no
    match). *)
Record ClusterRow : Type := mkClusterRow {
  cr_StockCode : string;
  cr_Cluster : Z;
  cr_info : option ProductInfo
}.

Module ClusteringAnalyzer.

Record t : Type := mk {
  clusters : option (list ClusterRow);
  similarity_matrix : option SimilarityMatrix;
  product_info : option (list ProductInfo)
}.

(** [__init__] *)
Definition init : t := mk None None None.

(** The branches of [_determine_optimal_clusters] on [n_products];
    [//] is floor division. *)
Definition practical_cluster_count (n_products : Z) : Z :=
  if n_products <=? 10 then 2
  else if n_products <=? 50 then Z.min 5 (n_products / 10)
  else if n_products <=? 200 then Z.min 8 (n_products / 25)
  else if n_products <=? 1000 then Z.min 12 (n_products / 50)
  else Z.min 15 (n_products / 100).

Definition _determine_optimal_clusters (distance_matrix : Array2.t) : Z :=
  let n_products := Z.of_nat (length distance_matrix) in
  practical_cluster_count n_products.

(** The cluster count handed to the clustering routine:
<<
    if n_clusters is None and distance_threshold is None:
        n_clusters = self._determine_optimal_clusters(distance_matrix)
>>
*)
Definition chosen_n_clusters (n_clusters : option Z)
           (distance_threshold : option Q) (distance_matrix : Array2.t)
  : option Z :=
  match n_clusters, distance_threshold with
  | None, None => Some (_determine_optimal_clusters distance_matrix)
  | _, _ => n_clusters
  end.

(** [clusters.merge(product_info, on='StockCode', how='left')] *)
Definition merge_left (labelled : list (string * Z))
           (info : list ProductInfo) : list ClusterRow :=
  flat_map
    (fun cl =>
       match List.filter (fun p => String.eqb (pi_StockCode p) (fst cl)) info with
       | [] => [mkClusterRow (fst cl) (snd cl) None]
       | matches => map (fun p => mkClusterRow (fst cl) (snd cl) (Some p)) matches
       end)
    labelled.

Section WithClustering.
(** [AgglomerativeClustering(n_clusters, distance_threshold, linkage,
    metric='precomputed').fit_predict(distance_matrix)]: the library's
    clustering routine, one label per product or an exception. *)
Variable fit_predict :
  option Z -> option Q -> string -> Array2.t -> exn + list Z.

(** [perform_clustering].  The method accepts [max_cluster_size] and never
    reads it; its balance check only prints a warning. *)
Definition perform_clustering (self : t)
           (similarity_matrix : SimilarityMatrix)
           (product_info : list ProductInfo)
           (n_clusters : option Z) (linkage : string)
           (distance_threshold : option Q)
           (max_cluster_size : option Z)
  : t * (exn + list ClusterRow) :=
  let self := mk (clusters self) (Some similarity_matrix) (Some product_info) in
  let distance_matrix := Array2.distance (sm_values similarity_matrix) in
  let n_clusters := chosen_n_clusters n_clusters distance_threshold distance_matrix in
  match fit_predict n_clusters distance_threshold linkage distance_matrix with
  | inl e => (self, inl e)
  | inr cluster_labels =>
      let rows :=
        merge_left (combine (sm_index similarity_matrix) cluster_labels)
                   product_info in
      (mk (Some rows) (Some similarity_matrix) (Some product_info), inr rows)
  end.
End WithClustering.

(** [get_cluster_products] *)
Definition get_cluster_products (self : t) (cluster_id : Z)
  : exn + list ClusterRow :=
  match clusters self with
  | None => inl (ValueError "Clustering not performed yet. Call perform_clustering() first.")
  | Some rows => inr (List.filter (fun r => cr_Cluster r =? cluster_id) rows)
  end.

End ClusteringAnalyzer.

(** ** recommendation_generator.py *)

(** One entry of a recommendation's [products] list. *)
Record ProductEntry : Type := mkProductEntry {
  pe_StockCode : string;
  pe_Description : string;
  pe_Quantity : Z
}.

(** One recommendation dictionary. *)
Record Recommendation : Type := mkRecommendation {
  cluster_id : Z;
  coherence_score : Q;
  total_quantity_sold : Z;
  avg_unit_price : Q;
  recommendation_strength : Q;
  products : list ProductEntry;
  explanation : string
}.

Module RecommendationGenerator.

Record t : Type := mk {
  clustering_analyzer : ClusteringAnalyzer.t;
  similarity_calculator : SimilarityCalculator.t;
  product_info : option (list ProductInfo)
}.

(** [__init__] and [set_product_info] *)
Definition init (ca : ClusteringAnalyzer.t) (sc : SimilarityCalculator.t) : t :=
  mk ca sc None.

Definition set_product_info (self : t) (info : list ProductInfo) : t :=
  mk (clustering_analyzer self) (similarity_calculator self) (Some info).

(** [_calculate_cluster_coherence].  The similarity matrix is first read
    at the first pair [i < j], which exists once there are two codes. *)
Definition _calculate_cluster_coherence (self : t) (stock_codes : list string)
  : exn + Q :=
  if (length stock_codes <? 2)%nat then inr (0 # 1)%Q
  else
    match SimilarityCalculator.similarity_matrix (similarity_calculator self) with
    | None => inl (AttributeError "'NoneType' object has no attribute 'index'")
    | Some sm =>
        let similarities :=
          flat_map
            (fun ip1 =>
               flat_map
                 (fun jp2 =>
                    if (fst ip1 <? fst jp2)%nat
                       && Py.mem (snd ip1) (sm_index sm)
                       && Py.mem (snd jp2) (sm_index sm)
                    then [default (0 # 1)%Q (loc sm (snd ip1) (snd jp2))]
                    else [])
                 (enumerate stock_codes))
            (enumerate stock_codes) in
        inr (match similarities with
             | [] => (0 # 1)%Q
             | _ => Py.mean similarities
             end)
    end.

(** The loop filling [recommendation['products']]. *)
Definition product_entries (product_info : option (list ProductInfo))
           (cluster_stock_codes : list string) : list ProductEntry :=
  flat_map
    (fun stock_code =>
       match product_info with
       | Some info =>
           match List.filter (fun p => String.eqb (pi_StockCode p) stock_code) info with
           | p :: _ =>
               [mkProductEntry stock_code (pi_Description p) (pi_TotalQuantity p)]
           | [] => []
           end
       | None => [mkProductEntry stock_code "N/A" 0]
       end)
    cluster_stock_codes.

Section WithNumPy.
Context `{NumPy}.
(** [_generate_explanation]: the rendered sentence; no property below
    depends on its text. *)
Variable _generate_explanation : list ClusterRow -> string.

(** The body of the loop for one cluster inside the size window.  The
    total is the [int64] sum of the column and [total_quantity + 1] is
    computed in [int64] too.  For a non-positive argument the code's
    logarithm is not a finite number; [quantities_in_range] below is the
    condition on the product table that keeps the argument positive. *)
Definition recommend_cluster (self : t) (id : Z)
           (cluster_products : list ClusterRow) : exn + Recommendation :=
  let cluster_stock_codes := map cr_StockCode cluster_products in
  let* coherence := _calculate_cluster_coherence self cluster_stock_codes in
  let cluster_product_info :=
    match product_info self with
    | Some info =>
        List.filter (fun p => Py.mem (pi_StockCode p) cluster_stock_codes) info
    | None => []
    end in
  let entries := product_entries (product_info self) cluster_stock_codes in
  let text := _generate_explanation cluster_products in
  inr match cluster_product_info with
      | _ :: _ =>
          let total_quantity :=
            Np.int64 (Py.sumZ (map pi_TotalQuantity cluster_product_info)) in
          let avg := Py.mean (map pi_AvgUnitPrice cluster_product_info) in
          mkRecommendation id coherence total_quantity avg
            (coherence * np_log (inject_Z (Np.int64 (total_quantity + 1))))%Q
            entries text
      | [] =>
          mkRecommendation id coherence 0 (0 # 1)%Q coherence entries text
      end.

(** [for cluster_id in clusters['Cluster'].unique(): ...] *)
Fixpoint collect (self : t) (min_cluster_size max_cluster_size : Z)
         (ids : list Z) : exn + list Recommendation :=
  match ids with
  | [] => inr []
  | id :: rest =>
      let* cluster_products :=
        ClusteringAnalyzer.get_cluster_products (clustering_analyzer self) id in
      let size := Z.of_nat (length cluster_products) in
      if (min_cluster_size <=? size) && (size <=? max_cluster_size)
      then
        let* r := recommend_cluster self id cluster_products in
        let* rs := collect self min_cluster_size max_cluster_size rest in
        inr (r :: rs)
      else collect self min_cluster_size max_cluster_size rest
  end.

(** [recommendations.sort(key=lambda x: x['recommendation_strength'],
    reverse=True)] *)
Definition sort_by_strength (l : list Recommendation) : list Recommendation :=
  Py.sort_by (fun a b => Qle_bool (recommendation_strength b)
                                  (recommendation_strength a)) l.

(** [generate_recommendations]; the optional database save receives the
    same slice that is returned and is not modelled. *)
Definition generate_recommendations (self : t) (top_n : Z)
           (min_cluster_size max_cluster_size : Z)
  : exn + list Recommendation :=
  match ClusteringAnalyzer.clusters (clustering_analyzer self) with
  | None => inl (ValueError "Please perform clustering first")
  | Some rows =>
      let* recommendations :=
        collect self min_cluster_size max_cluster_size
                (Py.unique Z.eqb (map cr_Cluster rows)) in
      inr (Py.slice_to top_n (sort_by_strength recommendations))
  end.

End WithNumPy.

End RecommendationGenerator.

(** ** pandas reductions

    [Series.mean()], [Series.min()], [Series.max()] and [Series.std()]
    return NaN on a Series that is too short; NaN is [None] here. *)
Module Pd.

Definition mean (l : list Z) : option Q :=
  match l with
  | [] => None
  | _ :: _ => Some (inject_Z (Py.sumZ l) / inject_Z (Z.of_nat (length l)))%Q
  end.

Definition min (l : list Z) : option Z :=
  match l with
  | [] => None
  | x :: l' => Some (fold_left Z.min l' x)
  end.

Definition max (l : list Z) : option Z :=
  match l with
  | [] => None
  | x :: l' => Some (fold_left Z.max l' x)
  end.

(** The sample standard deviation (one degree of freedom removed). *)
Definition std `{NumPy} (l : list Z) : option Q :=
  match l with
  | [] | [_] => None
  | _ =>
      let m := (inject_Z (Py.sumZ l) / inject_Z (Z.of_nat (length l)))%Q in
      Some (np_sqrt (Py.sumQ (map (fun x => (inject_Z x - m) * (inject_Z x - m))%Q l)
                     / inject_Z (Z.of_nat (length l) - 1)))%Q
  end.

(** [Series.value_counts()] on integer labels. *)
Definition count (x : Z) (l : list Z) : Z :=
  Z.of_nat (length (List.filter (Z.eqb x) l)).

Definition value_counts (l : list Z) : list (Z * Z) :=
  Py.sort_by (fun a b => snd b <=? snd a)
             (map (fun x => (x, count x l)) (Py.unique Z.eqb l)).

End Pd.

(** ** market_basket_analyzer.py: the query methods *)

(** Dictionary returned by [get_basket_statistics]. *)
Record BasketStatistics : Type := mkBasketStatistics {
  total_baskets : Z;
  total_products : Z;
  avg_products_per_basket : option Q;
  max_products_in_basket : option Z;
  min_products_in_basket : option Z;
  sparsity : option Q
}.

Module BasketQueries.

Definition not_created : exn :=
  ValueError "Market baskets not created yet. Call create_market_baskets() first.".

(** [get_basket_matrix] and [get_frequent_products] *)
Definition get_basket_matrix (self : MarketBasketAnalyzer.t) : exn + BasketMatrix :=
  match MarketBasketAnalyzer.basket_matrix self with
  | None => inl not_created
  | Some m => inr m
  end.

Definition get_frequent_products (self : MarketBasketAnalyzer.t)
  : exn + list string :=
  match MarketBasketAnalyzer.frequent_products self with
  | None => inl not_created
  | Some l => inr l
  end.

(** The column at a position, and [basket_matrix.sum()]: the sum of every
    column under its label. *)
Definition column_at (bm : BasketMatrix) (k : nat) : list Z :=
  map (fun row => nth k row 0) (bm_rows bm).

Definition column_sums (bm : BasketMatrix) : list (string * Z) :=
  map (fun kl => (snd kl, Py.sumZ (column_at bm (fst kl))))
      (enumerate (bm_columns bm)).

(** [basket_matrix.sum(axis=1)]: the sum of every row. *)
Definition row_sums (bm : BasketMatrix) : list Z :=
  map Py.sumZ (bm_rows bm).

(** [(basket_matrix == 0).sum().sum()] *)
Definition zero_cells (bm : BasketMatrix) : Z :=
  Py.sumZ (map (fun row => Z.of_nat (length (List.filter (fun c => c =? 0) row)))
               (bm_rows bm)).

(** [get_basket_statistics]; the sparsity is a numpy division, NaN when the
    matrix has no cell. *)
Definition get_basket_statistics (self : MarketBasketAnalyzer.t)
  : exn + BasketStatistics :=
  let* bm := get_basket_matrix self in
  let shape0 := Z.of_nat (length (bm_rows bm)) in
  let shape1 := Z.of_nat (length (bm_columns bm)) in
  inr {| total_baskets := shape0;
         total_products := shape1;
         avg_products_per_basket := Pd.mean (row_sums bm);
         max_products_in_basket := Pd.max (row_sums bm);
         min_products_in_basket := Pd.min (row_sums bm);
         sparsity :=
           if shape0 * shape1 =? 0 then None
           else Some (inject_Z (zero_cells bm) / inject_Z (shape0 * shape1))%Q |}.

(** [get_product_frequency]: [basket_matrix.sum().sort_values(ascending=False)];
    equal sums keep their column order here. *)
Definition get_product_frequency (self : MarketBasketAnalyzer.t)
  : exn + list (string * Z) :=
  let* bm := get_basket_matrix self in
  inr (Py.sort_by (fun a b => snd b <=? snd a) (column_sums bm)).

(** [filter_products_by_frequency]: the columns whose sum reaches
    [min_frequency], selected from the stored matrix (column labels are
    distinct, so selecting by label is selecting by position). *)
Definition filter_products_by_frequency (self : MarketBasketAnalyzer.t)
           (min_frequency : Z) : exn + BasketMatrix :=
  let* bm := get_basket_matrix self in
  let frequent_products :=
    List.filter (fun kl => min_frequency <=? Py.sumZ (column_at bm (fst kl)))
                (enumerate (bm_columns bm)) in
  inr (mkBasketMatrix
         (map snd frequent_products)
         (map (fun row => map (fun kl => nth (fst kl) row 0) frequent_products)
              (bm_rows bm))).

End BasketQueries.

(** ** similarity_calculator.py: pairs above a threshold *)

Module SimilarityQueries.

(** [get_similarity_threshold_products] *)
Definition get_similarity_threshold_products (self : SimilarityCalculator.t)
           (threshold : Q) : exn + list (string * string * Q) :=
  let* sm := SimilarityCalculator.get_similarity_matrix self in
  let high_similarity_pairs :=
    flat_map
      (fun ip1 =>
         flat_map
           (fun jp2 =>
              if (fst ip1 <? fst jp2)%nat
              then let similarity := default (0 # 1)%Q (loc sm (snd ip1) (snd jp2)) in
                   if Qle_bool threshold similarity
                   then [(snd ip1, snd jp2, similarity)]
                   else []
              else [])
           (enumerate (sm_index sm)))
      (enumerate (sm_index sm)) in
  inr (Py.sort_by (fun a b => Qle_bool (snd b) (snd a)) high_similarity_pairs).

End SimilarityQueries.

(** ** clustering_analyzer.py: the query methods *)

(** Dictionary returned by [get_cluster_statistics]. *)
Record ClusterStatistics : Type := mkClusterStatistics {
  total_clusters : Z;
  cs_total_products : Z;
  avg_cluster_size : option Q;
  min_cluster_size : option Z;
  max_cluster_size : option Z;
  std_cluster_size : option Q;
  cluster_size_distribution : list Z
}.

Module ClusterQueries.

Definition not_performed : exn :=
  ValueError "Clustering not performed yet. Call perform_clustering() first.".

(** [get_clusters] *)
Definition get_clusters (self : ClusteringAnalyzer.t) : exn + list ClusterRow :=
  match ClusteringAnalyzer.clusters self with
  | None => inl not_performed
  | Some rows => inr rows
  end.

(** [get_cluster_statistics] *)
Definition get_cluster_statistics `{NumPy} (self : ClusteringAnalyzer.t)
  : exn + ClusterStatistics :=
  let* rows := get_clusters self in
  let cluster_counts := map snd (Pd.value_counts (map cr_Cluster rows)) in
  inr {| total_clusters := Z.of_nat (length cluster_counts);
         cs_total_products := Z.of_nat (length rows);
         avg_cluster_size := Pd.mean cluster_counts;
         min_cluster_size := Pd.min cluster_counts;
         max_cluster_size := Pd.max cluster_counts;
         std_cluster_size := Pd.std cluster_counts;
         cluster_size_distribution := cluster_counts |}.

(** The mean similarity over the pairs [i < j] of a list of stock codes
    whose two products are both in the index; 0 when there is no such
    pair. *)
Definition pairwise_coherence (sm : SimilarityMatrix) (stock_codes : list string) : Q :=
  let similarities :=
    flat_map
      (fun ip1 =>
         flat_map
           (fun jp2 =>
              if (fst ip1 <? fst jp2)%nat
                 && Py.mem (snd ip1) (sm_index sm)
                 && Py.mem (snd jp2) (sm_index sm)
              then [default (0 # 1)%Q (loc sm (snd ip1) (snd jp2))]
              else [])
           (enumerate stock_codes))
      (enumerate stock_codes) in
  match similarities with
  | [] => (0 # 1)%Q
  | _ => Py.mean similarities
  end.

(** [calculate_cluster_coherence] *)
Definition calculate_cluster_coherence (self : ClusteringAnalyzer.t)
           (cluster_id : Z) : exn + Q :=
  match ClusteringAnalyzer.clusters self, ClusteringAnalyzer.similarity_matrix self with
  | Some _, Some sm =>
      let* cluster_products := ClusteringAnalyzer.get_cluster_products self cluster_id in
      let stock_codes := map cr_StockCode cluster_products in
      if (length stock_codes <? 2)%nat then inr (0 # 1)%Q
      else inr (pairwise_coherence sm stock_codes)
  | _, _ => inl (ValueError "Clustering and similarity matrix not available.")
  end.

End ClusterQueries.

(** ** recommendation_generator.py: summary and filters *)

(** Dictionary returned by [get_recommendation_summary]. *)
Record RecommendationSummary : Type := mkRecommendationSummary {
  total_recommendations : Z;
  avg_coherence_score : Q;
  avg_strength_score : Q;
  avg_recommended_cluster_size : Q;
  total_products_recommended : Z;
  min_coherence_score : Q;
  max_coherence_score : Q;
  min_strength_score : Q;
  max_strength_score : Q
}.

Module RecommendationQueries.

(** [np.min] and [np.max] over a list with a first element. *)
Definition least (x : Q) (l : list Q) : Q := fold_left qmin l x.
Definition greatest (x : Q) (l : list Q) : Q := fold_left qmax l x.

(** [get_recommendation_summary]; the empty dictionary is [None]. *)
Definition get_recommendation_summary (recommendations : list Recommendation)
  : option RecommendationSummary :=
  match recommendations with
  | [] => None
  | first :: others =>
      let coherence_scores := map coherence_score recommendations in
      let strength_scores := map recommendation_strength recommendations in
      let cluster_sizes :=
        map (fun r => Z.of_nat (length (products r))) recommendations in
      Some {| total_recommendations := Z.of_nat (length recommendations);
              avg_coherence_score := Py.mean coherence_scores;
              avg_strength_score := Py.mean strength_scores;
              avg_recommended_cluster_size := Py.mean (map inject_Z cluster_sizes);
              total_products_recommended := Py.sumZ cluster_sizes;
              min_coherence_score :=
                least (coherence_score first) (map coherence_score others);
              max_coherence_score :=
                greatest (coherence_score first) (map coherence_score others);
              min_strength_score :=
                least (recommendation_strength first)
                      (map recommendation_strength others);
              max_strength_score :=
                greatest (recommendation_strength first)
                         (map recommendation_strength others) |}
  end.

(** [filter_recommendations_by_strength], [filter_recommendations_by_coherence] *)
Definition filter_recommendations_by_strength
           (recommendations : list Recommendation) (min_strength : Q)
  : list Recommendation :=
  List.filter (fun r => Qle_bool min_strength (recommendation_strength r))
              recommendations.

Definition filter_recommendations_by_coherence
           (recommendations : list Recommendation) (min_coherence : Q)
  : list Recommendation :=
  List.filter (fun r => Qle_bool min_coherence (coherence_score r))
              recommendations.

End RecommendationQueries.

(** ** warehouse_recommender_main.py

    The orchestrating class.  Its recommendation generator holds
    references to the system's own clustering analyzer and similarity
    calculator, so it always sees their current attributes; only the
    product table passed to [set_product_info] is the generator's own.
    The database handler is a collaborator given by two functions, each
    of which may raise; the visualization helper is not modelled. *)
Module WarehouseRecommendationSystem.

Record t : Type := mk {
  basket_analyzer : MarketBasketAnalyzer.t;
  similarity_calculator : SimilarityCalculator.t;
  clustering_analyzer : ClusteringAnalyzer.t;
  generator_product_info : option (list ProductInfo);
  df : option (list TransactionRecord);
  product_info : option (list ProductInfo)
}.

(** [__init__] *)
Definition init : t :=
  mk MarketBasketAnalyzer.init SimilarityCalculator.init ClusteringAnalyzer.init
     None None None.

(** [self.recommendation_generator], with its shared references resolved. *)
Definition recommendation_generator (self : t) : RecommendationGenerator.t :=
  RecommendationGenerator.mk (clustering_analyzer self) (similarity_calculator self)
                             (generator_product_info self).

Section WithCollaborators.
Context `{NumPy}.
(** [db_handler.load_data(query, limit)]: the cleaned table, [None] when
    the query failed, or an exception of the cleaning step; and
    [db_handler.create_product_info(df)]: the product table, or an
    exception (a table from a custom query may lack a column it reads). *)
Variable db_load_data :
  option string -> option Z -> exn + option (list TransactionRecord).
Variable db_create_product_info : list TransactionRecord -> exn + list ProductInfo.
Variable fit_predict :
  option Z -> option Q -> string -> Array2.t -> exn + list Z.
Variable _generate_explanation : list ClusterRow -> string.

(** [load_data]: [self.df] is assigned before the product table is
    built, so an exception of [create_product_info] leaves the new table
    in place with the old product table. *)
Definition load_data (self : t) (query : option string) (limit : option Z)
  : t * (exn + option (list TransactionRecord)) :=
  match db_load_data query limit with
  | inl e => (self, inl e)
  | inr (Some loaded) =>
      let self :=
        mk (basket_analyzer self) (similarity_calculator self)
           (clustering_analyzer self) (generator_product_info self)
           (Some loaded) (product_info self) in
      match db_create_product_info loaded with
      | inl e => (self, inl e)
      | inr info =>
          (mk (basket_analyzer self) (similarity_calculator self)
              (clustering_analyzer self) (Some info) (Some loaded) (Some info),
           inr (Some loaded))
      end
  | inr None =>
      (mk (basket_analyzer self) (similarity_calculator self)
          (clustering_analyzer self) (generator_product_info self) None
          (product_info self),
       inr None)
  end.

(** [create_market_baskets] *)
Definition create_market_baskets (self : t) (min_support : Z)
  : t * (exn + BasketMatrix) :=
  match df self with
  | None => (self, inl (ValueError "Please load data first using load_data()"))
  | Some table =>
      let (analyzer, result) :=
        MarketBasketAnalyzer.create_market_baskets (basket_analyzer self)
                                                   table min_support in
      (mk analyzer (similarity_calculator self) (clustering_analyzer self)
          (generator_product_info self) (df self) (product_info self),
       result)
  end.

(** [calculate_similarity_matrix] *)
Definition calculate_similarity_matrix (self : t) (metric : string)
  : t * (exn + SimilarityMatrix) :=
  match MarketBasketAnalyzer.basket_matrix (basket_analyzer self) with
  | None =>
      (self, inl (ValueError "Please create market baskets first using create_market_baskets()"))
  | Some bm =>
      let (calculator, result) :=
        SimilarityCalculator.calculate_similarity_matrix
          (similarity_calculator self) bm metric in
      (mk (basket_analyzer self) calculator (clustering_analyzer self)
          (generator_product_info self) (df self) (product_info self),
       result)
  end.

(** [perform_clustering] *)
Definition perform_clustering (self : t) (n_clusters : option Z)
           (linkage : string) (distance_threshold : option Q)
           (max_cluster_size : option Z) : t * (exn + list ClusterRow) :=
  match SimilarityCalculator.similarity_matrix (similarity_calculator self) with
  | None =>
      (self, inl (ValueError "Please calculate similarity matrix first using calculate_similarity_matrix()"))
  | Some sm =>
      match product_info self with
      | None =>
          (self, inl (ValueError "Product info not available. Please load data first."))
      | Some info =>
          let (analyzer, result) :=
            ClusteringAnalyzer.perform_clustering
              fit_predict (clustering_analyzer self) sm info
              n_clusters linkage distance_threshold max_cluster_size in
          (mk (basket_analyzer self) (similarity_calculator self) analyzer
              (generator_product_info self) (df self) (product_info self),
           result)
      end
  end.

(** [generate_recommendations]; the database save is the generator's and
    is not modelled. *)
Definition generate_recommendations (self : t) (top_n : Z)
           (min_cluster_size max_cluster_size : Z)
  : exn + list Recommendation :=
  match ClusteringAnalyzer.clusters (clustering_analyzer self) with
  | None =>
      inl (ValueError "Please perform clustering first using perform_clustering()")
  | Some _ =>
      RecommendationGenerator.generate_recommendations
        _generate_explanation (recommendation_generator self)
        top_n min_cluster_size max_cluster_size
  end.

End WithCollaborators.

End WarehouseRecommendationSystem.

(** ** app.py: the quick-test run

    The body of the [quick_test] endpoint, the same sequence of calls as
    [quick_test.py]: load, baskets, jaccard similarities, clustering with
    an explicit cluster count, recommendations with the default
    [min_cluster_size = 2].  [inr None] is the "failed to load" answer;
    an exception ([inl]) is what the endpoint reports as an HTTP error.
    Request validation and the response envelope are not modelled. *)
Module App.
Section WithCollaborators.
Context `{NumPy}.
Variable db_load_data :
  option string -> option Z -> exn + option (list TransactionRecord).
Variable db_create_product_info : list TransactionRecord -> exn + list ProductInfo.
Variable fit_predict :
  option Z -> option Q -> string -> Array2.t -> exn + list Z.
Variable _generate_explanation : list ClusterRow -> string.


End WithCollaborators.
End App.

(** ** A rational stand-in for the numpy functions

    Used to run the definitions on sample inputs: the square root is
    truncated to four decimal places, the logarithm to the binary order of
    magnitude. *)
Definition truncated_sqrt (q : Q) : Q :=
  Z.sqrt (Qnum q * QDen q * 100000000) # (10000 * Qden q).

Definition truncated_log (q : Q) : Q :=
  inject_Z (Z.log2 (Qnum q / QDen q)).

Definition TruncatedNumPy : NumPy :=
  {| np_sqrt := truncated_sqrt; np_log := truncated_log |}.

(** ** Notions used to state the properties *)

(** Number of orders of [df] with at least one line item for [product]. *)
Definition orders_containing (df : list TransactionRecord) (product : string) : Z :=
  Z.of_nat (length (Py.unique String.eqb
                      (map InvoiceNo
                           (List.filter (fun r => String.eqb (StockCode r) product) df)))).

(** Number of cells of a basket row set to 1. *)
Definition set_cells (row : list Z) : Z :=
  Z.of_nat (length (List.filter (fun c => c =? 1) row)).

(** No basket keeps two or more line items of frequent products, the test
    [len(products_in_basket) > 1] of the loop failing for every invoice. *)
Definition no_basket_survives (df : list TransactionRecord) (min_support : Z) : bool :=
  forallb
    (fun b => (length (List.filter
                         (fun p => Py.mem p (MarketBasketAnalyzer.select_frequent df min_support))
                         (snd b)) <? 2)%nat)
    (MarketBasketAnalyzer.groupby_InvoiceNo df).

(** An optional matrix entry equal, as a number, to [q]. *)
Definition entry_is (o : option Q) (q : Q) : Prop :=
  match o with
  | Some x => (x == q)%Q
  | None => False
  end.

(** No order lists the same product on two line items. *)
Definition no_repeated_line (df : list TransactionRecord) : Prop :=
  List.NoDup (map (fun r => (InvoiceNo r, StockCode r)) df).

(** The jaccard similarity matrix the pipeline computes from a table. *)
Definition jaccard_pipeline `{NumPy} (df : list TransactionRecord) (min_support : Z)
  : exn + SimilarityMatrix :=
  let* bm := snd (MarketBasketAnalyzer.create_market_baskets
                    MarketBasketAnalyzer.init df min_support) in
  snd (SimilarityCalculator.calculate_similarity_matrix
         SimilarityCalculator.init bm "jaccard").

(** The cluster-count table as the specification words it, [n/k] being
    the integer quotient. *)
Definition heuristic_lookup (n : Z) : Z :=
  if n <=? 10 then 2
  else if n <=? 50 then Z.min 5 (Z.quot n 10)
  else if n <=? 200 then Z.min 8 (Z.quot n 25)
  else if n <=? 1000 then Z.min 12 (Z.quot n 50)
  else Z.min 15 (Z.quot n 100).

(** The range of the table a product count falls in. *)
Definition size_band (n : Z) : Z :=
  if n <=? 10 then 0
  else if n <=? 50 then 1
  else if n <=? 200 then 2
  else if n <=? 1000 then 3
  else 4.

(** Every entry above the diagonal, zero or not, in row-major order. *)
Definition strict_upper_triangle (a : Array2.t) : list Q :=
  concat (imap (fun i row => drop (S i) row) a).

(** Scores listed from the largest to the smallest. *)
Definition descending {A : Type} (score : A -> Q) (l : list A) : Prop :=
  StronglySorted (fun a b => (score b <= score a)%Q) l.

(** The clusters of a table whose member count lies in
    [[min_cluster_size, max_cluster_size]], in order of first appearance. *)
Definition member_count (rows : list ClusterRow) (id : Z) : Z :=
  Z.of_nat (length (List.filter (fun r => cr_Cluster r =? id) rows)).

(** A product table whose quantities are non-negative and add up to less
    than [2^63 - 1]: no sum over rows of the table leaves [int64], and the
    argument [total_quantity + 1] of [np.log] is positive, so that every
    strength is a finite number.  A generator without a table takes no
    logarithm. *)
Definition quantities_in_range (product_info : option (list ProductInfo)) : Prop :=
  match product_info with
  | None => True
  | Some info =>
      (forall p, In p info -> 0 <= pi_TotalQuantity p)
      /\ Py.sumZ (map pi_TotalQuantity info) < 2 ^ 63 - 1
  end.

Definition clusters_in_window (rows : list ClusterRow)
           (min_cluster_size max_cluster_size : Z) : list Z :=
  List.filter
    (fun id => (min_cluster_size <=? member_count rows id)
               && (member_count rows id <=? max_cluster_size))
    (Py.unique Z.eqb (map cr_Cluster rows)).

(** ** Sample inputs *)

Definition line (invoice product : string) : TransactionRecord :=
  mkTransaction invoice product 1.

(** Orders O1={A,B}, O2={A,B,C}, O3={A,B}, O4={C,D}. *)
Definition scenario_orders : list TransactionRecord :=
  [line "O1" "A"; line "O1" "B";
   line "O2" "A"; line "O2" "B"; line "O2" "C";
   line "O3" "A"; line "O3" "B";
   line "O4" "C"; line "O4" "D"]%string.

(** One order listing product A on two line items. *)
Definition repeated_line_order : list TransactionRecord :=
  [line "O1" "A"; line "O1" "A"]%string.

(** One order with a single line item. *)
Definition single_line_order : list TransactionRecord :=
  [line "O1" "A"]%string.

(** Two baskets over products A and B. *)
Definition two_baskets : BasketMatrix :=
  mkBasketMatrix ["A"; "B"]%string [[1; 1]; [1; 0]].

(** The basket matrix of the scenario, its jaccard similarities, and the
    calculator after that run. *)
Definition scenario_baskets : BasketMatrix :=
  mkBasketMatrix ["A"; "B"; "C"; "D"]%string
    [[1; 1; 0; 0]; [1; 1; 1; 0]; [1; 1; 0; 0]; [0; 0; 1; 1]].

Definition scenario_similarity : SimilarityMatrix :=
  mkSimilarityMatrix (bm_columns scenario_baskets)
    (SimilarityCalculator._calculate_jaccard_similarity scenario_baskets).

Definition scenario_calculator : SimilarityCalculator.t :=
  SimilarityCalculator.mk (Some scenario_similarity) (Some scenario_baskets).

(** A product table that knows A, C and D but not B. *)
Definition sample_product_info : list ProductInfo :=
  [mkProductInfo "A" "apple" (3 # 2) 10;
   mkProductInfo "C" "cherry" (2 # 1) 20;
   mkProductInfo "D" "date" (5 # 2) 5]%string.

(** Three clusters over the scenario's products: {A, B}, {C}, {D}. *)
Definition sample_rows : list ClusterRow :=
  ClusteringAnalyzer.merge_left
    [("A", 0); ("B", 0); ("C", 1); ("D", 2)]%string sample_product_info.

Definition sample_clusters : ClusteringAnalyzer.t :=
  ClusteringAnalyzer.mk (Some sample_rows) (Some scenario_similarity)
                        (Some sample_product_info).

(** A generator before and after [set_product_info]. *)
Definition generator_without_table : RecommendationGenerator.t :=
  RecommendationGenerator.init sample_clusters scenario_calculator.

Definition sample_generator : RecommendationGenerator.t :=
  RecommendationGenerator.set_product_info generator_without_table sample_product_info.

Definition sample_explanation (cluster_products : list ClusterRow) : string :=
  "Placing them close together can reduce picking time and improve warehouse efficiency."%string.

(** The label at a position of an index ([products[k]]). *)
Definition label_at (products : list string) (k : nat) : string :=
  nth k products ""%string.

(** One iteration of the loop nest of [fill_pairs], for the pair of
    enumerated products [w]. *)
Definition write_pair (value : string -> string -> Q) (m : Array2.t)
           (w : (nat * string) * (nat * string)) : Array2.t :=
  if (fst (fst w) <=? fst (snd w))%nat
  then let v := value (snd (fst w)) (snd (snd w)) in
       Array2.set (Array2.set m (fst (fst w)) (fst (snd w)) v)
                  (fst (snd w)) (fst (fst w)) v
  else m.

(** The iteration for [w] writes the cell [(x, y)]. *)
Definition writes_cell (w : (nat * string) * (nat * string)) (x y : nat) : bool :=
  (fst (fst w) <=? fst (snd w))%nat
  && (((x =? fst (fst w))%nat && (y =? fst (snd w))%nat)
      || ((x =? fst (snd w))%nat && (y =? fst (fst w))%nat)).

(** The value the loop nest leaves in cell [(x, y)]: the pair is scored
    once, from the product at the lower position to the one at the
    higher position. *)
Definition pair_value (products : list string) (value : string -> string -> Q)
           (x y : nat) : Q :=
  value (label_at products (Nat.min x y)) (label_at products (Nat.max x y)).

(** A score between 0 and 1. *)
Definition unit_range (q : Q) : Prop := (0 <= q)%Q /\ (q <= 1)%Q.

(** Number of baskets (rows) whose cell for [product] is 1. *)
Definition baskets_with (bm : BasketMatrix) (product : string) : Z :=
  set_cells (SimilarityCalculator.column bm product).

(** A clustering routine answering with the labels 0, 0, 1, 2. *)
Definition sample_fit_predict (n_clusters : option Z) (distance_threshold : option Q)
           (linkage : string) (distance_matrix : Array2.t) : exn + list Z :=
  inr [0; 0; 1; 2].

(** The row of a product table for a stock code, if any. *)
Definition info_of (info : list ProductInfo) (code : string) : option ProductInfo :=
  List.find (fun p => String.eqb (pi_StockCode p) code) info.

(** Two recommendations, the stronger first. *)
Definition sample_recommendations : list Recommendation :=
  [mkRecommendation 0 (4 # 5) 30 (3 # 2) (27 # 10)
     [mkProductEntry "A" "apple" 10; mkProductEntry "B" "banana" 20] "";
   mkRecommendation 1 (1 # 2) 25 (9 # 4) (8 # 5)
     [mkProductEntry "C" "cherry" 20; mkProductEntry "D" "date" 5] ""]%string.

(** A loader that finds the scenario's orders, and the product table it
    is summarised to. *)
Definition sample_load_data (query : option string) (limit : option Z)
  : exn + option (list TransactionRecord) := inr (Some scenario_orders).

Definition sample_create_product_info (table : list TransactionRecord)
  : exn + list ProductInfo := inr sample_product_info.


(** The states of the orchestrating class a caller can bring about: a
    fresh system, and the state left by any call of one of its four
    mutating methods, whatever the arguments and whether or not the call
    raised. *)
Section Reachable.
Context `{NumPy}.
Variable db_load_data :
  option string -> option Z -> exn + option (list TransactionRecord).
Variable db_create_product_info : list TransactionRecord -> exn + list ProductInfo.
Variable fit_predict :
  option Z -> option Q -> string -> Array2.t -> exn + list Z.

Inductive reachable : WarehouseRecommendationSystem.t -> Prop :=
| reachable_init : reachable WarehouseRecommendationSystem.init
| reachable_load_data (self : WarehouseRecommendationSystem.t)
    (query : option string) (limit : option Z) :
    reachable self ->
    reachable (fst (WarehouseRecommendationSystem.load_data
                      db_load_data db_create_product_info self query limit))
| reachable_create_market_baskets (self : WarehouseRecommendationSystem.t)
    (min_support : Z) :
    reachable self ->
    reachable (fst (WarehouseRecommendationSystem.create_market_baskets
                      self min_support))
| reachable_calculate_similarity_matrix (self : WarehouseRecommendationSystem.t)
    (metric : string) :
    reachable self ->
    reachable (fst (WarehouseRecommendationSystem.calculate_similarity_matrix
                      self metric))
| reachable_perform_clustering (self : WarehouseRecommendationSystem.t)
    (n_clusters : option Z) (linkage : string) (distance_threshold : option Q)
    (max_cluster_size : option Z) :
    reachable self ->
    reachable (fst (WarehouseRecommendationSystem.perform_clustering
                      fit_predict self n_clusters linkage distance_threshold
                      max_cluster_size)).

End Reachable.

(** The four stages run on a fresh system, one after the other. *)
Definition sample_loaded : WarehouseRecommendationSystem.t :=
  fst (WarehouseRecommendationSystem.load_data
         sample_load_data sample_create_product_info
         WarehouseRecommendationSystem.init None (Some 1000)).

Definition sample_basketed : WarehouseRecommendationSystem.t :=
  fst (WarehouseRecommendationSystem.create_market_baskets sample_loaded 1).

Definition sample_scored : WarehouseRecommendationSystem.t :=
  fst (WarehouseRecommendationSystem.calculate_similarity_matrix
         (H := TruncatedNumPy) sample_basketed "jaccard").

Definition sample_system : WarehouseRecommendationSystem.t :=
  fst (WarehouseRecommendationSystem.perform_clustering
         sample_fit_predict sample_scored (Some 3) "complete" None None).

(** A handler whose [create_product_info] raises, and the system after
    loading with it, building baskets and computing similarities. *)
Definition failing_create_product_info (table : list TransactionRecord)
  : exn + list ProductInfo := inl (KeyError "UnitPrice").

Definition system_without_product_info : WarehouseRecommendationSystem.t :=
  fst (WarehouseRecommendationSystem.calculate_similarity_matrix
         (H := TruncatedNumPy)
         (fst (WarehouseRecommendationSystem.create_market_baskets
                 (fst (WarehouseRecommendationSystem.load_data
                         sample_load_data failing_create_product_info
                         WarehouseRecommendationSystem.init None (Some 1000)))
                 1))
         "jaccard").

(** The row of the product table shown for a cluster member, as the
    [products] loop picks it: the first row with that stock code. *)
Definition shown_quantity (info : list ProductInfo) (code : string) : Z :=
  match info_of info code with
  | Some p => pi_TotalQuantity p
  | None => 0
  end.


(** * Properties *)

(** ** Sorting and slicing *)

Section SortFacts.
Context {A : Type} (leb : A -> A -> bool).
Hypothesis leb_total : forall a b, leb a b = false -> leb b a = true.
Hypothesis leb_trans :
  forall a b c, leb a b = true -> leb b c = true -> leb a c = true.

Lemma insert_by_perm (x : A) (l : list A) :
  Permutation (Py.insert_by leb x l) (x :: l).
Proof.
  induction l as [|y l IH]; simpl.
  - apply Permutation_refl.
  - destruct (leb x y).
    + apply Permutation_refl.
    + eapply perm_trans; [apply perm_skip, IH | apply perm_swap].
Qed.

Lemma sort_by_perm (l : list A) : Permutation (Py.sort_by leb l) l.
Proof.
  induction l as [|x l IH]; simpl.
  - apply perm_nil.
  - eapply perm_trans; [apply insert_by_perm | apply perm_skip, IH].
Qed.

Lemma insert_by_sorted (x : A) (l : list A) :
  StronglySorted (fun a b => leb a b = true) l ->
  StronglySorted (fun a b => leb a b = true) (Py.insert_by leb x l).
Proof.
  induction 1 as [|y l Hs IH Hy]; simpl.
  - constructor; [constructor | constructor].
  - destruct (leb x y) eqn:Hxy.
    + constructor; [constructor; assumption |].
      constructor; [exact Hxy |].
      rewrite List.Forall_forall in Hy. apply List.Forall_forall.
      intros z Hz. exact (leb_trans _ _ _ Hxy (Hy z Hz)).
    + constructor; [exact IH |].
      apply List.Forall_forall. intros z Hz.
      apply (Permutation_in _ (insert_by_perm x l)) in Hz.
      destruct Hz as [<- | Hz].
      * exact (leb_total _ _ Hxy).
      * rewrite List.Forall_forall in Hy. exact (Hy z Hz).
Qed.

Lemma sort_by_sorted (l : list A) :
  StronglySorted (fun a b => leb a b = true) (Py.sort_by leb l).
Proof.
  induction l as [|x l IH]; simpl.
  - constructor.
  - apply insert_by_sorted, IH.
Qed.

End SortFacts.

Lemma StronglySorted_firstn {A : Type} (R : A -> A -> Prop) (n : nat) (l : list A) :
  StronglySorted R l -> StronglySorted R (firstn n l).
Proof.
  intros Hs. revert n.
  induction Hs as [|x l Hs IH Hx]; intros [|n]; simpl; try constructor.
  - apply IH.
  - apply List.Forall_forall. intros y Hy.
    rewrite List.Forall_forall in Hx. apply Hx.
    rewrite <- (firstn_skipn n l). apply in_or_app. left. exact Hy.
Qed.

Lemma StronglySorted_filter {A : Type} (R : A -> A -> Prop) (f : A -> bool)
      (l : list A) :
  StronglySorted R l -> StronglySorted R (List.filter f l).
Proof.
  induction 1 as [|x l Hs IH Hx]; simpl; [constructor |].
  destruct (f x); [| exact IH].
  constructor; [exact IH |].
  apply List.Forall_forall. intros y Hy.
  rewrite List.Forall_forall in Hx. apply Hx.
  apply filter_In in Hy. tauto.
Qed.

Lemma slice_to_firstn {A : Type} (n : Z) (l : list A) :
  exists k : nat, Py.slice_to n l = firstn k l.
Proof.
  unfold Py.slice_to. destruct (0 <=? n); eexists; reflexivity.
Qed.

Lemma slice_to_sorted {A : Type} (R : A -> A -> Prop) (n : Z) (l : list A) :
  StronglySorted R l -> StronglySorted R (Py.slice_to n l).
Proof.
  intros Hs. destruct (slice_to_firstn n l) as [k ->].
  apply StronglySorted_firstn, Hs.
Qed.

Lemma slice_to_length {A : Type} (n : Z) (l : list A) :
  0 <= n -> Z.of_nat (length (Py.slice_to n l)) <= n.
Proof.
  intros Hn. unfold Py.slice_to.
  destruct (0 <=? n) eqn:E; [| apply Z.leb_gt in E; lia].
  pose proof (firstn_le_length (Z.to_nat n) l). rewrite length_firstn. lia.
Qed.

Lemma slice_to_incl {A : Type} (n : Z) (l : list A) (x : A) :
  In x (Py.slice_to n l) -> In x l.
Proof.
  destruct (slice_to_firstn n l) as [k ->]. intros Hx.
  rewrite <- (firstn_skipn k l). apply in_or_app. left. exact Hx.
Qed.

(** The descending order on similarity and strength scores is total and
    transitive. *)
Lemma Qge_bool_total (a b : Q) : Qle_bool b a = false -> Qle_bool a b = true.
Proof.
  intros Hba. apply Qle_bool_iff.
  destruct (Qlt_le_dec b a) as [Hlt | Hle].
  - apply Qlt_le_weak in Hlt. apply Qle_bool_iff in Hlt. congruence.
  - exact Hle.
Qed.

Lemma Qge_bool_trans (a b c : Q) :
  Qle_bool b a = true -> Qle_bool c b = true -> Qle_bool c a = true.
Proof.
  rewrite !Qle_bool_iff. intros Hba Hcb. exact (Qle_trans _ _ _ Hcb Hba).
Qed.

(** ** Arrays written pair by pair *)

Lemma lookup_map {A B : Type} (f : A -> B) (l : list A) (i : nat) :
  map f l !! i = f <$> (l !! i).
Proof. revert i. induction l as [|x l IH]; intros [|i]; simpl; auto. Qed.

Lemma fold_left_invariant {A B : Type} (P : A -> Prop) (I : B -> Prop)
      (f : A -> B -> A) (l : list B) (a : A) :
  (forall a b, P a -> I b -> P (f a b)) ->
  List.Forall I l -> P a -> P (fold_left f l a).
Proof.
  intros Hstep Hl. revert a.
  induction Hl as [|b l Hb Hl IH]; simpl; intros a Ha; [exact Ha |].
  apply IH, Hstep; assumption.
Qed.

Lemma enumerate_bound {A : Type} (l : list A) :
  List.Forall (fun ip => (fst ip < length l)%nat) (enumerate l).
Proof.
  apply List.Forall_forall. intros [i p] Hin. simpl.
  apply in_combine_l in Hin. apply in_seq in Hin. lia.
Qed.

Module Array2Facts.
Import Array2.

Lemma zeros_square (n : nat) : square n (zeros n n).
Proof.
  unfold square, zeros. split.
  - apply length_replicate.
  - apply List.Forall_forall. intros row Hrow.
    apply list_elem_of_In, elem_of_replicate in Hrow.
    destruct Hrow as [-> _]. apply length_replicate.
Qed.

Lemma zeros_symmetric (n : nat) : symmetric (zeros n n).
Proof.
  intros i j. unfold get, zeros.
  destruct (decide (i < n)%nat) as [Hi | Hi];
    destruct (decide (j < n)%nat) as [Hj | Hj].
  - rewrite (lookup_replicate_2 n _ i), (lookup_replicate_2 n _ j) by assumption.
    cbn [mbind option_bind].
    rewrite !lookup_replicate_2 by assumption. reflexivity.
  - rewrite (lookup_replicate_2 n _ i) by assumption.
    rewrite (proj1 (lookup_replicate_None n _ j)) by lia.
    cbn [mbind option_bind]. apply lookup_replicate_None. lia.
  - rewrite (lookup_replicate_2 n _ j) by assumption.
    rewrite (proj1 (lookup_replicate_None n _ i)) by lia.
    cbn [mbind option_bind]. symmetry. apply lookup_replicate_None. lia.
  - rewrite (proj1 (lookup_replicate_None n _ i)) by lia.
    rewrite (proj1 (lookup_replicate_None n _ j)) by lia. reflexivity.
Qed.

Lemma set_square (n : nat) (a : t) (i j : nat) (v : Q) :
  square n a -> square n (set a i j v).
Proof.
  intros [Hlen Hrows]. unfold set. split.
  - rewrite length_alter. exact Hlen.
  - apply Forall_alter; [exact Hrows |].
    intros row _ Hrow. rewrite length_insert. exact Hrow.
Qed.

(** Reading after a write inside an [n] by [n] array. *)
Lemma get_set (n : nat) (a : t) (i j x y : nat) (v : Q) :
  square n a -> (i < n)%nat -> (j < n)%nat ->
  get (set a i j v) x y =
    if decide (x = i /\ y = j) then Some v else get a x y.
Proof.
  intros [Hlen Hrows] Hi Hj. unfold get, set.
  destruct (decide (x = i)) as [-> | Hx].
  - rewrite list_lookup_alter_eq.
    destruct (lookup_lt_is_Some_2 a i) as [row Hrow]; [lia |].
    rewrite Hrow. simpl.
    assert (length row = n) as Hrn.
    { rewrite List.Forall_forall in Hrows. apply Hrows.
      apply list_elem_of_In, list_elem_of_lookup. eauto. }
    destruct (decide (y = j)) as [-> | Hy].
    + rewrite list_lookup_insert_eq by lia.
      destruct (decide (i = i /\ j = j)); [reflexivity | tauto].
    + rewrite list_lookup_insert_ne by congruence.
      destruct (decide (i = i /\ y = j)); [tauto | reflexivity].
  - rewrite list_lookup_alter_ne by congruence.
    destruct (decide (x = i /\ y = j)); [tauto | reflexivity].
Qed.

(** Writing the same value at [(i, j)] and [(j, i)] keeps a symmetric
    array symmetric. *)
Lemma set_mirrored (n : nat) (a : t) (i j : nat) (v : Q) :
  (i < n)%nat -> (j < n)%nat ->
  square n a /\ symmetric a ->
  square n (set (set a i j v) j i v) /\ symmetric (set (set a i j v) j i v).
Proof.
  intros Hi Hj [Hsq Hsym]. split.
  - apply set_square, set_square, Hsq.
  - intros x y.
    rewrite !(get_set n) by (try apply set_square; assumption).
    specialize (Hsym x y).
    repeat case_decide; try reflexivity; try exact Hsym; exfalso; tauto.
Qed.

End Array2Facts.

(** The shared loop nest produces a symmetric square array whatever the
    per-pair value is. *)
Lemma fill_pairs_square_symmetric (products : list string)
      (value : string -> string -> Q) :
  let filled :=
    SimilarityCalculator.fill_pairs products value
      (Array2.zeros (length products) (length products)) in
  Array2.square (length products) filled /\ Array2.symmetric filled.
Proof.
  set (n := length products). cbv zeta.
  unfold SimilarityCalculator.fill_pairs.
  apply (fold_left_invariant
           (fun m => Array2.square n m /\ Array2.symmetric m)
           (fun ip => (fst ip < n)%nat)).
  - intros m ip1 Hm Hi.
    apply (fold_left_invariant
             (fun m => Array2.square n m /\ Array2.symmetric m)
             (fun jp => (fst jp < n)%nat)).
    + intros m' jp2 Hm' Hj.
      destruct (fst ip1 <=? fst jp2)%nat; [| exact Hm'].
      apply Array2Facts.set_mirrored; assumption.
    + apply enumerate_bound.
    + exact Hm.
  - apply enumerate_bound.
  - split; [apply Array2Facts.zeros_square | apply Array2Facts.zeros_symmetric].
Qed.

(** Rational multiplication commutes on the representation. *)
Lemma Qmult_comm_eq (x y : Q) : (x * y)%Q = (y * x)%Q.
Proof.
  destruct x as [a b], y as [c d]. unfold Qmult. simpl.
  f_equal; [apply Z.mul_comm | apply Pos.mul_comm].
Qed.

Section CosineFacts.
Context `{NumPy}.

Lemma dot_comm (u v : list Q) : Sklearn.dot u v = Sklearn.dot v u.
  Proof.
    unfold Sklearn.dot. revert v.
    induction u as [|a u IH]; intros [|b v]; simpl; try reflexivity.
    unfold Py.sumQ in *. rewrite IH, (Qmult_comm_eq a b). reflexivity.
  Qed.

Lemma gram_symmetric (X : list (list Q)) : Array2.symmetric (Sklearn.gram X).
  Proof.
    intros i j. unfold Array2.get, Sklearn.gram.
    rewrite !lookup_map.
    destruct (X !! i) as [u|] eqn:Hu; destruct (X !! j) as [v|] eqn:Hv; simpl;
      rewrite ?lookup_map, ?Hu, ?Hv; simpl; try reflexivity.
    rewrite dot_comm. reflexivity.
  Qed.

Lemma gram_square (X : list (list Q)) :
  Array2.square (length X) (Sklearn.gram X).
Proof.
  unfold Array2.square, Sklearn.gram. split.
  - apply length_map.
  - apply List.Forall_forall. intros row Hrow.
    apply in_map_iff in Hrow as [u [<- _]]. apply length_map.
Qed.

Lemma normalize_length (X : list (list Q)) :
  length (Sklearn.normalize X) = length X.
Proof. unfold Sklearn.normalize. apply length_map. Qed.

Lemma transposed_length (bm : BasketMatrix) :
  length (SimilarityCalculator.transposed bm) = length (bm_columns bm).
Proof.
  unfold SimilarityCalculator.transposed. rewrite length_map. apply length_seq.
Qed.

Lemma transposed_row_length (bm : BasketMatrix) (row : list Q) :
  In row (SimilarityCalculator.transposed bm) -> length row = length (bm_rows bm).
Proof.
  unfold SimilarityCalculator.transposed. intros Hin.
  apply in_map_iff in Hin as [k [<- _]]. apply length_map.
Qed.

End CosineFacts.

(** On a symmetric matrix the labelled reads [loc[p, q]] and [loc[q, p]]
    agree. *)
Lemma loc_symmetric (sm : SimilarityMatrix) (p q : string) :
  Array2.symmetric (sm_values sm) -> loc sm p q = loc sm q p.
Proof.
  intros Hsym. unfold loc.
  destruct (index_of p (sm_index sm)) as [i|];
    destruct (index_of q (sm_index sm)) as [j|]; simpl; try reflexivity.
  apply Hsym.
Qed.

(** ** The lift metric: the support loop and the pair loop *)

Lemma fold_left_ext_in {A B : Type} (f g : A -> B -> A) (l : list B) (a : A) :
  (forall a b, In b l -> f a b = g a b) -> fold_left f l a = fold_left g l a.
Proof.
  revert a. induction l as [|b l IH]; simpl; intros a Hext; [reflexivity |].
  rewrite (Hext a b (or_introl eq_refl)). apply IH.
  intros a' b' Hb'. apply Hext. right. exact Hb'.
Qed.

Lemma fill_pairs_ext (products : list string)
      (value value' : string -> string -> Q) (matrix : Array2.t) :
  (forall p q, In p products -> In q products -> value p q = value' p q) ->
  SimilarityCalculator.fill_pairs products value matrix
  = SimilarityCalculator.fill_pairs products value' matrix.
Proof.
  intros Hext. unfold SimilarityCalculator.fill_pairs.
  apply fold_left_ext_in. intros m ip1 Hip1.
  apply fold_left_ext_in. intros m' jp2 Hjp2.
  rewrite (Hext (snd ip1) (snd jp2)); [reflexivity | |].
  - destruct ip1 as [i p]. apply in_combine_r in Hip1. exact Hip1.
  - destruct jp2 as [j q]. apply in_combine_r in Hjp2. exact Hjp2.
Qed.

(** With at least one transaction the support loop returns; it keeps the
    bindings it started with and stores, for every product, its column
    sum divided by the number of transactions. *)
Lemma support_loop_bindings (bm : BasketMatrix) (n_transactions : Z)
      (products : list string) (support : list (string * Q)) :
  n_transactions <> 0 ->
  (forall e, In e support ->
     snd e = (inject_Z (Py.sumZ (SimilarityCalculator.column bm (fst e)))
              / inject_Z n_transactions)%Q) ->
  exists stored : list (string * Q),
    SimilarityCalculator.support_loop bm n_transactions products support
    = inr stored
    /\ (forall e, In e stored ->
          snd e = (inject_Z (Py.sumZ (SimilarityCalculator.column bm (fst e)))
                   / inject_Z n_transactions)%Q)
    /\ (forall e, In e support -> In e stored)
    /\ (forall p, In p products -> exists e, In e stored /\ fst e = p).
Proof.
  intros Hn. revert support.
  induction products as [|product rest IH]; intros support Hsupport.
  - exists support. split; [reflexivity |]. split; [exact Hsupport |].
    split; [auto |]. intros p [].
  - cbn [SimilarityCalculator.support_loop]. unfold Py.true_divide.
    destruct (Z.eqb_spec n_transactions 0) as [Hz | _]; [contradiction |].
    cbn [bind_exn].
    destruct (IH ((product,
                   (inject_Z (Py.sumZ (SimilarityCalculator.column bm product))
                    / inject_Z n_transactions)%Q) :: support))
      as [stored [Hstored [Hvalues [Hkept Hkeys]]]].
    { intros e [<- | He]; [reflexivity | apply Hsupport, He]. }
    exists stored. split; [exact Hstored |]. split; [exact Hvalues |].
    split; [intros e He; apply Hkept; right; exact He |].
    intros p [<- | Hp]; [| apply Hkeys, Hp].
    eexists. split; [apply Hkept; left; reflexivity | reflexivity].
Qed.

Lemma support_get_stored (stored : list (string * Q)) (value : string -> Q)
      (product : string) :
  (forall e, In e stored -> snd e = value (fst e)) ->
  (exists e, In e stored /\ fst e = product) ->
  SimilarityCalculator.support_get stored product = value product.
Proof.
  intros Hvalues [e [He Hkey]]. unfold SimilarityCalculator.support_get.
  destruct (List.find _ stored) as [found|] eqn:Hfind.
  - apply find_some in Hfind as [Hin Heq]. apply String.eqb_eq in Heq.
    rewrite (Hvalues found Hin), Heq. reflexivity.
  - apply (find_none _ _ Hfind) in He. rewrite Hkey, String.eqb_refl in He.
    discriminate He.
Qed.

(** The two outcomes of [_calculate_lift_similarity]: on a matrix without
    rows but with a column the first division raises; otherwise the pair
    loop fills the matrix with the lift scores. *)
Lemma calculate_lift_similarity_outcome (bm : BasketMatrix) :
  SimilarityCalculator._calculate_lift_similarity bm
  = match bm_rows bm, bm_columns bm with
    | [], _ :: _ => inl (ZeroDivisionError "division by zero")
    | _, _ =>
        inr (SimilarityCalculator.fill_pairs
               (bm_columns bm) (SimilarityCalculator.lift_similarity bm)
               (Array2.zeros (length (bm_columns bm)) (length (bm_columns bm))))
    end.
Proof.
  unfold SimilarityCalculator._calculate_lift_similarity. cbv zeta.
  destruct (bm_rows bm) as [|row rows] eqn:Hrows.
  - destruct (bm_columns bm) as [|product rest]; reflexivity.
  - destruct (support_loop_bindings bm (Z.of_nat (length (row :: rows)))
                (bm_columns bm) []) as [stored [Hstored [Hvalues [_ Hkeys]]]].
    { simpl length. lia. }
    { intros e []. }
    rewrite Hstored. cbn [bind_exn].
    assert (inr (B := Array2.t) (A := exn)
              (SimilarityCalculator.fill_pairs
                 (bm_columns bm)
                 (SimilarityCalculator.lift_of
                    bm (SimilarityCalculator.support_get stored))
                 (Array2.zeros (length (bm_columns bm)) (length (bm_columns bm))))
            = inr (SimilarityCalculator.fill_pairs
                     (bm_columns bm) (SimilarityCalculator.lift_similarity bm)
                     (Array2.zeros (length (bm_columns bm))
                                   (length (bm_columns bm))))) as ->.
    { f_equal. apply fill_pairs_ext. intros p q _ Hq.
      unfold SimilarityCalculator.lift_similarity, SimilarityCalculator.lift_of.
      rewrite (support_get_stored stored (SimilarityCalculator.support bm) q).
      - reflexivity.
      - intros e He. rewrite (Hvalues e He).
        unfold SimilarityCalculator.support. rewrite Hrows. reflexivity.
      - apply Hkeys, Hq. }
    destruct (bm_columns bm); reflexivity.
Qed.

(** C1. For each supported metric (jaccard, cosine, lift) and every basket
    matrix, [calculate_similarity_matrix] returns a square matrix [M] over
    the product columns with [M[i][j] == M[j][i]] at every pair of product
    positions.  The only calls that return nothing are the cosine metric
    on a matrix without rows or without columns, which the library routine
    rejects, and the lift metric on a matrix without rows but with a
    column, where the support of the first product divides by zero. *)
Theorem calculate_similarity_matrix_symmetric `{NumPy}
        (self : SimilarityCalculator.t) (bm : BasketMatrix) (metric : string) :
  In metric ["jaccard"; "cosine"; "lift"]%string ->
  match snd (SimilarityCalculator.calculate_similarity_matrix self bm metric) with
  | inr sm =>
      sm_index sm = bm_columns bm
      /\ Array2.square (length (bm_columns bm)) (sm_values sm)
      /\ Array2.symmetric (sm_values sm)
  | inl e =>
      (metric = "cosine"%string /\ (bm_rows bm = [] \/ bm_columns bm = []))
      \/ (metric = "lift"%string
          /\ bm_rows bm = [] /\ bm_columns bm <> []
          /\ e = ZeroDivisionError "division by zero")
  end.
Proof.
  intros [<- | [<- | [<- | []]]];
    unfold SimilarityCalculator.calculate_similarity_matrix; simpl.
  - split; [reflexivity | apply fill_pairs_square_symmetric].
  - unfold SimilarityCalculator._calculate_cosine_similarity,
      Sklearn.cosine_similarity.
    pose proof (transposed_length bm) as Hlen.
    pose proof (transposed_row_length bm) as Hrow.
    destruct (SimilarityCalculator.transposed bm) as [|row X] eqn:HX.
    + simpl. left. split; [reflexivity | right].
      apply length_zero_iff_nil. symmetry. exact Hlen.
    + destruct (length row =? 0)%nat eqn:Hzero; simpl.
      * left. split; [reflexivity | left].
        apply Nat.eqb_eq in Hzero. apply length_zero_iff_nil.
        rewrite <- (Hrow row) by (left; reflexivity). exact Hzero.
      * split; [reflexivity |]. split; [| apply gram_symmetric].
        rewrite <- Hlen, <- (normalize_length (row :: X)).
        apply gram_square.
  - rewrite calculate_lift_similarity_outcome.
    destruct (bm_rows bm) as [|row rows];
      [destruct (bm_columns bm) as [|product rest] |]; simpl.
    + split; [reflexivity | apply (fill_pairs_square_symmetric [])].
    + right. repeat split. discriminate.
    + split; [reflexivity | apply fill_pairs_square_symmetric].
Qed.

Lemma calculate_similarity_matrix_symmetric_witness :
  In "cosine"%string ["jaccard"; "cosine"; "lift"]%string
  /\ match snd (SimilarityCalculator.calculate_similarity_matrix
                  (H := TruncatedNumPy) SimilarityCalculator.init two_baskets "cosine") with
     | inr sm =>
         sm_index sm = bm_columns two_baskets
         /\ Array2.square (length (bm_columns two_baskets)) (sm_values sm)
         /\ Array2.symmetric (sm_values sm)
     | inl e =>
         ("cosine"%string = "cosine"%string
          /\ (bm_rows two_baskets = [] \/ bm_columns two_baskets = []))
         \/ ("cosine"%string = "lift"%string
             /\ bm_rows two_baskets = [] /\ bm_columns two_baskets <> []
             /\ e = ZeroDivisionError "division by zero")
     end.
Proof.
  split.
  - simpl. tauto.
  - apply (calculate_similarity_matrix_symmetric
             (H := TruncatedNumPy) SimilarityCalculator.init two_baskets "cosine").
    simpl. tauto.
Defined.

(** ** Basket construction *)

Lemma mem_In (x : string) (l : list string) : Py.mem x l = true <-> In x l.
Proof.
  unfold Py.mem. rewrite existsb_exists. split.
  - intros [y [Hy Heq]]. apply String.eqb_eq in Heq. subst y. exact Hy.
  - intros Hx. exists x. split; [exact Hx | apply String.eqb_refl].
Qed.

Section UniqueFacts.
Context {A : Type} (eqb : A -> A -> bool).
Hypothesis eqb_eq : forall x y, eqb x y = true <-> x = y.

Lemma unique_In (x : A) (l : list A) : In x (Py.unique eqb l) <-> In x l.
Proof.
  induction l as [|y l IH]; simpl; [tauto |].
  rewrite filter_In, IH. split.
  - intros [Hy | [Hx _]]; tauto.
  - intros [Hy | Hx]; [tauto |].
    destruct (eqb x y) eqn:E.
    + apply eqb_eq in E. left. congruence.
    + right. split; [exact Hx | reflexivity].
Qed.

Lemma unique_NoDup (l : list A) : List.NoDup (Py.unique eqb l).
Proof.
  induction l as [|y l IH]; simpl; constructor.
  - rewrite filter_In. intros [_ Hne].
    rewrite (proj2 (eqb_eq y y) eq_refl) in Hne. discriminate Hne.
  - apply List.NoDup_filter, IH.
Qed.

Lemma unique_of_NoDup (l : list A) : List.NoDup l -> Py.unique eqb l = l.
Proof.
  induction 1 as [|y l Hy Hl IH]; simpl; [reflexivity |].
  rewrite IH. f_equal.
  apply forallb_filter_id, forallb_forall. intros x Hx.
  destruct (eqb x y) eqn:E; [| reflexivity].
  apply eqb_eq in E. subst x. contradiction.
Qed.

End UniqueFacts.

(** Every frequent product has at least [min_support] line items. *)
Lemma select_frequent_count (df : list TransactionRecord) (min_support : Z)
      (p : string) :
  In p (MarketBasketAnalyzer.select_frequent df min_support) ->
  min_support <= Py.count p (map StockCode df).
Proof.
  unfold MarketBasketAnalyzer.select_frequent, Py.value_counts.
  intros Hp. apply in_map_iff in Hp as [[q c] [Hq Hin]]. simpl in Hq. subst q.
  apply filter_In in Hin as [Hin Hc]. simpl in Hc. apply Z.leb_le in Hc.
  apply (Permutation_in _ (sort_by_perm _ _)) in Hin.
  apply in_map_iff in Hin as [x [Hx _]]. injection Hx as -> <-. exact Hc.
Qed.

(** Without repeated line items, the invoices of the line items of one
    product are pairwise distinct. *)
Lemma invoices_of_product_NoDup (df : list TransactionRecord) (p : string) :
  no_repeated_line df ->
  List.NoDup (map InvoiceNo (List.filter (fun r => String.eqb (StockCode r) p) df)).
Proof.
  unfold no_repeated_line.
  induction df as [|r df IH]; simpl; intros Hnd; [constructor |].
  apply List.NoDup_cons_iff in Hnd as [Hr Hnd].
  destruct (String.eqb_spec (StockCode r) p) as [Hp | Hp]; [| apply IH, Hnd].
  simpl. constructor; [| apply IH, Hnd].
  intros Hin. apply Hr.
  apply in_map_iff in Hin as [r' [Hinv Hr']].
  apply filter_In in Hr' as [Hr' Hp'].
  apply String.eqb_eq in Hp'.
  apply in_map_iff. exists r'. split; [| exact Hr'].
  congruence.
Qed.

(** ... and so are the products of the line items of one invoice. *)
Lemma products_of_invoice_NoDup (df : list TransactionRecord) (k : string) :
  no_repeated_line df ->
  List.NoDup (map StockCode (List.filter (fun r => String.eqb (InvoiceNo r) k) df)).
Proof.
  unfold no_repeated_line.
  induction df as [|r df IH]; simpl; intros Hnd; [constructor |].
  apply List.NoDup_cons_iff in Hnd as [Hr Hnd].
  destruct (String.eqb_spec (InvoiceNo r) k) as [Hk | Hk]; [| apply IH, Hnd].
  simpl. constructor; [| apply IH, Hnd].
  intros Hin. apply Hr.
  apply in_map_iff in Hin as [r' [Hcode Hr']].
  apply filter_In in Hr' as [Hr' Hk'].
  apply String.eqb_eq in Hk'.
  apply in_map_iff. exists r'. split; [| exact Hr'].
  congruence.
Qed.

Lemma count_orders_containing (df : list TransactionRecord) (p : string) :
  no_repeated_line df ->
  Py.count p (map StockCode df) = orders_containing df p.
Proof.
  intros Hnd. unfold Py.count, orders_containing.
  rewrite (unique_of_NoDup String.eqb String.eqb_eq)
    by (apply invoices_of_product_NoDup, Hnd).
  rewrite length_map. f_equal.
  clear Hnd. induction df as [|r df IH]; simpl; [reflexivity |].
  rewrite (String.eqb_sym p (StockCode r)).
  destruct (String.eqb (StockCode r) p); simpl; congruence.
Qed.

(** What the basket loop keeps: the frequent line items of an invoice
    that has at least two of them. *)
Lemma build_basket_data_In (frequent : list string)
      (baskets : list (string * list string)) (b : string * list string) :
  In b (MarketBasketAnalyzer.build_basket_data frequent baskets) ->
  exists items : list string,
    In (fst b, items) baskets
    /\ snd b = List.filter (fun p => Py.mem p frequent) items
    /\ (2 <= length (snd b))%nat.
Proof.
  induction baskets as [|[invoice items] rest IH]; simpl; [tauto |].
  destruct (1 <? length (List.filter (fun p => Py.mem p frequent) items))%nat eqn:E.
  - intros [<- | Hb].
    + exists items. simpl. apply Nat.ltb_lt in E. repeat split; [tauto | lia].
    + destruct (IH Hb) as [items' (Hin & Hsnd & Hlen)].
      exists items'. tauto.
  - intros Hb. destruct (IH Hb) as [items' (Hin & Hsnd & Hlen)].
    exists items'. tauto.
Qed.

(** The set cells of a matrix row are the columns present in the basket. *)
Lemma set_cells_matrix_row (all_products products : list string) :
  set_cells (MarketBasketAnalyzer.matrix_row all_products products)
  = Z.of_nat (length (List.filter (fun p => Py.mem p products) all_products)).
Proof.
  unfold set_cells, MarketBasketAnalyzer.matrix_row. f_equal.
  induction all_products as [|p l IH]; simpl; [reflexivity |].
  destruct (Py.mem p products); simpl; congruence.
Qed.

(** On tables without repeated line items the basket matrix meets both
    invariants: every column's product appears in at least [min_support]
    orders and every row has at least 2 set cells. *)
Lemma create_market_baskets_invariants
      (self : MarketBasketAnalyzer.t) (df : list TransactionRecord)
      (min_support : Z) (bm : BasketMatrix) :
  no_repeated_line df ->
  snd (MarketBasketAnalyzer.create_market_baskets self df min_support) = inr bm ->
  (forall p, In p (bm_columns bm) -> min_support <= orders_containing df p)
  /\ (forall row, In row (bm_rows bm) -> 2 <= set_cells row).
Proof.
  intros Hnd Hbm. unfold MarketBasketAnalyzer.create_market_baskets in Hbm.
  simpl in Hbm. injection Hbm as <-. simpl. split.
  - intros p Hp.
    apply (Permutation_in _ (sort_by_perm _ _)) in Hp.
    rewrite <- (count_orders_containing df p Hnd).
    apply select_frequent_count, Hp.
  - intros row Hrow.
    apply in_map_iff in Hrow as [b [<- Hb]].
    apply build_basket_data_In in Hb as [items (Hin & Hsnd & Hlen)].
    unfold MarketBasketAnalyzer.groupby_InvoiceNo in Hin.
    apply in_map_iff in Hin as [k [Hk _]]. injection Hk as _ <-.
    rewrite set_cells_matrix_row.
    assert (List.NoDup (snd b)) as Hkept.
    { rewrite Hsnd. apply List.NoDup_filter, products_of_invoice_NoDup, Hnd. }
    cut (length (snd b)
         <= length (List.filter
                      (fun p => Py.mem p (snd b))
                      (Py.sorted (MarketBasketAnalyzer.select_frequent df min_support))))%nat;
      [lia |].
    apply (List.NoDup_incl_length Hkept). intros p Hp. apply filter_In. split.
    + apply (Permutation_in _ (Permutation_sym (sort_by_perm _ _))).
      rewrite Hsnd in Hp. apply filter_In in Hp as [_ Hp].
      apply mem_In, Hp.
    + apply mem_In, Hp.
Qed.

Example scenario_orders_no_repeated_line : no_repeated_line scenario_orders.
Proof.
  unfold no_repeated_line, scenario_orders. simpl.
  repeat (constructor; [simpl; intuition discriminate |]). constructor.
Qed.

(** C2. With one order listing product A on two line items and
    [min_support = 2], [create_market_baskets] returns a matrix with the
    column A and the row [[1]]: the column's product appears in one order
    only, below the threshold, and the row has a single set cell. *)
Theorem create_market_baskets_repeated_line_item :
  snd (MarketBasketAnalyzer.create_market_baskets
         MarketBasketAnalyzer.init repeated_line_order 2)
  = inr (mkBasketMatrix ["A"%string] [[1]])
  /\ orders_containing repeated_line_order "A" = 1
  /\ set_cells [1] = 1.
Proof. repeat split; reflexivity. Qed.

Example scenario_baskets_created :
  snd (MarketBasketAnalyzer.create_market_baskets
         MarketBasketAnalyzer.init scenario_orders 1)
  = inr scenario_baskets.
Proof. reflexivity. Qed.

(** C3, the scenario as the specification states it, does not hold: on
    orders O1={A,B}, O2={A,B,C}, O3={A,B}, O4={C,D} with [min_support = 1]
    the pipeline does not give jaccard(C,D) = 1. *)
Lemma scenario_jaccard_as_stated_fails :
  ~ (match jaccard_pipeline (H := TruncatedNumPy) scenario_orders 1 with
     | inr sm =>
         sm_index sm = ["A"; "B"; "C"; "D"]%string
         /\ entry_is (loc sm "A" "B") (1 # 1)
         /\ entry_is (loc sm "A" "C") (1 # 4)
         /\ entry_is (loc sm "C" "D") (1 # 1)
     | inl _ => False
     end).
Proof.
  vm_compute. intros (_ & _ & _ & Hcd). discriminate Hcd.
Qed.

(** C3 (amended). On orders O1={A,B}, O2={A,B,C}, O3={A,B}, O4={C,D} with
    [min_support = 1] the frequent products are A, B, C, D and the
    pipeline computes jaccard(A,B) = 1, jaccard(A,C) = 1/4 and
    jaccard(C,D) = 1/2 (C is bought in O2 and O4, D in O4 only). *)
Theorem scenario_jaccard `{NumPy} :
  option_map Py.sorted
    (MarketBasketAnalyzer.frequent_products
       (fst (MarketBasketAnalyzer.create_market_baskets
               MarketBasketAnalyzer.init scenario_orders 1)))
  = Some ["A"; "B"; "C"; "D"]%string
  /\ match jaccard_pipeline scenario_orders 1 with
     | inr sm =>
         sm_index sm = ["A"; "B"; "C"; "D"]%string
         /\ entry_is (loc sm "A" "B") (1 # 1)
         /\ entry_is (loc sm "A" "C") (1 # 4)
         /\ entry_is (loc sm "C" "D") (1 # 2)
     | inl _ => False
     end.
Proof.
  split; [reflexivity |].
  vm_compute. repeat split; reflexivity.
Qed.

(** The basket loop keeps nothing when every basket fails its length test. *)
Lemma build_basket_data_none (frequent : list string)
      (baskets : list (string * list string)) :
  forallb (fun b => (length (List.filter (fun p => Py.mem p frequent) (snd b)) <? 2)%nat)
          baskets = true ->
  MarketBasketAnalyzer.build_basket_data frequent baskets = [].
Proof.
  induction baskets as [|[invoice items] rest IH]; simpl; [reflexivity |].
  intros Hall. apply andb_true_iff in Hall as [Hhd Htl].
  apply Nat.ltb_lt in Hhd.
  destruct (1 <? length (List.filter (fun p => Py.mem p frequent) items))%nat eqn:E.
  - apply Nat.ltb_lt in E. lia.
  - apply IH, Htl.
Qed.

(** C4, as stated, does not hold: with a single one-line order no basket
    keeps two items, and [create_market_baskets] returns a matrix instead
    of raising. *)
Lemma create_market_baskets_empty_no_error :
  no_basket_survives single_line_order 1 = true
  /\ snd (MarketBasketAnalyzer.create_market_baskets
            MarketBasketAnalyzer.init single_line_order 1)
     = inr (mkBasketMatrix ["A"%string] [])
  /\ ~ (exists e : exn,
          snd (MarketBasketAnalyzer.create_market_baskets
                 MarketBasketAnalyzer.init single_line_order 1) = inl e).
Proof.
  split; [reflexivity |]. split; [reflexivity |].
  intros [e He]. discriminate He.
Qed.

(** C4 (amended). If after filtering to frequent products no basket keeps
    at least 2 line items, [create_market_baskets] raises nothing: it
    stores and returns a basket matrix with no rows whose columns are the
    sorted frequent products. *)
Theorem create_market_baskets_no_survivor
        (self : MarketBasketAnalyzer.t) (df : list TransactionRecord)
        (min_support : Z) :
  no_basket_survives df min_support = true ->
  let empty :=
    mkBasketMatrix (Py.sorted (MarketBasketAnalyzer.select_frequent df min_support)) [] in
  MarketBasketAnalyzer.create_market_baskets self df min_support
  = (MarketBasketAnalyzer.mk
       (Some empty)
       (Some (MarketBasketAnalyzer.select_frequent df min_support)),
     inr empty).
Proof.
  intros Hnone. unfold MarketBasketAnalyzer.create_market_baskets.
  unfold no_basket_survives in Hnone.
  rewrite (build_basket_data_none _ _ Hnone). reflexivity.
Qed.

Lemma create_market_baskets_no_survivor_witness :
  no_basket_survives single_line_order 1 = true
  /\ MarketBasketAnalyzer.create_market_baskets
       MarketBasketAnalyzer.init single_line_order 1
     = (MarketBasketAnalyzer.mk
          (Some (mkBasketMatrix
                   (Py.sorted (MarketBasketAnalyzer.select_frequent single_line_order 1)) []))
          (Some (MarketBasketAnalyzer.select_frequent single_line_order 1)),
        inr (mkBasketMatrix
               (Py.sorted (MarketBasketAnalyzer.select_frequent single_line_order 1)) [])).
Proof.
  split.
  - reflexivity.
  - apply (create_market_baskets_no_survivor
             MarketBasketAnalyzer.init single_line_order 1).
    reflexivity.
Defined.

(** ** Cluster-count heuristic *)

Lemma practical_cluster_count_lookup (n : Z) :
  ClusteringAnalyzer.practical_cluster_count n = heuristic_lookup n.
Proof.
  unfold ClusteringAnalyzer.practical_cluster_count, heuristic_lookup.
  destruct (n <=? 10) eqn:E10; [reflexivity |].
  apply Z.leb_gt in E10.
  rewrite !Z.quot_div_nonneg by lia. reflexivity.
Qed.

(** An explicit count, or a distance threshold alone, bypasses the
    heuristic. *)
Lemma chosen_n_clusters_supplied (n_clusters : option Z)
      (distance_threshold : option Q) (distance_matrix : Array2.t) :
  n_clusters <> None \/ distance_threshold <> None ->
  ClusteringAnalyzer.chosen_n_clusters n_clusters distance_threshold distance_matrix
  = n_clusters.
Proof.
  unfold ClusteringAnalyzer.chosen_n_clusters.
  destruct n_clusters, distance_threshold; intros [Hn | Hd];
    try reflexivity; contradiction.
Qed.

(** C5, the monotonicity part as stated, does not hold: the count chosen
    for 11 products is smaller than the count chosen for 10. *)
Lemma practical_cluster_count_not_monotone :
  ~ (forall n m : Z, 0 <= n -> n <= m ->
       ClusteringAnalyzer.practical_cluster_count n
       <= ClusteringAnalyzer.practical_cluster_count m).
Proof.
  intros Hmono.
  pose proof (Hmono 10 11 ltac:(lia) ltac:(lia)) as Hle.
  vm_compute in Hle. apply Hle. reflexivity.
Qed.

(** C5 (amended). When neither a cluster count nor a distance threshold
    is supplied, the count chosen for [n] products is the lookup
    n<=10 -> 2; n<=50 -> min(5, n/10); n<=200 -> min(8, n/25);
    n<=1000 -> min(12, n/50); else min(15, n/100); it is non-decreasing
    in [n] inside each of the five ranges of the lookup. *)
Theorem chosen_n_clusters_lookup_band_monotone :
  (forall distance_matrix : Array2.t,
      ClusteringAnalyzer.chosen_n_clusters None None distance_matrix
      = Some (heuristic_lookup (Z.of_nat (length distance_matrix))))
  /\ (forall n m : Z,
         n <= m -> size_band n = size_band m ->
         ClusteringAnalyzer.practical_cluster_count n
         <= ClusteringAnalyzer.practical_cluster_count m).
Proof.
  split.
  - intros dm. unfold ClusteringAnalyzer.chosen_n_clusters,
      ClusteringAnalyzer._determine_optimal_clusters.
    rewrite practical_cluster_count_lookup. reflexivity.
  - intros n m Hnm. unfold size_band, ClusteringAnalyzer.practical_cluster_count.
    destruct (n <=? 10) eqn:En10; destruct (m <=? 10) eqn:Em10;
      destruct (n <=? 50) eqn:En50; destruct (m <=? 50) eqn:Em50;
      destruct (n <=? 200) eqn:En200; destruct (m <=? 200) eqn:Em200;
      destruct (n <=? 1000) eqn:En1000; destruct (m <=? 1000) eqn:Em1000;
      intros Hband; try discriminate Hband; try lia.
    + apply Z.min_le_compat_l, Z.div_le_mono; lia.
    + apply Z.min_le_compat_l, Z.div_le_mono; lia.
    + apply Z.min_le_compat_l, Z.div_le_mono; lia.
    + apply Z.min_le_compat_l, Z.div_le_mono; lia.
Qed.

Lemma chosen_n_clusters_lookup_band_monotone_witness :
  (20 <= 30 /\ size_band 20 = size_band 30)
  /\ ClusteringAnalyzer.practical_cluster_count 20
     <= ClusteringAnalyzer.practical_cluster_count 30.
Proof.
  split.
  - split; [lia | reflexivity].
  - apply (proj2 chosen_n_clusters_lookup_band_monotone 20 30); [lia | reflexivity].
Defined.

(** ** Unsupported metric *)

(** C7, as stated, does not hold: after the failed call the calculator
    stores the basket matrix it was given, not the one it held before. *)
Lemma calculate_similarity_matrix_euclidean_changes_state :
  snd (SimilarityCalculator.calculate_similarity_matrix
         (H := TruncatedNumPy) scenario_calculator two_baskets "euclidean")
  = inl (ValueError "Unknown similarity metric: euclidean")
  /\ fst (SimilarityCalculator.calculate_similarity_matrix
            (H := TruncatedNumPy) scenario_calculator two_baskets "euclidean")
     <> scenario_calculator.
Proof.
  split; [reflexivity |]. vm_compute. discriminate.
Qed.

(** C7 (amended). For every basket matrix, requesting a metric other than
    jaccard, cosine and lift fails with the unknown-metric error; no
    similarity is computed and the stored similarity matrix is left as it
    was, while the stored basket matrix is replaced by the matrix passed
    to the call. *)
Theorem calculate_similarity_matrix_unknown_metric `{NumPy}
        (self : SimilarityCalculator.t) (bm : BasketMatrix) (metric : string) :
  ~ In metric ["jaccard"; "cosine"; "lift"]%string ->
  SimilarityCalculator.calculate_similarity_matrix self bm metric
  = (SimilarityCalculator.mk (SimilarityCalculator.similarity_matrix self) (Some bm),
     inl (ValueError ("Unknown similarity metric: " ++ metric))).
Proof.
  intros Hnot. unfold SimilarityCalculator.calculate_similarity_matrix.
  destruct (String.eqb_spec metric "jaccard") as [-> | _];
    [exfalso; apply Hnot; simpl; tauto |].
  destruct (String.eqb_spec metric "cosine") as [-> | _];
    [exfalso; apply Hnot; simpl; tauto |].
  destruct (String.eqb_spec metric "lift") as [-> | _];
    [exfalso; apply Hnot; simpl; tauto |].
  reflexivity.
Qed.

Lemma calculate_similarity_matrix_unknown_metric_witness :
  ~ In "euclidean"%string ["jaccard"; "cosine"; "lift"]%string
  /\ SimilarityCalculator.calculate_similarity_matrix
       (H := TruncatedNumPy) scenario_calculator two_baskets "euclidean"
     = (SimilarityCalculator.mk
          (SimilarityCalculator.similarity_matrix scenario_calculator) (Some two_baskets),
        inl (ValueError ("Unknown similarity metric: " ++ "euclidean"))).
Proof.
  assert (~ In "euclidean"%string ["jaccard"; "cosine"; "lift"]%string) as Hnot.
  { simpl. intros [E | [E | [E | E]]]; (discriminate E || exact E). }
  split.
  - exact Hnot.
  - apply (calculate_similarity_matrix_unknown_metric
             (H := TruncatedNumPy) scenario_calculator two_baskets "euclidean" Hnot).
Defined.

(** ** Similarity statistics *)

(** C8. On the jaccard similarities of the scenario O1={A,B},
    O2={A,B,C}, O3={A,B}, O4={C,D}, the strict upper triangle holds the
    six pairs 1, 1/4, 0, 1/4, 0, 1/2 (minimum 0, mean 1/3), while
    [get_similarity_statistics] reports four pairs with minimum 1/4 and
    mean 1/2: the pairs (A,D) and (B,D) with similarity 0 are left out. *)
Theorem get_similarity_statistics_skips_zero_pairs `{NumPy} :
  fst (SimilarityCalculator.calculate_similarity_matrix
         SimilarityCalculator.init scenario_baskets "jaccard")
  = scenario_calculator
  /\ map Qred (strict_upper_triangle (sm_values scenario_similarity))
     = [1 # 1; 1 # 4; 0 # 1; 1 # 4; 0 # 1; 1 # 2]%Q
  /\ match Np.min (strict_upper_triangle (sm_values scenario_similarity)) with
     | inr lowest => (lowest == 0 # 1)%Q
     | inl _ => False
     end
  /\ (Py.mean (strict_upper_triangle (sm_values scenario_similarity)) == 1 # 3)%Q
  /\ map Qred (SimilarityCalculator.selected_similarities scenario_similarity)
     = [1 # 1; 1 # 4; 1 # 4; 1 # 2]%Q
  /\ match SimilarityCalculator.get_similarity_statistics scenario_calculator with
     | inr stats =>
         total_pairs stats = 4
         /\ (min_similarity stats == 1 # 4)%Q
         /\ (mean_similarity stats == 1 # 2)%Q
         /\ (max_similarity stats == 1 # 1)%Q
         /\ high_similarity_pairs stats = 1
     | inl _ => False
     end.
Proof.
  repeat split; reflexivity.
Qed.

(** ** Recommendations *)

(** Without a product table every member gets the "N/A" / 0 entry. *)
Lemma product_entries_without_table (codes : list string) :
  RecommendationGenerator.product_entries None codes
  = map (fun code => mkProductEntry code "N/A" 0) codes.
Proof.
  unfold RecommendationGenerator.product_entries.
  induction codes as [|code codes IH]; simpl; congruence.
Qed.

(** With a product table, the members listed are those the table knows. *)
Lemma product_entries_with_table (info : list ProductInfo) (codes : list string) :
  map pe_StockCode (RecommendationGenerator.product_entries (Some info) codes)
  = List.filter (fun code => Py.mem code (map pi_StockCode info)) codes.
Proof.
  unfold RecommendationGenerator.product_entries.
  induction codes as [|code codes IH]; simpl; [reflexivity |].
  rewrite map_app, IH. clear IH.
  assert (forall l : list ProductInfo,
             match List.filter (fun p => String.eqb (pi_StockCode p) code) l with
             | [] => Py.mem code (map pi_StockCode l) = false
             | _ :: _ => Py.mem code (map pi_StockCode l) = true
             end) as Hknown.
  { induction l as [|p l IHl]; simpl; [reflexivity |].
    rewrite (String.eqb_sym code (pi_StockCode p)).
    destruct (String.eqb (pi_StockCode p) code); simpl; [reflexivity | exact IHl]. }
  specialize (Hknown info).
  destruct (List.filter (fun p => String.eqb (pi_StockCode p) code) info);
    rewrite Hknown; reflexivity.
Qed.

(** C9. With clusters {A, B}, {C}, {D} and a product table that knows A,
    C and D but not B, the recommendation for cluster {A, B} lists the
    single entry for A: member B gets no entry, neither with its data nor
    with "N/A" and 0. *)
Theorem generate_recommendations_drops_unknown_member `{NumPy}
        (_generate_explanation : list ClusterRow -> string) :
  (let* rows := ClusteringAnalyzer.get_cluster_products sample_clusters 0 in
   inr (map cr_StockCode rows))
  = inr ["A"; "B"]%string
  /\ match RecommendationGenerator.generate_recommendations
             _generate_explanation sample_generator 10 2 100 with
     | inr [r] =>
         cluster_id r = 0
         /\ products r = [mkProductEntry "A" "apple" 10]
     | _ => False
     end.
Proof.
  split; [reflexivity |]. simpl. split; reflexivity.
Qed.

Lemma StronglySorted_impl {A : Type} (R R' : A -> A -> Prop) (l : list A) :
  (forall a b, R a b -> R' a b) -> StronglySorted R l -> StronglySorted R' l.
Proof.
  intros Himpl. induction 1 as [|x l Hs IH Hx]; constructor.
  - exact IH.
  - rewrite List.Forall_forall in *. intros y Hy. apply Himpl, Hx, Hy.
Qed.

(** Sorting by a score, largest first, yields a descending list. *)
Lemma sort_by_descending {A : Type} (score : A -> Q) (l : list A) :
  descending score (Py.sort_by (fun a b => Qle_bool (score b) (score a)) l).
Proof.
  unfold descending.
  apply (StronglySorted_impl
           (fun a b => Qle_bool (score b) (score a) = true)).
  - intros a b Hab. apply Qle_bool_iff, Hab.
  - apply sort_by_sorted.
    + intros a b. apply Qge_bool_total.
    + intros a b c. apply Qge_bool_trans.
Qed.

Section RecommendationFacts.
Context `{NumPy}.
Variable _generate_explanation : list ClusterRow -> string.

Lemma recommend_cluster_id (self : RecommendationGenerator.t) (id : Z)
      (cluster_products : list ClusterRow) (r : Recommendation) :
  RecommendationGenerator.recommend_cluster _generate_explanation self id cluster_products
  = inr r ->
  cluster_id r = id
  /\ products r = RecommendationGenerator.product_entries
                    (RecommendationGenerator.product_info self)
                    (map cr_StockCode cluster_products).
Proof.
  unfold RecommendationGenerator.recommend_cluster.
  destruct (RecommendationGenerator._calculate_cluster_coherence self _) as [e | c];
    simpl; [discriminate |].
  intros Hr. injection Hr as <-.
  destruct (match RecommendationGenerator.product_info self with
            | Some info => _ | None => [] end); simpl; split; reflexivity.
Qed.

(** The loop over cluster ids keeps one recommendation per cluster inside
    the size window, in iteration order. *)
Lemma collect_ids (self : RecommendationGenerator.t) (rows : list ClusterRow)
      (min_cluster_size max_cluster_size : Z) (ids : list Z)
      (recs : list Recommendation) :
  ClusteringAnalyzer.clusters (RecommendationGenerator.clustering_analyzer self)
  = Some rows ->
  RecommendationGenerator.collect _generate_explanation self
    min_cluster_size max_cluster_size ids = inr recs ->
  map cluster_id recs
  = List.filter
      (fun id => (min_cluster_size <=? member_count rows id)
                 && (member_count rows id <=? max_cluster_size))
      ids.
Proof.
  intros Hrows. revert recs.
  induction ids as [|id rest IH]; simpl; intros recs Hrecs.
  - injection Hrecs as <-. reflexivity.
  - unfold ClusteringAnalyzer.get_cluster_products in Hrecs.
    rewrite Hrows in Hrecs. simpl in Hrecs.
    fold (member_count rows id) in Hrecs.
    destruct ((min_cluster_size <=? member_count rows id)
              && (member_count rows id <=? max_cluster_size)).
    + destruct (RecommendationGenerator.recommend_cluster _ self id _)
        as [e | r] eqn:Hr; simpl in Hrecs; [discriminate |].
      destruct (RecommendationGenerator.collect _ self _ _ rest)
        as [e | rs] eqn:Hrs; simpl in Hrecs; [discriminate |].
      injection Hrecs as <-. simpl.
      apply recommend_cluster_id in Hr as [-> _].
      f_equal. apply IH. reflexivity.
    + apply IH, Hrecs.
Qed.

(** With a similarity matrix in place nothing in the loop raises. *)
Lemma coherence_returns (self : RecommendationGenerator.t) (sm : SimilarityMatrix)
      (stock_codes : list string) :
  SimilarityCalculator.similarity_matrix
    (RecommendationGenerator.similarity_calculator self) = Some sm ->
  exists c : Q,
    RecommendationGenerator._calculate_cluster_coherence self stock_codes = inr c.
Proof.
  intros Hsm. unfold RecommendationGenerator._calculate_cluster_coherence.
  rewrite Hsm. destruct (length stock_codes <? 2)%nat; eexists; reflexivity.
Qed.

Lemma collect_returns (self : RecommendationGenerator.t) (rows : list ClusterRow)
      (sm : SimilarityMatrix) (min_cluster_size max_cluster_size : Z)
      (ids : list Z) :
  ClusteringAnalyzer.clusters (RecommendationGenerator.clustering_analyzer self)
  = Some rows ->
  SimilarityCalculator.similarity_matrix
    (RecommendationGenerator.similarity_calculator self) = Some sm ->
  exists recs : list Recommendation,
    RecommendationGenerator.collect _generate_explanation self
      min_cluster_size max_cluster_size ids = inr recs.
Proof.
  intros Hrows Hsm.
  induction ids as [|id rest [recs IH]]; simpl; [eexists; reflexivity |].
  unfold ClusteringAnalyzer.get_cluster_products. rewrite Hrows. simpl.
  destruct ((min_cluster_size <=? _) && (_ <=? max_cluster_size));
    [| exists recs; exact IH].
  unfold RecommendationGenerator.recommend_cluster.
  destruct (coherence_returns self sm
              (map cr_StockCode (List.filter (fun r => cr_Cluster r =? id) rows)) Hsm)
    as [c ->].
  simpl. rewrite IH. simpl. eexists. reflexivity.
Qed.

(** Every recommendation the loop collects is the one built for the
    members of its own cluster. *)
Lemma collect_In (self : RecommendationGenerator.t) (rows : list ClusterRow)
      (min_cluster_size max_cluster_size : Z) (ids : list Z)
      (recs : list Recommendation) (r : Recommendation) :
  ClusteringAnalyzer.clusters (RecommendationGenerator.clustering_analyzer self)
  = Some rows ->
  RecommendationGenerator.collect _generate_explanation self
    min_cluster_size max_cluster_size ids = inr recs ->
  In r recs ->
  RecommendationGenerator.recommend_cluster _generate_explanation self (cluster_id r)
    (List.filter (fun row => cr_Cluster row =? cluster_id r) rows) = inr r.
Proof.
  intros Hrows. revert recs.
  induction ids as [|id rest IH]; simpl; intros recs Hrecs Hr.
  - injection Hrecs as <-. contradiction.
  - unfold ClusteringAnalyzer.get_cluster_products in Hrecs.
    rewrite Hrows in Hrecs. simpl in Hrecs.
    destruct ((min_cluster_size <=? _) && (_ <=? max_cluster_size));
      [| exact (IH recs Hrecs Hr)].
    destruct (RecommendationGenerator.recommend_cluster _ self id _)
      as [e | r0] eqn:Hr0; simpl in Hrecs; [discriminate |].
    destruct (RecommendationGenerator.collect _ self _ _ rest)
      as [e | rs] eqn:Hrs; simpl in Hrecs; [discriminate |].
    injection Hrecs as <-. destruct Hr as [<- | Hr].
    + pose proof (recommend_cluster_id self id _ r0 Hr0) as [Hid _].
      rewrite Hid. exact Hr0.
    + exact (IH rs eq_refl Hr).
Qed.

Lemma int64_in_range (z : Z) : - 2 ^ 63 <= z < 2 ^ 63 -> Np.int64 z = z.
Proof.
  intros Hz. unfold Np.int64.
  change (2 ^ 64) with (2 * 2 ^ 63). rewrite Z.mod_small; lia.
Qed.

Lemma sumZ_filter_bounds {A : Type} (f : A -> Z) (g : A -> bool) (l : list A) :
  (forall x, In x l -> 0 <= f x) ->
  0 <= Py.sumZ (map f (List.filter g l)) <= Py.sumZ (map f l).
Proof.
  unfold Py.sumZ. induction l as [|x l IH]; simpl; intros Hpos; [lia |].
  assert (0 <= f x) by (apply Hpos; left; reflexivity).
  assert (forall y, In y l -> 0 <= f y) as Hrest
      by (intros y Hy; apply Hpos; right; exact Hy).
  specialize (IH Hrest). destruct (g x); simpl; lia.
Qed.

(** On a table with quantities in range the total of a cluster is the
    exact sum of its rows of the table, it is not negative, and the
    strength is the coherence, or the coherence times the logarithm of a
    positive number. *)
Lemma recommend_cluster_strength (self : RecommendationGenerator.t) (id : Z)
      (cluster_products : list ClusterRow) (r : Recommendation) :
  quantities_in_range (RecommendationGenerator.product_info self) ->
  RecommendationGenerator.recommend_cluster _generate_explanation self id cluster_products
  = inr r ->
  total_quantity_sold r
  = Py.sumZ (map pi_TotalQuantity
                 match RecommendationGenerator.product_info self with
                 | Some info =>
                     List.filter
                       (fun p => Py.mem (pi_StockCode p)
                                        (map cr_StockCode cluster_products))
                       info
                 | None => []
                 end)
  /\ 0 <= total_quantity_sold r
  /\ (recommendation_strength r = coherence_score r
      \/ recommendation_strength r
         = (coherence_score r
            * np_log (inject_Z (total_quantity_sold r + 1)))%Q).
Proof.
  intros Hrange. unfold RecommendationGenerator.recommend_cluster.
  destruct (RecommendationGenerator._calculate_cluster_coherence self _) as [e | c];
    simpl; [discriminate |].
  destruct (RecommendationGenerator.product_info self) as [info|].
  - destruct Hrange as [Hpos Htotal].
    pose proof (sumZ_filter_bounds pi_TotalQuantity
                  (fun p => Py.mem (pi_StockCode p)
                                   (map cr_StockCode cluster_products))
                  info Hpos) as Hsum.
    destruct (List.filter _ info) as [|p ps]; intros Hr; injection Hr as <-.
    + simpl. split; [reflexivity |]. split; [lia | left; reflexivity].
    + cbn [total_quantity_sold recommendation_strength coherence_score].
      assert (0 < 2 ^ 63) as Hpow by reflexivity.
      change (pi_TotalQuantity p + Py.sumZ (map pi_TotalQuantity ps))
        with (Py.sumZ (map pi_TotalQuantity (p :: ps))).
      set (total := Py.sumZ (map pi_TotalQuantity (p :: ps))) in *.
      rewrite (int64_in_range total) by lia.
      rewrite (int64_in_range (total + 1)) by lia.
      split; [reflexivity |]. split; [lia | right; reflexivity].
  - intros Hr; injection Hr as <-. simpl.
    split; [reflexivity |]. split; [lia | left; reflexivity].
Qed.

End RecommendationFacts.

(** C6, the length bound as stated, does not hold for every [top_n]:
    with [top_n = -1] and three clusters inside the window the slice
    [recommendations[:-1]] keeps two recommendations. *)
Lemma generate_recommendations_negative_top_n :
  clusters_in_window sample_rows 1 100 = [0; 1; 2]
  /\ match RecommendationGenerator.generate_recommendations
             (H := TruncatedNumPy) sample_explanation generator_without_table
             (-1) 1 100 with
     | inr recs => map cluster_id recs = [0; 1] /\ ~ (Z.of_nat (length recs) <= -1)
     | inl _ => False
     end.
Proof.
  split; [reflexivity |]. vm_compute.
  split; [reflexivity | intros Hle; apply Hle; reflexivity].
Qed.

(** C6 (amended). For every clustering result (a cluster table, with the
    similarity matrix it was computed from), every product table with
    quantities in range (or none) and parameters [top_n],
    [min_cluster_size], [max_cluster_size]: the loop of
    [generate_recommendations] builds, in order of first appearance, one
    recommendation for exactly the clusters whose member count lies in
    [[min_cluster_size, max_cluster_size]], each with a non-negative total
    and a strength that is its coherence or its coherence times the
    logarithm of a positive number; [generate_recommendations] returns the
    slice [[:top_n]] of these recommendations sorted by strength in
    descending order; the returned list is itself descending, and for
    [top_n >= 0] it has length at most [top_n]. *)
Theorem generate_recommendations_window_sorted_bounded `{NumPy}
        (_generate_explanation : list ClusterRow -> string)
        (self : RecommendationGenerator.t) (rows : list ClusterRow)
        (sm : SimilarityMatrix)
        (top_n min_cluster_size max_cluster_size : Z) :
  ClusteringAnalyzer.clusters (RecommendationGenerator.clustering_analyzer self)
  = Some rows ->
  SimilarityCalculator.similarity_matrix
    (RecommendationGenerator.similarity_calculator self) = Some sm ->
  quantities_in_range (RecommendationGenerator.product_info self) ->
  exists built sorted : list Recommendation,
    RecommendationGenerator.collect
      _generate_explanation self min_cluster_size max_cluster_size
      (Py.unique Z.eqb (map cr_Cluster rows)) = inr built
    /\ map cluster_id built
       = clusters_in_window rows min_cluster_size max_cluster_size
    /\ (forall r, In r built ->
          RecommendationGenerator.recommend_cluster
            _generate_explanation self (cluster_id r)
            (List.filter (fun row => cr_Cluster row =? cluster_id r) rows) = inr r
          /\ 0 <= total_quantity_sold r
          /\ (recommendation_strength r = coherence_score r
              \/ recommendation_strength r
                 = (coherence_score r
                    * np_log (inject_Z (total_quantity_sold r + 1)))%Q))
    /\ sorted = RecommendationGenerator.sort_by_strength built
    /\ Permutation sorted built
    /\ descending recommendation_strength sorted
    /\ RecommendationGenerator.generate_recommendations
         _generate_explanation self top_n min_cluster_size max_cluster_size
       = inr (Py.slice_to top_n sorted)
    /\ descending recommendation_strength (Py.slice_to top_n sorted)
    /\ (forall r, In r (Py.slice_to top_n sorted) ->
          In (cluster_id r)
             (clusters_in_window rows min_cluster_size max_cluster_size))
    /\ (0 <= top_n -> Z.of_nat (length (Py.slice_to top_n sorted)) <= top_n).
Proof.
  intros Hrows Hsm Hrange.
  destruct (collect_returns _generate_explanation self rows sm
              min_cluster_size max_cluster_size
              (Py.unique Z.eqb (map cr_Cluster rows)) Hrows Hsm)
    as [built Hbuilt].
  pose proof (collect_ids _ self rows _ _ _ built Hrows Hbuilt) as Hids.
  fold (clusters_in_window rows min_cluster_size max_cluster_size) in Hids.
  exists built, (RecommendationGenerator.sort_by_strength built).
  split; [exact Hbuilt |]. split; [exact Hids |].
  split.
  { intros r Hr.
    pose proof (collect_In _generate_explanation self rows _ _ _ built r
                  Hrows Hbuilt Hr) as Hcluster.
    split; [exact Hcluster |].
    apply (recommend_cluster_strength _ self _ _ r Hrange Hcluster). }
  split; [reflexivity |].
  split; [apply sort_by_perm |].
  split; [apply sort_by_descending |].
  split.
  { unfold RecommendationGenerator.generate_recommendations.
    rewrite Hrows, Hbuilt. reflexivity. }
  split; [apply slice_to_sorted, sort_by_descending |].
  split; [| apply slice_to_length].
  intros r Hr. apply slice_to_incl in Hr.
  apply (Permutation_in _ (sort_by_perm _ _)) in Hr.
  rewrite <- Hids. apply in_map, Hr.
Qed.

Lemma sample_quantities_in_range :
  quantities_in_range (RecommendationGenerator.product_info sample_generator).
Proof.
  split; [| reflexivity].
  intros p [<- | [<- | [<- | []]]]; simpl; lia.
Qed.

Lemma generate_recommendations_window_sorted_bounded_witness :
  (ClusteringAnalyzer.clusters
     (RecommendationGenerator.clustering_analyzer sample_generator)
   = Some sample_rows
   /\ SimilarityCalculator.similarity_matrix
        (RecommendationGenerator.similarity_calculator sample_generator)
      = Some scenario_similarity
   /\ quantities_in_range (RecommendationGenerator.product_info sample_generator))
  /\ exists built sorted : list Recommendation,
      map cluster_id built = clusters_in_window sample_rows 1 100
      /\ Permutation sorted built
      /\ descending recommendation_strength sorted
      /\ RecommendationGenerator.generate_recommendations
           (H := TruncatedNumPy) sample_explanation sample_generator 2 1 100
         = inr (Py.slice_to 2 sorted)
      /\ (0 <= 2 -> Z.of_nat (length (Py.slice_to 2 sorted)) <= 2).
Proof.
  split.
  - split; [reflexivity |]. split; [reflexivity | exact sample_quantities_in_range].
  - destruct (generate_recommendations_window_sorted_bounded
                (H := TruncatedNumPy) sample_explanation sample_generator
                sample_rows scenario_similarity 2 1 100
                eq_refl eq_refl sample_quantities_in_range)
      as [built [sorted [_ [Hids [_ [_ [Hperm [Hdesc [Hrecs [_ [_ Hlen]]]]]]]]]]].
    exists built, sorted. repeat split; assumption.
Defined.

(** ** Most similar products *)

(** C10, the length bound as stated, does not hold for every [top_n]:
    with [top_n = -1], [head(-1)] keeps all rows but the last, here the two
    products B and C. *)
Lemma get_most_similar_products_negative_top_n :
  match SimilarityCalculator.get_most_similar_products scenario_calculator "A" (-1) with
  | inr similar => map fst similar = ["B"; "C"]%string
                   /\ ~ (Z.of_nat (length similar) <= -1)
  | inl _ => False
  end.
Proof.
  vm_compute. split; [reflexivity | intros Hle; apply Hle; reflexivity].
Qed.

(** C10 (amended). Once a similarity matrix is stored: if the queried
    product is not in its index, [get_most_similar_products] raises the
    not-found error; if it is, the returned series does not contain the
    product itself, is sorted by similarity in descending order, and for
    [top_n >= 0] has length at most [top_n]. *)
Theorem get_most_similar_products_spec
        (self : SimilarityCalculator.t) (sm : SimilarityMatrix)
        (product : string) (top_n : Z) :
  SimilarityCalculator.similarity_matrix self = Some sm ->
  if Py.mem product (sm_index sm)
  then exists similar : list (string * Q),
      SimilarityCalculator.get_most_similar_products self product top_n = inr similar
      /\ ~ In product (map fst similar)
      /\ descending snd similar
      /\ (0 <= top_n -> Z.of_nat (length similar) <= top_n)
  else SimilarityCalculator.get_most_similar_products self product top_n
       = inl (ValueError ("Product " ++ product ++ " not found in similarity matrix")).
Proof.
  intros Hsm.
  unfold SimilarityCalculator.get_most_similar_products,
    SimilarityCalculator.get_similarity_matrix.
  rewrite Hsm. simpl.
  destruct (Py.mem product (sm_index sm)); simpl; [| reflexivity].
  eexists. split; [reflexivity |].
  split; [| split].
  - intros Hin. apply in_map_iff in Hin as [[label value] [Hlabel Hin]].
    simpl in Hlabel. subst label.
    apply slice_to_incl, filter_In in Hin as [_ Hne].
    simpl in Hne. rewrite String.eqb_refl in Hne. discriminate Hne.
  - apply slice_to_sorted, StronglySorted_filter.
    apply (sort_by_descending snd).
  - apply slice_to_length.
Qed.

Lemma get_most_similar_products_spec_witness :
  SimilarityCalculator.similarity_matrix scenario_calculator = Some scenario_similarity
  /\ exists similar : list (string * Q),
      SimilarityCalculator.get_most_similar_products scenario_calculator "A" 1 = inr similar
      /\ ~ In "A"%string (map fst similar)
      /\ descending snd similar
      /\ (0 <= 1 -> Z.of_nat (length similar) <= 1).
Proof.
  split.
  - reflexivity.
  - apply (get_most_similar_products_spec scenario_calculator scenario_similarity "A" 1).
    reflexivity.
Defined.

Example get_most_similar_products_missing :
  SimilarityCalculator.get_most_similar_products scenario_calculator "Z" 1
  = inl (ValueError "Product Z not found in similarity matrix").
Proof. reflexivity. Qed.

(** * Further properties of the package *)

(** ** What the pairwise loops store *)

Lemma fold_left_list_prod {S X Y : Type} (f : S -> X -> Y -> S)
      (xs : list X) (ys : list Y) (s : S) :
  fold_left (fun s x => fold_left (fun s y => f s x y) ys s) xs s
  = fold_left (fun s w => f s (fst w) (snd w)) (list_prod xs ys) s.
Proof.
  revert s. induction xs as [|x xs IH]; simpl; intros s; [reflexivity |].
  rewrite fold_left_app, <- IH. f_equal. clear IH.
  generalize s. induction ys as [|y ys IHy]; simpl; intros s'; [reflexivity |].
  apply IHy.
Qed.

Lemma enumerate_from_In {A : Type} (d : A) (l : list A) (start i : nat) (x : A) :
  In (i, x) (combine (seq start (length l)) l) ->
  (start <= i < start + length l)%nat /\ x = nth (i - start) l d.
Proof.
  revert start. induction l as [|y l IH]; simpl; intros start; [tauto |].
  intros [Heq | Hin].
  - injection Heq as <- <-. rewrite Nat.sub_diag. split; [lia | reflexivity].
  - apply IH in Hin as [Hi ->]. split; [lia |].
    replace (i - start)%nat with (S (i - S start)) by lia. reflexivity.
Qed.

Lemma enumerate_In {A : Type} (d : A) (l : list A) (i : nat) (x : A) :
  In (i, x) (enumerate l) -> (i < length l)%nat /\ x = nth i l d.
Proof.
  intros Hin. apply (enumerate_from_In d) in Hin as [Hi ->].
  rewrite Nat.sub_0_r. split; [lia | reflexivity].
Qed.

Lemma enumerate_from_nth {A : Type} (d : A) (l : list A) (start k : nat) :
  (k < length l)%nat ->
  In ((start + k)%nat, nth k l d) (combine (seq start (length l)) l).
Proof.
  revert start k. induction l as [|y l IH]; simpl; intros start k Hk; [lia |].
  destruct k as [|k].
  - left. rewrite Nat.add_0_r. reflexivity.
  - right. replace (start + S k)%nat with (S start + k)%nat by lia.
    apply IH. lia.
Qed.

Lemma enumerate_nth {A : Type} (d : A) (l : list A) (k : nat) :
  (k < length l)%nat -> In (k, nth k l d) (enumerate l).
Proof. intros Hk. apply (enumerate_from_nth d l 0 k Hk). Qed.

Section FillPairsFacts.
Variable products : list string.
Variable value : string -> string -> Q.

Lemma write_pair_square (m : Array2.t) (w : (nat * string) * (nat * string)) :
  Array2.square (length products) m ->
  Array2.square (length products) (write_pair value m w).
Proof.
  intros Hsq. unfold write_pair.
  destruct (fst (fst w) <=? fst (snd w))%nat; [| exact Hsq].
  apply Array2Facts.set_square, Array2Facts.set_square, Hsq.
Qed.

Lemma write_pair_get (m : Array2.t) (w : (nat * string) * (nat * string))
      (x y : nat) :
  Array2.square (length products) m ->
  (fst (fst w) < length products)%nat -> (fst (snd w) < length products)%nat ->
  Array2.get (write_pair value m w) x y
  = if writes_cell w x y then Some (value (snd (fst w)) (snd (snd w)))
    else Array2.get m x y.
Proof.
  intros Hsq Hi Hj. unfold write_pair, writes_cell.
  destruct (fst (fst w) <=? fst (snd w))%nat; simpl; [| reflexivity].
  rewrite !(Array2Facts.get_set (length products))
    by (try apply Array2Facts.set_square; assumption).
  destruct (Nat.eqb_spec x (fst (fst w))); destruct (Nat.eqb_spec y (fst (snd w)));
    destruct (Nat.eqb_spec x (fst (snd w))); destruct (Nat.eqb_spec y (fst (fst w)));
    simpl; repeat case_decide; try reflexivity; exfalso; tauto.
Qed.

(** After the iterations [done], a cell holds the pair's value if some
    iteration wrote it and the initial 0 otherwise. *)
Lemma write_pairs_cells (todo done : list ((nat * string) * (nat * string)))
      (m : Array2.t) :
  (forall w, In w (done ++ todo) ->
             In (fst w) (enumerate products) /\ In (snd w) (enumerate products)) ->
  Array2.square (length products) m ->
  (forall x y, (x < length products)%nat -> (y < length products)%nat ->
     Array2.get m x y
     = Some (if existsb (fun w => writes_cell w x y) done
             then pair_value products value x y else (0 # 1)%Q)) ->
  forall x y, (x < length products)%nat -> (y < length products)%nat ->
    Array2.get (fold_left (write_pair value) todo m) x y
    = Some (if existsb (fun w => writes_cell w x y) (done ++ todo)
            then pair_value products value x y else (0 # 1)%Q).
Proof.
  revert done m. induction todo as [|w todo IH]; intros done m Hall Hsq Hm x y Hx Hy.
  - simpl. rewrite app_nil_r. apply Hm; assumption.
  - simpl.
    replace (done ++ w :: todo) with ((done ++ [w]) ++ todo) in *
      by (rewrite <- app_assoc; reflexivity).
    destruct (Hall w) as [Hw1 Hw2];
      [apply in_or_app; left; apply in_or_app; right; left; reflexivity |].
    destruct w as [[i p1] [j p2]].
    apply (enumerate_In ""%string) in Hw1 as [Hi Hp1].
    apply (enumerate_In ""%string) in Hw2 as [Hj Hp2].
    apply IH; try assumption.
    + apply write_pair_square, Hsq.
    + intros x' y' Hx' Hy'.
      rewrite write_pair_get by assumption.
      rewrite existsb_app. simpl. rewrite orb_false_r.
      destruct (writes_cell (i, p1, (j, p2)) x' y') eqn:Hw.
      * rewrite orb_true_r. f_equal. subst p1 p2.
        unfold writes_cell in Hw. simpl in Hw.
        apply andb_true_iff in Hw as [Hle Hcell]. apply Nat.leb_le in Hle.
        unfold pair_value, label_at.
        apply orb_true_iff in Hcell as [Hc | Hc];
          apply andb_true_iff in Hc as [Hc1 Hc2];
          apply Nat.eqb_eq in Hc1; apply Nat.eqb_eq in Hc2; subst x' y'.
        -- rewrite Nat.min_l, Nat.max_r by lia. reflexivity.
        -- rewrite Nat.min_r, Nat.max_l by lia. reflexivity.
      * rewrite orb_false_r. apply Hm; assumption.
Qed.

(** Every cell of the filled array holds the value of its pair. *)
Lemma fill_pairs_entries (x y : nat) :
  (x < length products)%nat -> (y < length products)%nat ->
  Array2.get (SimilarityCalculator.fill_pairs products value
                (Array2.zeros (length products) (length products))) x y
  = Some (pair_value products value x y).
Proof.
  intros Hx Hy. unfold SimilarityCalculator.fill_pairs.
  rewrite (fold_left_list_prod
             (fun m ip1 jp2 =>
                if (fst ip1 <=? fst jp2)%nat
                then let v := value (snd ip1) (snd jp2) in
                     Array2.set (Array2.set m (fst ip1) (fst jp2) v)
                                (fst jp2) (fst ip1) v
                else m)).
  change (fold_left _ (list_prod (enumerate products) (enumerate products)) ?m)
    with (fold_left (write_pair value)
                    (list_prod (enumerate products) (enumerate products)) m).
  rewrite (write_pairs_cells _ []); try assumption.
  - simpl.
    assert (existsb (fun w => writes_cell w x y)
                    (list_prod (enumerate products) (enumerate products)) = true)
      as ->; [| reflexivity].
    apply existsb_exists.
    exists ((Nat.min x y, label_at products (Nat.min x y)),
            (Nat.max x y, label_at products (Nat.max x y))).
    split.
    + apply in_prod; apply enumerate_nth; lia.
    + unfold writes_cell. simpl.
      apply andb_true_iff. split; [apply Nat.leb_le; lia |].
      destruct (Nat.le_ge_cases x y) as [Hle | Hge].
      * rewrite Nat.min_l, Nat.max_r by lia. rewrite !Nat.eqb_refl. reflexivity.
      * rewrite Nat.min_r, Nat.max_l by lia. rewrite !Nat.eqb_refl.
        apply orb_true_r.
  - simpl. intros [w1 w2] Hw. apply in_prod_iff in Hw. exact Hw.
  - apply Array2Facts.zeros_square.
  - intros x' y' Hx' Hy'. simpl. unfold Array2.get, Array2.zeros.
    rewrite (lookup_replicate_2 _ _ x') by assumption.
    cbn [mbind option_bind]. apply lookup_replicate_2. assumption.
Qed.

End FillPairsFacts.

(** ** Jaccard and lift matrices *)

Lemma count_both_comm (c1 c2 : list Z) :
  SimilarityCalculator.count_both c1 c2 = SimilarityCalculator.count_both c2 c1.
Proof.
  unfold SimilarityCalculator.count_both. f_equal.
  revert c2. induction c1 as [|a c1 IH]; intros [|b c2]; simpl; try reflexivity.
  rewrite (andb_comm (a =? 1) (b =? 1)).
  destruct ((b =? 1) && (a =? 1)); simpl; rewrite (IH c2); reflexivity.
Qed.

Lemma count_either_comm (c1 c2 : list Z) :
  SimilarityCalculator.count_either c1 c2 = SimilarityCalculator.count_either c2 c1.
Proof.
  unfold SimilarityCalculator.count_either. f_equal.
  revert c2. induction c1 as [|a c1 IH]; intros [|b c2]; simpl; try reflexivity.
  rewrite (orb_comm (a =? 1) (b =? 1)).
  destruct ((b =? 1) || (a =? 1)); simpl; rewrite (IH c2); reflexivity.
Qed.

Lemma jaccard_sim_comm (bm : BasketMatrix) (p q : string) :
  SimilarityCalculator.jaccard_sim bm p q = SimilarityCalculator.jaccard_sim bm q p.
Proof.
  unfold SimilarityCalculator.jaccard_sim.
  rewrite (count_both_comm (SimilarityCalculator.column bm p)),
    (count_either_comm (SimilarityCalculator.column bm p)).
  reflexivity.
Qed.

Lemma count_both_le_either (c1 c2 : list Z) :
  0 <= SimilarityCalculator.count_both c1 c2
       <= SimilarityCalculator.count_either c1 c2.
Proof.
  unfold SimilarityCalculator.count_both, SimilarityCalculator.count_either.
  split; [lia |]. apply inj_le.
  induction (combine c1 c2) as [|[a b] l IH]; simpl; [lia |].
  destruct (a =? 1); destruct (b =? 1); simpl; lia.
Qed.

Lemma unit_range_zero : unit_range (0 # 1).
Proof. split; unfold Qle; simpl; lia. Qed.

Lemma jaccard_sim_range (bm : BasketMatrix) (p q : string) :
  unit_range (SimilarityCalculator.jaccard_sim bm p q).
Proof.
  unfold SimilarityCalculator.jaccard_sim.
  pose proof (count_both_le_either (SimilarityCalculator.column bm p)
                                   (SimilarityCalculator.column bm q)) as [H0 Hle].
  destruct (0 <? _) eqn:Hpos; [| apply unit_range_zero].
  apply Z.ltb_lt in Hpos. split.
  - apply Qle_shift_div_l.
    + change (0 # 1)%Q with (inject_Z 0). rewrite <- Zlt_Qlt. exact Hpos.
    + rewrite Qmult_0_l. change (0 # 1)%Q with (inject_Z 0).
      rewrite <- Zle_Qle. exact H0.
  - apply Qle_shift_div_r.
    + change (0 # 1)%Q with (inject_Z 0). rewrite <- Zlt_Qlt. exact Hpos.
    + rewrite Qmult_1_l. rewrite <- Zle_Qle. exact Hle.
Qed.

Lemma clamp_range (x : Q) : unit_range (qmax (0 # 1) (qmin (1 # 1) x)).
Proof.
  unfold qmax, qmin, unit_range.
  destruct (Qle_bool (1 # 1) x) eqn:H1.
  - simpl. split; unfold Qle; simpl; lia.
  - apply Qge_bool_total in H1. apply Qle_bool_iff in H1.
    destruct (Qle_bool x (0 # 1)) eqn:H0.
    + split; unfold Qle; simpl; lia.
    + apply Qge_bool_total in H0. apply Qle_bool_iff in H0. split; assumption.
Qed.

Lemma lift_similarity_range (bm : BasketMatrix) (p q : string) :
  unit_range (SimilarityCalculator.lift_similarity bm p q).
Proof.
  unfold SimilarityCalculator.lift_similarity, SimilarityCalculator.lift_of.
  cbv zeta.
  match goal with
  | |- unit_range (if ?c then _ else _) =>
      destruct c; [apply clamp_range | apply unit_range_zero]
  end.
Qed.

(** A read inside a square array is in bounds. *)
Lemma square_get_bounds (n : nat) (a : Array2.t) (i j : nat) (q : Q) :
  Array2.square n a -> Array2.get a i j = Some q -> (i < n)%nat /\ (j < n)%nat.
Proof.
  intros [Hlen Hrows] Hget. unfold Array2.get in Hget.
  destruct (a !! i) as [row|] eqn:Hrow; simpl in Hget; [| discriminate].
  split.
  - rewrite <- Hlen. apply lookup_lt_is_Some. eauto.
  - assert (length row = n) as <-.
    { rewrite List.Forall_forall in Hrows. apply Hrows.
      apply list_elem_of_In, list_elem_of_lookup. eauto. }
    apply lookup_lt_is_Some. eauto.
Qed.

Lemma jaccard_entry (bm : BasketMatrix) (i j : nat) :
  (i < length (bm_columns bm))%nat -> (j < length (bm_columns bm))%nat ->
  Array2.get (SimilarityCalculator._calculate_jaccard_similarity bm) i j
  = Some (SimilarityCalculator.jaccard_sim bm (label_at (bm_columns bm) i)
                                           (label_at (bm_columns bm) j)).
Proof.
  intros Hi Hj. unfold SimilarityCalculator._calculate_jaccard_similarity.
  cbv zeta. rewrite fill_pairs_entries by assumption.
  unfold pair_value. f_equal.
  destruct (Nat.le_ge_cases i j) as [Hle | Hge].
  - rewrite Nat.min_l, Nat.max_r by lia. reflexivity.
  - rewrite Nat.min_r, Nat.max_l by lia. apply jaccard_sim_comm.
Qed.

Lemma lift_built (bm : BasketMatrix) (lift_matrix : Array2.t) :
  SimilarityCalculator._calculate_lift_similarity bm = inr lift_matrix ->
  lift_matrix
  = SimilarityCalculator.fill_pairs
      (bm_columns bm) (SimilarityCalculator.lift_similarity bm)
      (Array2.zeros (length (bm_columns bm)) (length (bm_columns bm))).
Proof.
  rewrite calculate_lift_similarity_outcome.
  destruct (bm_rows bm); [destruct (bm_columns bm) |]; congruence.
Qed.

Lemma lift_entry (bm : BasketMatrix) (lift_matrix : Array2.t) (i j : nat) :
  SimilarityCalculator._calculate_lift_similarity bm = inr lift_matrix ->
  (i < length (bm_columns bm))%nat -> (j < length (bm_columns bm))%nat ->
  Array2.get lift_matrix i j
  = Some (SimilarityCalculator.lift_similarity bm
            (label_at (bm_columns bm) (Nat.min i j))
            (label_at (bm_columns bm) (Nat.max i j))).
Proof.
  intros Hbuilt Hi Hj. rewrite (lift_built bm lift_matrix Hbuilt).
  rewrite fill_pairs_entries by assumption. reflexivity.
Qed.

Lemma lift_outcome_rows (bm : BasketMatrix) (i : nat) :
  (i < length (bm_columns bm))%nat ->
  match SimilarityCalculator._calculate_lift_similarity bm with
  | inr _ => bm_rows bm <> []
  | inl e => bm_rows bm = [] /\ e = ZeroDivisionError "division by zero"
  end.
Proof.
  rewrite calculate_lift_similarity_outcome. intros Hi.
  destruct (bm_rows bm); [destruct (bm_columns bm) |].
  - simpl in Hi. lia.
  - split; reflexivity.
  - discriminate.
Qed.

(** X1. Every cell [(i, j)] of the jaccard matrix, above, on or below the
    diagonal, holds the Jaccard index of the products labelling columns
    [i] and [j] of the basket matrix. *)
Theorem jaccard_matrix_entries (bm : BasketMatrix) (i j : nat) :
  (i < length (bm_columns bm))%nat -> (j < length (bm_columns bm))%nat ->
  Array2.get (SimilarityCalculator._calculate_jaccard_similarity bm) i j
  = Some (SimilarityCalculator.jaccard_sim bm (label_at (bm_columns bm) i)
                                           (label_at (bm_columns bm) j)).
Proof. exact (jaccard_entry bm i j). Qed.

Lemma jaccard_matrix_entries_witness :
  ((2 < length (bm_columns scenario_baskets))%nat
   /\ (0 < length (bm_columns scenario_baskets))%nat)
  /\ Array2.get (SimilarityCalculator._calculate_jaccard_similarity scenario_baskets) 2 0
     = Some (SimilarityCalculator.jaccard_sim scenario_baskets
               (label_at (bm_columns scenario_baskets) 2)
               (label_at (bm_columns scenario_baskets) 0)).
Proof.
  split.
  - split; simpl; lia.
  - apply (jaccard_matrix_entries scenario_baskets 2 0); simpl; lia.
Defined.

(** X2. Every cell [(i, j)] of the lift matrix holds the lift score of its
    unordered pair computed once, from the product at the lower column
    position to the product at the higher one.  The matrix is built
    whenever the basket matrix has a row; on a basket matrix without rows
    the support of the first product divides by zero and the computation
    raises instead. *)
Theorem lift_matrix_entries (bm : BasketMatrix) (i j : nat) :
  (i < length (bm_columns bm))%nat -> (j < length (bm_columns bm))%nat ->
  match SimilarityCalculator._calculate_lift_similarity bm with
  | inr lift_matrix =>
      bm_rows bm <> []
      /\ Array2.get lift_matrix i j
         = Some (SimilarityCalculator.lift_similarity bm
                   (label_at (bm_columns bm) (Nat.min i j))
                   (label_at (bm_columns bm) (Nat.max i j)))
  | inl e => bm_rows bm = [] /\ e = ZeroDivisionError "division by zero"
  end.
Proof.
  intros Hi Hj. pose proof (lift_outcome_rows bm i Hi) as Hrows.
  destruct (SimilarityCalculator._calculate_lift_similarity bm)
    as [e | lift_matrix] eqn:Hbuilt; [exact Hrows |].
  split; [exact Hrows | exact (lift_entry bm lift_matrix i j Hbuilt Hi Hj)].
Qed.

Lemma lift_matrix_entries_witness :
  ((3 < length (bm_columns scenario_baskets))%nat
   /\ (1 < length (bm_columns scenario_baskets))%nat)
  /\ match SimilarityCalculator._calculate_lift_similarity scenario_baskets with
     | inr lift_matrix =>
         bm_rows scenario_baskets <> []
         /\ Array2.get lift_matrix 3 1
            = Some (SimilarityCalculator.lift_similarity scenario_baskets
                      (label_at (bm_columns scenario_baskets) (Nat.min 3 1))
                      (label_at (bm_columns scenario_baskets) (Nat.max 3 1)))
     | inl e =>
         bm_rows scenario_baskets = [] /\ e = ZeroDivisionError "division by zero"
     end.
Proof.
  split.
  - split; simpl; lia.
  - apply (lift_matrix_entries scenario_baskets 3 1); simpl; lia.
Defined.

(** X3. Under the jaccard and the lift metric every entry of the matrix
    returned by [calculate_similarity_matrix] lies between 0 and 1. *)
Theorem jaccard_lift_entries_in_unit_range `{NumPy}
        (self : SimilarityCalculator.t) (bm : BasketMatrix) (metric : string)
        (sm : SimilarityMatrix) (i j : nat) (q : Q) :
  In metric ["jaccard"; "lift"]%string ->
  snd (SimilarityCalculator.calculate_similarity_matrix self bm metric) = inr sm ->
  Array2.get (sm_values sm) i j = Some q ->
  unit_range q.
Proof.
  intros [<- | [<- | []]]; unfold SimilarityCalculator.calculate_similarity_matrix;
    simpl.
  - intros Hsm; injection Hsm as <-; simpl; intros Hget.
    destruct (square_get_bounds _ _ _ _ _
                (proj1 (fill_pairs_square_symmetric _ _)) Hget) as [Hi Hj].
    rewrite jaccard_entry in Hget by assumption.
    injection Hget as <-. apply jaccard_sim_range.
  - destruct (SimilarityCalculator._calculate_lift_similarity bm)
      as [e | lift_matrix] eqn:Hbuilt; simpl; [discriminate |].
    intros Hsm; injection Hsm as <-; simpl; intros Hget.
    assert (Array2.square (length (bm_columns bm)) lift_matrix) as Hsquare.
    { rewrite (lift_built bm lift_matrix Hbuilt).
      apply fill_pairs_square_symmetric. }
    destruct (square_get_bounds _ _ _ _ _ Hsquare Hget) as [Hi Hj].
    rewrite (lift_entry bm lift_matrix i j Hbuilt Hi Hj) in Hget.
    injection Hget as <-. apply lift_similarity_range.
Qed.

Lemma jaccard_lift_entries_in_unit_range_witness :
  exists (sm : SimilarityMatrix) (q : Q),
    (In "lift"%string ["jaccard"; "lift"]%string
     /\ snd (SimilarityCalculator.calculate_similarity_matrix
               (H := TruncatedNumPy) SimilarityCalculator.init scenario_baskets "lift")
        = inr sm
     /\ Array2.get (sm_values sm) 0 2 = Some q)
    /\ unit_range q.
Proof.
  eexists. eexists. split.
  - split; [simpl; tauto |]. split; [reflexivity | vm_compute; reflexivity].
  - eapply (jaccard_lift_entries_in_unit_range
              (H := TruncatedNumPy) SimilarityCalculator.init scenario_baskets "lift"
              _ 0 2).
    + simpl. tauto.
    + reflexivity.
    + vm_compute. reflexivity.
Defined.

Lemma count_both_diag (c : list Z) :
  SimilarityCalculator.count_both c c = set_cells c.
Proof.
  unfold SimilarityCalculator.count_both, set_cells. f_equal.
  induction c as [|a c IH]; simpl; [reflexivity |].
  destruct (a =? 1); simpl; congruence.
Qed.

Lemma count_either_diag (c : list Z) :
  SimilarityCalculator.count_either c c = set_cells c.
Proof.
  unfold SimilarityCalculator.count_either, set_cells. f_equal.
  induction c as [|a c IH]; simpl; [reflexivity |].
  destruct (a =? 1); simpl; congruence.
Qed.

(** X4. The diagonal of the jaccard matrix is 1 only for a product that
    occurs in at least one basket of the matrix; for a column without any
    1 the diagonal entry is 0. *)
Theorem jaccard_diagonal (bm : BasketMatrix) (i : nat) :
  (i < length (bm_columns bm))%nat ->
  exists q : Q,
    Array2.get (SimilarityCalculator._calculate_jaccard_similarity bm) i i = Some q
    /\ (q == if 0 <? baskets_with bm (label_at (bm_columns bm) i)
             then 1 # 1 else 0 # 1)%Q.
Proof.
  intros Hi. eexists. split; [apply jaccard_entry; assumption |].
  unfold SimilarityCalculator.jaccard_sim, baskets_with.
  rewrite count_both_diag, count_either_diag.
  destruct (0 <? set_cells _) eqn:Hpos; [| reflexivity].
  apply Z.ltb_lt in Hpos. unfold Qdiv. apply Qmult_inv_r.
  unfold Qeq. simpl. lia.
Qed.

Lemma jaccard_diagonal_witness :
  (0 < length (bm_columns scenario_baskets))%nat
  /\ exists q : Q,
      Array2.get (SimilarityCalculator._calculate_jaccard_similarity scenario_baskets) 0 0
      = Some q
      /\ (q == if 0 <? baskets_with scenario_baskets
                          (label_at (bm_columns scenario_baskets) 0)
               then 1 # 1 else 0 # 1)%Q.
Proof.
  split.
  - simpl. lia.
  - apply (jaccard_diagonal scenario_baskets 0). simpl. lia.
Defined.

(** ** Statistics over the positive pairs *)

Lemma positive_above_diagonal (row : list Q) (i start : nat) :
  List.filter (fun x => Qltb (0 # 1) x)
              (imap (fun j x => if (i <? start + j)%nat then x else (0 # 1)%Q) row)
  = List.filter (fun x => Qltb (0 # 1) x) (drop (S i - start) row).
Proof.
  revert start. induction row as [|x row IH]; intros start; simpl.
  - rewrite drop_nil. reflexivity.
  - rewrite Nat.add_0_r.
    assert (imap ((fun j x0 => if (i <? start + j)%nat then x0 else (0 # 1)%Q) ∘ S) row
            = imap (fun j x0 => if (i <? S start + j)%nat then x0 else (0 # 1)%Q) row)
      as ->.
    { apply imap_ext. intros j y _. simpl.
      replace (start + S j)%nat with (S (start + j)) by lia. reflexivity. }
    rewrite IH.
    destruct (i <? start)%nat eqn:Hlt.
    + apply Nat.ltb_lt in Hlt.
      replace (S i - start)%nat with 0%nat by lia.
      replace (S i - S start)%nat with 0%nat by lia.
      simpl. reflexivity.
    + apply Nat.ltb_ge in Hlt.
      replace (S i - start)%nat with (S (S i - S start)) by lia.
      simpl. reflexivity.
Qed.

Lemma selected_similarities_upper (sm : SimilarityMatrix) :
  SimilarityCalculator.selected_similarities sm
  = List.filter (fun x => Qltb (0 # 1) x) (strict_upper_triangle (sm_values sm)).
Proof.
  unfold SimilarityCalculator.selected_similarities, strict_upper_triangle,
    Array2.triu1.
  generalize (sm_values sm). intros a.
  assert (forall start,
             List.filter (fun x => Qltb (0 # 1) x)
               (concat (imap (fun i row =>
                                imap (fun j x => if (start + i <? j)%nat then x
                                                 else (0 # 1)%Q) row) a))
             = List.filter (fun x => Qltb (0 # 1) x)
                 (concat (imap (fun i row => drop (S (start + i)) row) a))) as Hgen.
  { induction a as [|row a IH]; intros start; simpl; [reflexivity |].
    rewrite !List.filter_app. f_equal.
    - rewrite Nat.add_0_r.
      rewrite <- (Nat.sub_0_r (S start)).
      rewrite <- (positive_above_diagonal row start 0). reflexivity.
    - rewrite (imap_ext _ (fun i row0 =>
                 imap (fun j x => if (S start + i <? j)%nat then x else (0 # 1)%Q) row0));
        [| intros i y _; simpl;
           replace (start + S i)%nat with (S (start + i)) by lia; reflexivity].
      rewrite (imap_ext ((fun i row0 => drop (S (start + i)) row0) ∘ S)
                        (fun i row0 => drop (S (S start + i)) row0));
        [| intros i y _; simpl;
           replace (start + S i)%nat with (S (start + i)) by lia; reflexivity].
      apply IH. }
  apply (Hgen 0%nat).
Qed.

(** Minimum, maximum and mean of a list of scores. *)
Lemma qmin_le_l (a b : Q) : (qmin a b <= a)%Q.
Proof.
  unfold qmin. destruct (Qle_bool a b) eqn:E; [apply Qle_refl |].
  apply Qge_bool_total in E. apply Qle_bool_iff, E.
Qed.

Lemma qmin_le_r (a b : Q) : (qmin a b <= b)%Q.
Proof.
  unfold qmin. destruct (Qle_bool a b) eqn:E; [apply Qle_bool_iff, E | apply Qle_refl].
Qed.

Lemma qmax_ge_l (a b : Q) : (a <= qmax a b)%Q.
Proof.
  unfold qmax. destruct (Qle_bool b a) eqn:E; [apply Qle_refl |].
  apply Qge_bool_total in E. apply Qle_bool_iff, E.
Qed.

Lemma qmax_ge_r (a b : Q) : (b <= qmax a b)%Q.
Proof.
  unfold qmax. destruct (Qle_bool b a) eqn:E; [apply Qle_bool_iff, E | apply Qle_refl].
Qed.

Lemma fold_qmin_le (l : list Q) (x : Q) :
  forall y, In y (x :: l) -> (fold_left qmin l x <= y)%Q.
Proof.
  revert x. induction l as [|z l IH]; simpl; intros x y Hy.
  - destruct Hy as [<- | []]. apply Qle_refl.
  - destruct Hy as [<- | [<- | Hy]].
    + eapply Qle_trans; [apply IH; left; reflexivity | apply qmin_le_l].
    + eapply Qle_trans; [apply IH; left; reflexivity | apply qmin_le_r].
    + apply IH. right. exact Hy.
Qed.

Lemma fold_qmax_ge (l : list Q) (x : Q) :
  forall y, In y (x :: l) -> (y <= fold_left qmax l x)%Q.
Proof.
  revert x. induction l as [|z l IH]; simpl; intros x y Hy.
  - destruct Hy as [<- | []]. apply Qle_refl.
  - destruct Hy as [<- | [<- | Hy]].
    + eapply Qle_trans; [apply qmax_ge_l | apply IH; left; reflexivity].
    + eapply Qle_trans; [apply qmax_ge_r | apply IH; left; reflexivity].
    + apply IH. right. exact Hy.
Qed.

Lemma fold_qmin_In (l : list Q) (x : Q) : In (fold_left qmin l x) (x :: l).
Proof.
  revert x. induction l as [|z l IH]; simpl; intros x; [left; reflexivity |].
  destruct (IH (qmin x z)) as [Heq | Hin].
  - rewrite <- Heq. unfold qmin. destruct (Qle_bool x z); [left | right; left]; reflexivity.
  - right. right. exact Hin.
Qed.

Lemma fold_qmax_In (l : list Q) (x : Q) : In (fold_left qmax l x) (x :: l).
Proof.
  revert x. induction l as [|z l IH]; simpl; intros x; [left; reflexivity |].
  destruct (IH (qmax x z)) as [Heq | Hin].
  - rewrite <- Heq. unfold qmax. destruct (Qle_bool z x); [left | right; left]; reflexivity.
  - right. right. exact Hin.
Qed.

Lemma sumQ_bounds (lo hi : Q) (l : list Q) :
  (forall x, In x l -> lo <= x /\ x <= hi)%Q ->
  (lo * inject_Z (Z.of_nat (length l)) <= Py.sumQ l
   /\ Py.sumQ l <= hi * inject_Z (Z.of_nat (length l)))%Q.
Proof.
  induction l as [|x l IH]; intros Hall.
  - change (inject_Z (Z.of_nat (@length Q []))) with 0%Q.
    change (Py.sumQ []) with 0%Q. split; lra.
  - destruct (Hall x (or_introl eq_refl)) as [Hlo Hhi].
    destruct IH as [IHlo IHhi]; [intros y Hy; apply Hall; right; exact Hy |].
    change (length (x :: l)) with (S (length l)).
    rewrite Nat2Z.inj_succ, <- Z.add_1_r, inject_Z_plus.
    change (Py.sumQ (x :: l)) with (x + Py.sumQ l)%Q.
    change (inject_Z 1) with 1%Q.
    split; lra.
Qed.

Lemma mean_bounds (lo hi : Q) (l : list Q) :
  l <> [] ->
  (forall x, In x l -> lo <= x /\ x <= hi)%Q ->
  (lo <= Py.mean l /\ Py.mean l <= hi)%Q.
Proof.
  intros Hne Hall. destruct (sumQ_bounds lo hi l Hall) as [Hlo Hhi].
  assert (0 < inject_Z (Z.of_nat (length l)))%Q as Hpos.
  { change 0%Q with (inject_Z 0). rewrite <- Zlt_Qlt.
    destruct l; [contradiction | simpl; lia]. }
  unfold Py.mean. split.
  - apply Qle_shift_div_l; assumption.
  - apply Qle_shift_div_r; assumption.
Qed.

Lemma Qltb_lt (x y : Q) : Qltb x y = true <-> (x < y)%Q.
Proof. unfold Qltb, Qlt. apply Z.ltb_lt. Qed.

(** X5. [get_similarity_statistics] works on the strictly positive
    entries above the diagonal: when there is none it raises the
    zero-size error of [np.min]; otherwise it returns, [total_pairs]
    counts those entries, the reported minimum and maximum are two of
    them and bound all of them, the minimum is positive, and
    [high_similarity_pairs] is at most [total_pairs]. *)
Theorem get_similarity_statistics_positive_pairs `{NumPy}
        (self : SimilarityCalculator.t) (sm : SimilarityMatrix) :
  SimilarityCalculator.similarity_matrix self = Some sm ->
  let positive :=
    List.filter (fun x => Qltb (0 # 1) x) (strict_upper_triangle (sm_values sm)) in
  match SimilarityCalculator.get_similarity_statistics self with
  | inr stats =>
      total_pairs stats = Z.of_nat (length positive)
      /\ (0 < total_pairs stats)
      /\ (0 < min_similarity stats)%Q
      /\ In (min_similarity stats) positive
      /\ In (max_similarity stats) positive
      /\ (forall x, In x positive ->
            (min_similarity stats <= x /\ x <= max_similarity stats)%Q)
      /\ 0 <= high_similarity_pairs stats <= total_pairs stats
  | inl e =>
      positive = []
      /\ e = ValueError "zero-size array to reduction operation minimum which has no identity"
  end.
Proof.
  intros Hsm positive. unfold SimilarityCalculator.get_similarity_statistics,
    SimilarityCalculator.get_similarity_matrix.
  rewrite Hsm. simpl. rewrite selected_similarities_upper. fold positive.
  destruct positive as [|x l] eqn:Hsel; simpl; [split; reflexivity |].
  split; [reflexivity |]. split; [lia |].
  pose proof (fold_qmin_In l x) as Hmin.
  pose proof (fold_qmax_In l x) as Hmax.
  split.
  { assert (In (fold_left qmin l x) positive) as Hin by (rewrite Hsel; exact Hmin).
    apply filter_In in Hin as [_ Hpos]. apply Qltb_lt in Hpos. exact Hpos. }
  split; [exact Hmin |]. split; [exact Hmax |].
  split.
  { intros y Hy. split; [apply fold_qmin_le | apply fold_qmax_ge]; exact Hy. }
  pose proof (List.filter_length_le (fun x0 => Qltb (1 # 2) x0) (x :: l)) as Hle.
  simpl in Hle. lia.
Qed.

Lemma get_similarity_statistics_positive_pairs_witness :
  SimilarityCalculator.similarity_matrix scenario_calculator = Some scenario_similarity
  /\ match SimilarityCalculator.get_similarity_statistics
             (H := TruncatedNumPy) scenario_calculator with
     | inr stats =>
         total_pairs stats = 4
         /\ (0 < min_similarity stats)%Q
         /\ 0 <= high_similarity_pairs stats <= total_pairs stats
     | inl e => False
     end.
Proof.
  split.
  - reflexivity.
  - pose proof (get_similarity_statistics_positive_pairs
                  (H := TruncatedNumPy) scenario_calculator scenario_similarity
                  eq_refl) as Hstats.
    cbv zeta in Hstats.
    destruct (SimilarityCalculator.get_similarity_statistics
                (H := TruncatedNumPy) scenario_calculator) as [e | stats].
    + destruct Hstats as [Hnone _]. vm_compute in Hnone. discriminate Hnone.
    + destruct Hstats as [Htotal [_ [Hmin [_ [_ [_ Hhigh]]]]]].
      split; [rewrite Htotal; reflexivity |]. split; assumption.
Defined.

(** ** Distances *)

Lemma distance_get (a : Array2.t) (i j : nat) :
  Array2.get (Array2.distance a) i j
  = (fun x => if (i =? j)%nat then (0 # 1)%Q else ((1 # 1) - x)%Q) <$> Array2.get a i j.
Proof.
  unfold Array2.get, Array2.distance. rewrite list_lookup_imap.
  destruct (a !! i) as [row|]; simpl; [| reflexivity].
  rewrite list_lookup_imap. reflexivity.
Qed.

(** X6. Once a symmetric similarity matrix with entries between 0 and 1
    is stored, [get_distance_matrix] returns an array of the same shape
    that is symmetric, has 0 on its diagonal, holds [1 - similarity]
    elsewhere and has its entries between 0 and 1. *)
Theorem get_distance_matrix_properties
        (self : SimilarityCalculator.t) (sm : SimilarityMatrix) :
  SimilarityCalculator.similarity_matrix self = Some sm ->
  Array2.symmetric (sm_values sm) ->
  (forall i j s, Array2.get (sm_values sm) i j = Some s -> unit_range s) ->
  exists d : Array2.t,
    SimilarityCalculator.get_distance_matrix self = inr d
    /\ Array2.symmetric d
    /\ (forall i j, is_Some (Array2.get d i j) <-> is_Some (Array2.get (sm_values sm) i j))
    /\ (forall i x, Array2.get d i i = Some x -> x = (0 # 1)%Q)
    /\ (forall i j s, i <> j -> Array2.get (sm_values sm) i j = Some s ->
                      Array2.get d i j = Some ((1 # 1) - s)%Q)
    /\ (forall i j x, Array2.get d i j = Some x -> unit_range x).
Proof.
  intros Hsm Hsym Hrange.
  exists (Array2.distance (sm_values sm)).
  split.
  { unfold SimilarityCalculator.get_distance_matrix,
      SimilarityCalculator.get_similarity_matrix. rewrite Hsm. reflexivity. }
  split.
  { intros i j. rewrite !distance_get, (Hsym i j), (Nat.eqb_sym i j). reflexivity. }
  split.
  { intros i j. rewrite distance_get.
    destruct (Array2.get (sm_values sm) i j); simpl; split; intros [x Hx];
      try discriminate; eauto. }
  split.
  { intros i x. rewrite distance_get, Nat.eqb_refl.
    destruct (Array2.get (sm_values sm) i i); simpl; intros Hx;
      [injection Hx as <-; reflexivity | discriminate]. }
  split.
  { intros i j s Hij Hs. rewrite distance_get, Hs. simpl.
    destruct (Nat.eqb_spec i j); [contradiction | reflexivity]. }
  intros i j x. rewrite distance_get.
  destruct (Array2.get (sm_values sm) i j) as [s|] eqn:Hs; simpl; [| discriminate].
  intros Hx. injection Hx as <-.
  destruct (i =? j)%nat; [apply unit_range_zero |].
  destruct (Hrange i j s Hs) as [H0 H1]. unfold unit_range. split; lra.
Qed.

Lemma scenario_similarity_symmetric : Array2.symmetric (sm_values scenario_similarity).
Proof. apply (proj2 (fill_pairs_square_symmetric _ _)). Qed.

Lemma scenario_similarity_range (i j : nat) (s : Q) :
  Array2.get (sm_values scenario_similarity) i j = Some s -> unit_range s.
Proof.
  intros Hget.
  destruct (square_get_bounds _ _ _ _ _
              (proj1 (fill_pairs_square_symmetric _ _)) Hget) as [Hi Hj].
  unfold scenario_similarity in Hget. simpl sm_values in Hget.
  rewrite jaccard_entry in Hget by assumption.
  injection Hget as <-. apply jaccard_sim_range.
Qed.

Lemma get_distance_matrix_properties_witness :
  (SimilarityCalculator.similarity_matrix scenario_calculator = Some scenario_similarity
   /\ Array2.symmetric (sm_values scenario_similarity)
   /\ (forall i j s, Array2.get (sm_values scenario_similarity) i j = Some s ->
                     unit_range s))
  /\ exists d : Array2.t,
      SimilarityCalculator.get_distance_matrix scenario_calculator = inr d
      /\ Array2.symmetric d
      /\ (forall i j, is_Some (Array2.get d i j)
                      <-> is_Some (Array2.get (sm_values scenario_similarity) i j))
      /\ (forall i x, Array2.get d i i = Some x -> x = (0 # 1)%Q)
      /\ (forall i j s, i <> j ->
                        Array2.get (sm_values scenario_similarity) i j = Some s ->
                        Array2.get d i j = Some ((1 # 1) - s)%Q)
      /\ (forall i j x, Array2.get d i j = Some x -> unit_range x).
Proof.
  split.
  - split; [reflexivity |].
    split; [exact scenario_similarity_symmetric | exact scenario_similarity_range].
  - apply (get_distance_matrix_properties scenario_calculator scenario_similarity).
    + reflexivity.
    + exact scenario_similarity_symmetric.
    + exact scenario_similarity_range.
Defined.

(** ** Pairs at or above a threshold *)

(** X7. Once a similarity matrix is stored,
    [get_similarity_threshold_products] returns exactly the pairs of
    products at index positions [i < j] whose similarity is at least the
    threshold, each with that similarity, sorted by similarity in
    descending order. *)
Theorem get_similarity_threshold_products_spec
        (self : SimilarityCalculator.t) (sm : SimilarityMatrix) (threshold : Q) :
  SimilarityCalculator.similarity_matrix self = Some sm ->
  exists pairs : list (string * string * Q),
    SimilarityQueries.get_similarity_threshold_products self threshold = inr pairs
    /\ descending snd pairs
    /\ (forall p q s, In (p, q, s) pairs ->
          (threshold <= s)%Q
          /\ s = default (0 # 1)%Q (loc sm p q)
          /\ exists i j, (i < j < length (sm_index sm))%nat
                         /\ p = label_at (sm_index sm) i
                         /\ q = label_at (sm_index sm) j)
    /\ (forall i j, (i < j < length (sm_index sm))%nat ->
          (threshold <= default (0 # 1)%Q
                          (loc sm (label_at (sm_index sm) i) (label_at (sm_index sm) j)))%Q ->
          In (label_at (sm_index sm) i, label_at (sm_index sm) j,
              default (0 # 1)%Q
                      (loc sm (label_at (sm_index sm) i) (label_at (sm_index sm) j)))
             pairs).
Proof.
  intros Hsm.
  unfold SimilarityQueries.get_similarity_threshold_products,
    SimilarityCalculator.get_similarity_matrix.
  rewrite Hsm. simpl. eexists. split; [reflexivity |].
  split; [apply (sort_by_descending snd) |].
  split.
  - intros p q s Hin.
    apply (Permutation_in _ (sort_by_perm _ _)) in Hin.
    apply in_flat_map in Hin as [[i p1] [Hi Hin]].
    apply in_flat_map in Hin as [[j p2] [Hj Hin]].
    simpl in Hin.
    destruct (i <? j)%nat eqn:Hij; [| contradiction].
    destruct (Qle_bool threshold _) eqn:Hthr; [| contradiction].
    destruct Hin as [Heq | []]. injection Heq as <- <- <-.
    apply Nat.ltb_lt in Hij. apply Qle_bool_iff in Hthr.
    apply (enumerate_In ""%string) in Hi as [Hi Hp1].
    apply (enumerate_In ""%string) in Hj as [Hj Hp2].
    split; [exact Hthr |]. split; [reflexivity |].
    exists i, j. unfold label_at. repeat split; try assumption; lia.
  - intros i j [Hij Hj] Hthr.
    apply (Permutation_in _ (Permutation_sym (sort_by_perm _ _))).
    apply in_flat_map. exists (i, label_at (sm_index sm) i). split.
    { apply enumerate_nth. lia. }
    apply in_flat_map. exists (j, label_at (sm_index sm) j). split.
    { apply enumerate_nth. lia. }
    simpl. apply Nat.ltb_lt in Hij. rewrite Hij.
    apply Qle_bool_iff in Hthr. rewrite Hthr. left. reflexivity.
Qed.

Lemma get_similarity_threshold_products_spec_witness :
  SimilarityCalculator.similarity_matrix scenario_calculator = Some scenario_similarity
  /\ exists pairs : list (string * string * Q),
      SimilarityQueries.get_similarity_threshold_products scenario_calculator (1 # 2)
      = inr pairs
      /\ descending snd pairs
      /\ (forall p q s, In (p, q, s) pairs ->
            ((1 # 2) <= s)%Q
            /\ s = default (0 # 1)%Q (loc scenario_similarity p q)
            /\ exists i j, (i < j < length (sm_index scenario_similarity))%nat
                           /\ p = label_at (sm_index scenario_similarity) i
                           /\ q = label_at (sm_index scenario_similarity) j)
      /\ (forall i j, (i < j < length (sm_index scenario_similarity))%nat ->
            ((1 # 2) <= default (0 # 1)%Q
                          (loc scenario_similarity
                               (label_at (sm_index scenario_similarity) i)
                               (label_at (sm_index scenario_similarity) j)))%Q ->
            In (label_at (sm_index scenario_similarity) i,
                label_at (sm_index scenario_similarity) j,
                default (0 # 1)%Q
                        (loc scenario_similarity
                             (label_at (sm_index scenario_similarity) i)
                             (label_at (sm_index scenario_similarity) j)))
               pairs).
Proof.
  split.
  - reflexivity.
  - apply (get_similarity_threshold_products_spec
             scenario_calculator scenario_similarity (1 # 2)).
    reflexivity.
Defined.

(** ** Shape of the basket matrix *)

Lemma string_compare_not_Gt_trans (a b c : string) :
  String.compare a b <> Gt -> String.compare b c <> Gt -> String.compare a c <> Gt.
Proof.
  revert b c. induction a as [|x a IH]; intros [|y b] [|z c]; simpl;
    try congruence.
  unfold Ascii.compare.
  destruct (N.compare_spec (N_of_ascii x) (N_of_ascii y)) as [Hxy | Hxy | Hxy];
    destruct (N.compare_spec (N_of_ascii y) (N_of_ascii z)) as [Hyz | Hyz | Hyz];
    destruct (N.compare_spec (N_of_ascii x) (N_of_ascii z)) as [Hxz | Hxz | Hxz];
    try congruence; try lia.
  apply IH.
Qed.

Lemma string_leb_trans (a b c : string) :
  String.leb a b = true -> String.leb b c = true -> String.leb a c = true.
Proof.
  unfold String.leb. intros Hab Hbc.
  pose proof (string_compare_not_Gt_trans a b c) as Htrans.
  destruct (String.compare a b); destruct (String.compare b c);
    destruct (String.compare a c); try reflexivity; try discriminate;
    exfalso; apply Htrans; congruence.
Qed.

Lemma string_leb_false (a b : string) :
  String.leb a b = false -> String.leb b a = true.
Proof.
  intros Hab. destruct (String.leb_total a b) as [H | H]; congruence.
Qed.

Lemma filter_map_fst_NoDup {A B : Type} (f : A * B -> bool) (l : list (A * B)) :
  List.NoDup (map fst l) -> List.NoDup (map fst (List.filter f l)).
Proof.
  induction l as [|x l IH]; simpl; intros Hnd; [constructor |].
  apply List.NoDup_cons_iff in Hnd as [Hx Hnd].
  destruct (f x); simpl; [| apply IH, Hnd].
  constructor; [| apply IH, Hnd].
  intros Hin. apply Hx.
  apply in_map_iff in Hin as [y [Hy Hin]].
  apply filter_In in Hin as [Hin _].
  apply in_map_iff. exists y. split; assumption.
Qed.

Lemma select_frequent_NoDup (df : list TransactionRecord) (min_support : Z) :
  List.NoDup (MarketBasketAnalyzer.select_frequent df min_support).
Proof.
  unfold MarketBasketAnalyzer.select_frequent, Py.value_counts.
  apply filter_map_fst_NoDup.
  eapply Permutation_NoDup.
  - apply Permutation_map, Permutation_sym, sort_by_perm.
  - rewrite map_map. simpl. rewrite map_id.
    apply (unique_NoDup String.eqb String.eqb_eq).
Qed.

Lemma build_basket_data_length (frequent : list string)
      (baskets : list (string * list string)) :
  (length (MarketBasketAnalyzer.build_basket_data frequent baskets)
   <= length baskets)%nat.
Proof.
  induction baskets as [|[invoice items] rest IH]; simpl; [lia |].
  destruct (1 <? _)%nat; simpl; lia.
Qed.

(** X8. For every transaction table and [min_support], the matrix
    stored by [create_market_baskets] and read back with
    [get_basket_matrix] has its columns in ascending order without
    repetition, one cell per column in every row, only 0 and 1 as cells,
    and at most one row per invoice of the table. *)
Theorem created_basket_matrix_shape
        (self : MarketBasketAnalyzer.t) (df : list TransactionRecord)
        (min_support : Z) :
  exists bm : BasketMatrix,
    BasketQueries.get_basket_matrix
      (fst (MarketBasketAnalyzer.create_market_baskets self df min_support)) = inr bm
    /\ snd (MarketBasketAnalyzer.create_market_baskets self df min_support) = inr bm
    /\ StronglySorted (fun a b => String.leb a b = true) (bm_columns bm)
    /\ List.NoDup (bm_columns bm)
    /\ (forall row, In row (bm_rows bm) ->
          length row = length (bm_columns bm)
          /\ forall cell, In cell row -> cell = 0 \/ cell = 1)
    /\ (length (bm_rows bm)
        <= length (Py.unique String.eqb (map InvoiceNo df)))%nat.
Proof.
  eexists. split; [reflexivity |]. split; [reflexivity |]. simpl.
  split; [apply sort_by_sorted; [apply string_leb_false | apply string_leb_trans] |].
  split.
  { eapply Permutation_NoDup;
      [apply Permutation_sym, sort_by_perm | apply select_frequent_NoDup]. }
  split.
  - intros row Hrow. apply in_map_iff in Hrow as [b [<- _]].
    unfold MarketBasketAnalyzer.matrix_row. split; [apply length_map |].
    intros cell Hcell. apply in_map_iff in Hcell as [p [<- _]].
    destruct (Py.mem p (snd b)); [right | left]; reflexivity.
  - rewrite length_map.
    eapply Nat.le_trans; [apply build_basket_data_length |].
    unfold MarketBasketAnalyzer.groupby_InvoiceNo. rewrite length_map.
    unfold Py.sorted. rewrite (Permutation_length (sort_by_perm _ _)). lia.
Qed.

(** X9. On a table in which no order lists the same product on two line
    items, every column of the basket matrix belongs to a product that
    appears in at least [min_support] orders and every row has at least 2
    cells set to 1. *)
Theorem basket_matrix_invariants_without_repeats
        (self : MarketBasketAnalyzer.t) (df : list TransactionRecord)
        (min_support : Z) (bm : BasketMatrix) :
  no_repeated_line df ->
  snd (MarketBasketAnalyzer.create_market_baskets self df min_support) = inr bm ->
  (forall p, In p (bm_columns bm) -> min_support <= orders_containing df p)
  /\ (forall row, In row (bm_rows bm) -> 2 <= set_cells row).
Proof. exact (create_market_baskets_invariants self df min_support bm). Qed.

Lemma basket_matrix_invariants_without_repeats_witness :
  (no_repeated_line scenario_orders
   /\ snd (MarketBasketAnalyzer.create_market_baskets
             MarketBasketAnalyzer.init scenario_orders 2) 
      = inr (mkBasketMatrix ["A"; "B"; "C"]%string [[1; 1; 0]; [1; 1; 1]; [1; 1; 0]]))
  /\ (forall p, In p ["A"; "B"; "C"]%string -> 2 <= orders_containing scenario_orders p)
  /\ (forall row, In row [[1; 1; 0]; [1; 1; 1]; [1; 1; 0]] -> 2 <= set_cells row).
Proof.
  split.
  - split; [exact scenario_orders_no_repeated_line | reflexivity].
  - apply (basket_matrix_invariants_without_repeats
             MarketBasketAnalyzer.init scenario_orders 2
             (mkBasketMatrix ["A"; "B"; "C"]%string [[1; 1; 0]; [1; 1; 1]; [1; 1; 0]])).
    + exact scenario_orders_no_repeated_line.
    + reflexivity.
Defined.

(** ** Basket statistics and frequency filter *)

Lemma fold_Zmin_bounds (l : list Z) (x lo : Z) :
  lo <= x -> (forall y, In y l -> lo <= y) ->
  lo <= fold_left Z.min l x <= x.
Proof.
  revert x. induction l as [|z l IH]; simpl; intros x Hx Hall; [lia |].
  destruct (IH (Z.min x z)) as [H1 H2].
  - pose proof (Hall z (or_introl eq_refl)). lia.
  - intros y Hy. apply Hall. right. exact Hy.
  - lia.
Qed.

Lemma fold_Zmax_bounds (l : list Z) (x hi : Z) :
  x <= hi -> (forall y, In y l -> y <= hi) ->
  x <= fold_left Z.max l x <= hi.
Proof.
  revert x. induction l as [|z l IH]; simpl; intros x Hx Hall; [lia |].
  destruct (IH (Z.max x z)) as [H1 H2].
  - pose proof (Hall z (or_introl eq_refl)). lia.
  - intros y Hy. apply Hall. right. exact Hy.
  - lia.
Qed.

(** In a row of 0 and 1 cells the sum counts the set cells, and is at
    most the number of cells. *)
Lemma binary_row_sum (row : list Z) :
  (forall cell, In cell row -> cell = 0 \/ cell = 1) ->
  Py.sumZ row = set_cells row /\ Py.sumZ row <= Z.of_nat (length row).
Proof.
  unfold set_cells. induction row as [|c row IH]; intros Hbin; [simpl; lia |].
  destruct IH as [IH1 IH2]; [intros cell Hcell; apply Hbin; right; exact Hcell |].
  change (Py.sumZ (c :: row)) with (c + Py.sumZ row).
  destruct (Hbin c (or_introl eq_refl)) as [-> | ->]; simpl in *; lia.
Qed.

Lemma matrix_row_binary (all_products products : list string) (cell : Z) :
  In cell (MarketBasketAnalyzer.matrix_row all_products products) ->
  cell = 0 \/ cell = 1.
Proof.
  unfold MarketBasketAnalyzer.matrix_row. intros Hcell.
  apply in_map_iff in Hcell as [p [<- _]].
  destruct (Py.mem p products); [right | left]; reflexivity.
Qed.

(** X10. After [create_market_baskets] on a table without repeated line
    items, [get_basket_statistics] returns; [total_products] is the number
    of frequent products; if at least one basket was kept, the smallest
    basket has at least 2 products and the largest at most
    [total_products]; if none was kept, minimum, maximum and mean are
    NaN and [total_baskets] is 0. *)
Theorem basket_statistics_after_create
        (self : MarketBasketAnalyzer.t) (df : list TransactionRecord)
        (min_support : Z) :
  no_repeated_line df ->
  exists stats : BasketStatistics,
    BasketQueries.get_basket_statistics
      (fst (MarketBasketAnalyzer.create_market_baskets self df min_support))
    = inr stats
    /\ total_products stats
       = Z.of_nat (length (MarketBasketAnalyzer.select_frequent df min_support))
    /\ match min_products_in_basket stats, max_products_in_basket stats with
       | Some lo, Some hi =>
           0 < total_baskets stats /\ 2 <= lo /\ lo <= hi /\ hi <= total_products stats
       | None, None =>
           total_baskets stats = 0 /\ avg_products_per_basket stats = None
       | _, _ => False
       end.
Proof.
  intros Hnd.
  destruct (MarketBasketAnalyzer.create_market_baskets self df min_support)
    as [self' result] eqn:Hcreate.
  pose proof (create_market_baskets_invariants self df min_support) as Hinv.
  rewrite Hcreate in Hinv. simpl in Hinv.
  unfold MarketBasketAnalyzer.create_market_baskets in Hcreate.
  injection Hcreate as <- <-. simpl.
  specialize (Hinv _ Hnd eq_refl) as [_ Hrows]. simpl in Hrows.
  eexists. split; [reflexivity |]. simpl.
  split.
  { unfold Py.sorted. rewrite (Permutation_length (sort_by_perm _ _)). reflexivity. }
  unfold BasketQueries.row_sums. simpl.
  set (all_products := Py.sorted (MarketBasketAnalyzer.select_frequent df min_support)) in *.
  set (data := MarketBasketAnalyzer.build_basket_data _ _) in *.
  assert (forall s, In s (map Py.sumZ (map (fun b => MarketBasketAnalyzer.matrix_row
                                                       all_products (snd b)) data)) ->
                    2 <= s <= Z.of_nat (length all_products)) as Hsums.
  { intros s Hs. apply in_map_iff in Hs as [row [<- Hrow]].
    pose proof (Hrows row Hrow) as Hcells.
    apply in_map_iff in Hrow as [b [<- _]].
    destruct (binary_row_sum (MarketBasketAnalyzer.matrix_row all_products (snd b)))
      as [Hsum Hlen]; [apply matrix_row_binary |].
    unfold MarketBasketAnalyzer.matrix_row in Hlen. rewrite length_map in Hlen.
    split; [rewrite Hsum; exact Hcells | exact Hlen]. }
  destruct data as [|b data]; simpl in *; [split; reflexivity |].
  set (first := Py.sumZ (MarketBasketAnalyzer.matrix_row all_products (snd b))) in *.
  set (others := map Py.sumZ (map _ data)) in *.
  destruct (Hsums first (or_introl eq_refl)) as [Hlo Hhi].
  destruct (fold_Zmin_bounds others first 2 Hlo) as [Hmin1 Hmin2];
    [intros y Hy; apply Hsums; right; exact Hy |].
  destruct (fold_Zmax_bounds others first (Z.of_nat (length all_products)) Hhi)
    as [Hmax1 Hmax2]; [intros y Hy; apply Hsums; right; exact Hy |].
  repeat split; lia.
Qed.

Lemma basket_statistics_after_create_witness :
  no_repeated_line scenario_orders
  /\ exists stats : BasketStatistics,
      BasketQueries.get_basket_statistics
        (fst (MarketBasketAnalyzer.create_market_baskets
                MarketBasketAnalyzer.init scenario_orders 1))
      = inr stats
      /\ total_products stats
         = Z.of_nat (length (MarketBasketAnalyzer.select_frequent scenario_orders 1))
      /\ match min_products_in_basket stats, max_products_in_basket stats with
         | Some lo, Some hi =>
             0 < total_baskets stats /\ 2 <= lo /\ lo <= hi /\ hi <= total_products stats
         | None, None =>
             total_baskets stats = 0 /\ avg_products_per_basket stats = None
         | _, _ => False
         end.
Proof.
  split.
  - exact scenario_orders_no_repeated_line.
  - apply (basket_statistics_after_create MarketBasketAnalyzer.init scenario_orders 1).
    exact scenario_orders_no_repeated_line.
Defined.

Lemma nth_map_lt {A B : Type} (f : A -> B) (l : list A) (k : nat) (d : A) (d' : B) :
  (k < length l)%nat -> nth k (map f l) d' = f (nth k l d).
Proof.
  intros Hk. rewrite (nth_indep (map f l) d' (f d)) by (rewrite length_map; exact Hk).
  apply map_nth.
Qed.

(** X11. Once a basket matrix is stored, [filter_products_by_frequency]
    returns a matrix with the same number of rows whose columns are the
    columns of the stored matrix with a sum of at least [min_frequency]:
    every returned column has such a sum, and a label is returned exactly
    when some stored column with that label has. *)
Theorem filter_products_by_frequency_spec
        (self : MarketBasketAnalyzer.t) (bm : BasketMatrix) (min_frequency : Z) :
  MarketBasketAnalyzer.basket_matrix self = Some bm ->
  exists filtered : BasketMatrix,
    BasketQueries.filter_products_by_frequency self min_frequency = inr filtered
    /\ length (bm_rows filtered) = length (bm_rows bm)
    /\ (forall k, (k < length (bm_columns filtered))%nat ->
          min_frequency <= Py.sumZ (BasketQueries.column_at filtered k))
    /\ (forall label, In label (bm_columns filtered) <->
          exists k, (k < length (bm_columns bm))%nat
                    /\ label_at (bm_columns bm) k = label
                    /\ min_frequency <= Py.sumZ (BasketQueries.column_at bm k)).
Proof.
  intros Hbm. unfold BasketQueries.filter_products_by_frequency,
    BasketQueries.get_basket_matrix. rewrite Hbm. simpl.
  eexists. split; [reflexivity |]. simpl.
  set (kept := List.filter _ (enumerate (bm_columns bm))).
  split; [apply length_map |]. split.
  - intros k Hk. rewrite length_map in Hk.
    unfold BasketQueries.column_at at 1. simpl. rewrite map_map.
    assert (In (nth k kept (0%nat, ""%string)) kept) as Hin by (apply nth_In, Hk).
    apply filter_In in Hin as [_ Hsum]. apply Z.leb_le in Hsum.
    erewrite map_ext; [exact Hsum |].
    intros row. simpl.
    exact (nth_map_lt (fun kl : nat * string => nth (fst kl) row 0) kept k
                      (0%nat, ""%string) 0 Hk).
  - intros label. split.
    + intros Hin. apply in_map_iff in Hin as [[k l] [Hl Hin]]. simpl in Hl. subst l.
      apply filter_In in Hin as [Hin Hsum]. simpl in Hsum. apply Z.leb_le in Hsum.
      apply (enumerate_In ""%string) in Hin as [Hk Hlabel].
      exists k. unfold label_at. split; [exact Hk |]. split; [congruence | exact Hsum].
    + intros [k (Hk & Hlabel & Hsum)]. apply in_map_iff.
      exists (k, label_at (bm_columns bm) k). split; [exact Hlabel |].
      apply filter_In. split; [apply enumerate_nth, Hk |].
      simpl. apply Z.leb_le, Hsum.
Qed.

Lemma filter_products_by_frequency_spec_witness :
  MarketBasketAnalyzer.basket_matrix
    (MarketBasketAnalyzer.mk (Some scenario_baskets) (Some ["A"; "B"; "C"; "D"]%string))
  = Some scenario_baskets
  /\ exists filtered : BasketMatrix,
      BasketQueries.filter_products_by_frequency
        (MarketBasketAnalyzer.mk (Some scenario_baskets) (Some ["A"; "B"; "C"; "D"]%string)) 2
      = inr filtered
      /\ length (bm_rows filtered) = length (bm_rows scenario_baskets)
      /\ (forall k, (k < length (bm_columns filtered))%nat ->
            2 <= Py.sumZ (BasketQueries.column_at filtered k))
      /\ (forall label, In label (bm_columns filtered) <->
            exists k, (k < length (bm_columns scenario_baskets))%nat
                      /\ label_at (bm_columns scenario_baskets) k = label
                      /\ 2 <= Py.sumZ (BasketQueries.column_at scenario_baskets k)).
Proof.
  split.
  - reflexivity.
  - apply (filter_products_by_frequency_spec
             (MarketBasketAnalyzer.mk (Some scenario_baskets)
                                      (Some ["A"; "B"; "C"; "D"]%string))
             scenario_baskets 2).
    reflexivity.
Defined.

(** ** Clustering *)

Lemma combine_fst {A B : Type} (a : list A) (b : list B) :
  length a = length b -> map fst (combine a b) = a.
Proof.
  revert b. induction a as [|x a IH]; intros [|y b]; simpl; intros Hlen;
    try reflexivity; try discriminate.
  f_equal. apply IH. lia.
Qed.

Lemma combine_snd {A B : Type} (a : list A) (b : list B) :
  length a = length b -> map snd (combine a b) = b.
Proof.
  revert b. induction a as [|x a IH]; intros [|y b]; simpl; intros Hlen;
    try reflexivity; try discriminate.
  f_equal. apply IH. lia.
Qed.

Lemma filter_none {A : Type} (f : A -> bool) (l : list A) :
  (forall x, In x l -> f x = false) -> List.filter f l = [].
Proof.
  induction l as [|x l IH]; simpl; intros Hall; [reflexivity |].
  rewrite (Hall x (or_introl eq_refl)). apply IH.
  intros y Hy. apply Hall. right. exact Hy.
Qed.

(** In a product table without repeated stock codes at most one row
    matches a code. *)
Lemma filter_code_find (info : list ProductInfo) (code : string) :
  List.NoDup (map pi_StockCode info) ->
  List.filter (fun p => String.eqb (pi_StockCode p) code) info
  = match info_of info code with
    | Some p => [p]
    | None => []
    end.
Proof.
  unfold info_of. induction info as [|p info IH]; simpl; intros Hnd; [reflexivity |].
  apply List.NoDup_cons_iff in Hnd as [Hp Hnd].
  destruct (String.eqb_spec (pi_StockCode p) code) as [Hcode | Hcode].
  - f_equal. apply filter_none. intros q Hq.
    destruct (String.eqb_spec (pi_StockCode q) code) as [Hq' | _]; [| reflexivity].
    exfalso. apply Hp. apply in_map_iff. exists q. split; [congruence | exact Hq].
  - apply IH, Hnd.
Qed.

Lemma merge_left_rows (labelled : list (string * Z)) (info : list ProductInfo) :
  List.NoDup (map pi_StockCode info) ->
  ClusteringAnalyzer.merge_left labelled info
  = map (fun cl => mkClusterRow (fst cl) (snd cl) (info_of info (fst cl))) labelled.
Proof.
  intros Hnd. unfold ClusteringAnalyzer.merge_left.
  induction labelled as [|cl labelled IH]; [reflexivity |].
  cbn [flat_map]. rewrite IH, (filter_code_find info (fst cl) Hnd).
  cbn [map]. destruct (info_of info (fst cl)); reflexivity.
Qed.

(** X12. When the clustering routine answers with one label per product
    of the similarity index and the product table has no repeated stock
    code, [perform_clustering] stores and returns a table that lists
    every product of the index exactly once, in index order, with the
    label the routine gave it and with its row of the product table if
    it has one. *)
Theorem perform_clustering_partition
        (fit_predict : option Z -> option Q -> string -> Array2.t -> exn + list Z)
        (self : ClusteringAnalyzer.t) (sm : SimilarityMatrix)
        (info : list ProductInfo) (n_clusters : option Z) (linkage : string)
        (distance_threshold : option Q) (max_cluster_size : option Z)
        (labels : list Z) :
  fit_predict
    (ClusteringAnalyzer.chosen_n_clusters n_clusters distance_threshold
                                          (Array2.distance (sm_values sm)))
    distance_threshold linkage (Array2.distance (sm_values sm)) = inr labels ->
  length labels = length (sm_index sm) ->
  List.NoDup (map pi_StockCode info) ->
  exists rows : list ClusterRow,
    ClusteringAnalyzer.perform_clustering
      fit_predict self sm info n_clusters linkage distance_threshold max_cluster_size
    = (ClusteringAnalyzer.mk (Some rows) (Some sm) (Some info), inr rows)
    /\ map cr_StockCode rows = sm_index sm
    /\ map cr_Cluster rows = labels
    /\ (forall r, In r rows -> cr_info r = info_of info (cr_StockCode r)).
Proof.
  intros Hfit Hlen Hnd. unfold ClusteringAnalyzer.perform_clustering.
  rewrite Hfit. eexists. split; [reflexivity |].
  rewrite (merge_left_rows _ info Hnd), !map_map. simpl.
  split; [apply combine_fst; congruence |].
  split; [apply combine_snd; congruence |].
  intros r Hr. apply in_map_iff in Hr as [cl [<- _]]. reflexivity.
Qed.

Lemma perform_clustering_partition_witness :
  (sample_fit_predict
     (ClusteringAnalyzer.chosen_n_clusters (Some 3) None
        (Array2.distance (sm_values scenario_similarity)))
     None "complete"%string (Array2.distance (sm_values scenario_similarity))
   = inr [0; 0; 1; 2]
   /\ length [0; 0; 1; 2] = length (sm_index scenario_similarity)
   /\ List.NoDup (map pi_StockCode sample_product_info))
  /\ exists rows : list ClusterRow,
      ClusteringAnalyzer.perform_clustering
        sample_fit_predict ClusteringAnalyzer.init scenario_similarity
        sample_product_info (Some 3) "complete"%string None None
      = (ClusteringAnalyzer.mk (Some rows) (Some scenario_similarity)
                               (Some sample_product_info), inr rows)
      /\ map cr_StockCode rows = sm_index scenario_similarity
      /\ map cr_Cluster rows = [0; 0; 1; 2]
      /\ (forall r, In r rows ->
            cr_info r = info_of sample_product_info (cr_StockCode r)).
Proof.
  assert (List.NoDup (map pi_StockCode sample_product_info)) as Hnd.
  { simpl. repeat (constructor; [simpl; intuition discriminate |]). constructor. }
  split.
  - split; [reflexivity |]. split; [reflexivity | exact Hnd].
  - apply (perform_clustering_partition
             sample_fit_predict ClusteringAnalyzer.init scenario_similarity
             sample_product_info (Some 3) "complete"%string None None [0; 0; 1; 2]).
    + reflexivity.
    + reflexivity.
    + exact Hnd.
Defined.

(** X13. The practical cluster count is always between 1 and 15, and it
    does not exceed the number of products exactly when there are at
    least 2 products: for 0 or 1 product the heuristic still asks for 2
    clusters. *)
Theorem practical_cluster_count_bounds (n_products : Z) :
  1 <= ClusteringAnalyzer.practical_cluster_count n_products <= 15
  /\ (ClusteringAnalyzer.practical_cluster_count n_products <= n_products
      <-> 2 <= n_products).
Proof.
  unfold ClusteringAnalyzer.practical_cluster_count.
  destruct (n_products <=? 10) eqn:H10; [apply Z.leb_le in H10; lia |].
  apply Z.leb_gt in H10.
  destruct (n_products <=? 50) eqn:H50;
    [| destruct (n_products <=? 200) eqn:H200;
       [| destruct (n_products <=? 1000) eqn:H1000]].
  - pose proof (Z.div_le_lower_bound n_products 10 1).
    pose proof (Z.div_le_upper_bound n_products 10 n_products). lia.
  - apply Z.leb_gt in H50.
    pose proof (Z.div_le_lower_bound n_products 25 1).
    pose proof (Z.div_le_upper_bound n_products 25 n_products). lia.
  - apply Z.leb_gt in H200.
    pose proof (Z.div_le_lower_bound n_products 50 1).
    pose proof (Z.div_le_upper_bound n_products 50 n_products). lia.
  - apply Z.leb_gt in H1000.
    pose proof (Z.div_le_lower_bound n_products 100 1).
    pose proof (Z.div_le_upper_bound n_products 100 n_products). lia.
Qed.

(** ** Cluster statistics *)

Lemma sumZ_perm (l l' : list Z) : Permutation l l' -> Py.sumZ l = Py.sumZ l'.
Proof.
  unfold Py.sumZ. induction 1; simpl; lia.
Qed.

Lemma filter_ne_comm (x y : Z) (l : list Z) :
  List.filter (fun z => negb (z =? x)) (List.filter (fun z => negb (z =? y)) l)
  = List.filter (fun z => negb (z =? y)) (List.filter (fun z => negb (z =? x)) l).
Proof.
  induction l as [|z l IH]; simpl; [reflexivity |].
  destruct (z =? y) eqn:Ey; destruct (z =? x) eqn:Ex; simpl;
    rewrite ?Ey, ?Ex; simpl; congruence.
Qed.

Lemma filter_ne_idem (x : Z) (l : list Z) :
  List.filter (fun z => negb (z =? x)) (List.filter (fun z => negb (z =? x)) l)
  = List.filter (fun z => negb (z =? x)) l.
Proof.
  induction l as [|z l IH]; simpl; [reflexivity |].
  destruct (z =? x) eqn:Ex; simpl; rewrite ?Ex; simpl; congruence.
Qed.

Lemma unique_filter_ne (x : Z) (l : list Z) :
  Py.unique Z.eqb (List.filter (fun z => negb (z =? x)) l)
  = List.filter (fun z => negb (z =? x)) (Py.unique Z.eqb l).
Proof.
  induction l as [|y l IH]; simpl; [reflexivity |].
  destruct (Z.eqb_spec y x) as [-> | Hne]; simpl.
  - rewrite IH. symmetry. apply filter_ne_idem.
  - rewrite IH. destruct (Z.eqb_spec y x); [contradiction |]. simpl.
    f_equal. apply filter_ne_comm.
Qed.

Lemma count_filter_ne (x y : Z) (l : list Z) :
  y <> x -> Pd.count y (List.filter (fun z => negb (z =? x)) l) = Pd.count y l.
Proof.
  intros Hne. unfold Pd.count. f_equal.
  induction l as [|z l IH]; simpl; [reflexivity |].
  destruct (Z.eqb_spec z x) as [-> | Hzx]; simpl.
  - destruct (Z.eqb_spec y x); [contradiction | exact IH].
  - destruct (y =? z); simpl; congruence.
Qed.

Lemma count_split (x : Z) (l : list Z) :
  Pd.count x l + Z.of_nat (length (List.filter (fun z => negb (z =? x)) l))
  = Z.of_nat (length l).
Proof.
  unfold Pd.count. induction l as [|z l IH]; simpl; [reflexivity |].
  rewrite (Z.eqb_sym x z). destruct (z =? x); simpl; lia.
Qed.

(** The sizes of the groups of a column add up to its length. *)
Lemma sum_of_counts (n : nat) (l : list Z) :
  (length l <= n)%nat ->
  Py.sumZ (map (fun y => Pd.count y l) (Py.unique Z.eqb l)) = Z.of_nat (length l).
Proof.
  revert l. induction n as [|n IH]; intros [|x l] Hlen; simpl in Hlen;
    try reflexivity; try lia.
  cbn [Py.unique map].
  change (Py.sumZ (?a :: ?b)) with (a + Py.sumZ b).
  rewrite <- unique_filter_ne.
  rewrite (map_ext_in _ (fun y => Pd.count y (List.filter (fun z => negb (z =? x)) l))).
  - rewrite IH.
    + unfold Pd.count at 1. simpl. rewrite Z.eqb_refl. simpl.
      pose proof (count_split x l) as Hsplit. unfold Pd.count in Hsplit. lia.
    + pose proof (List.filter_length_le (fun z => negb (z =? x)) l). lia.
  - intros y Hy.
    apply (proj1 (unique_In Z.eqb Z.eqb_eq _ _)) in Hy.
    apply filter_In in Hy as [_ Hne].
    assert (y <> x) as Hyx.
    { intros Heq. rewrite Heq, Z.eqb_refl in Hne. discriminate Hne. }
    rewrite (count_filter_ne x y l Hyx).
    unfold Pd.count. simpl. destruct (Z.eqb_spec y x); [contradiction | reflexivity].
Qed.

Lemma StronglySorted_map {A B : Type} (R : B -> B -> Prop) (f : A -> B) (l : list A) :
  StronglySorted (fun a b => R (f a) (f b)) l -> StronglySorted R (map f l).
Proof.
  induction 1 as [|x l Hs IH Hx]; simpl; constructor; [exact IH |].
  rewrite List.Forall_forall in *. intros y Hy.
  apply in_map_iff in Hy as [z [<- Hz]]. apply Hx, Hz.
Qed.

(** X14. Once clustering has run, [get_cluster_statistics] returns;
    [total_products] is the number of rows of the cluster table,
    [total_clusters] the number of distinct labels; the size distribution
    lists the clusters from the largest to the smallest, every size is at
    least 1, and the sizes add up to [total_products]. *)
Theorem get_cluster_statistics_counts `{NumPy}
        (self : ClusteringAnalyzer.t) (rows : list ClusterRow) :
  ClusteringAnalyzer.clusters self = Some rows ->
  exists stats : ClusterStatistics,
    ClusterQueries.get_cluster_statistics self = inr stats
    /\ cs_total_products stats = Z.of_nat (length rows)
    /\ total_clusters stats
       = Z.of_nat (length (Py.unique Z.eqb (map cr_Cluster rows)))
    /\ Py.sumZ (cluster_size_distribution stats) = cs_total_products stats
    /\ StronglySorted (fun a b => b <= a) (cluster_size_distribution stats)
    /\ (forall size, In size (cluster_size_distribution stats) -> 1 <= size).
Proof.
  intros Hrows. unfold ClusterQueries.get_cluster_statistics,
    ClusterQueries.get_clusters. rewrite Hrows. simpl.
  eexists. split; [reflexivity |]. simpl.
  set (labels := map cr_Cluster rows).
  assert (Permutation (map snd (Pd.value_counts labels))
                      (map (fun y => Pd.count y labels) (Py.unique Z.eqb labels)))
    as Hperm.
  { unfold Pd.value_counts.
    eapply perm_trans; [apply Permutation_map, sort_by_perm |].
    rewrite map_map. simpl. apply Permutation_refl. }
  split; [reflexivity |]. split.
  { rewrite (Permutation_length Hperm), length_map. reflexivity. }
  split.
  { rewrite (sumZ_perm _ _ Hperm), (sum_of_counts (length labels)) by lia.
    unfold labels. rewrite length_map. reflexivity. }
  split.
  { apply StronglySorted_map. unfold Pd.value_counts.
    apply (StronglySorted_impl (fun a b => (snd b <=? snd a) = true)).
    - intros a b Hab. apply Z.leb_le, Hab.
    - apply sort_by_sorted.
      + intros a b Hab. apply Z.leb_gt in Hab. apply Z.leb_le. lia.
      + intros a b c Hab Hbc. apply Z.leb_le in Hab. apply Z.leb_le in Hbc.
        apply Z.leb_le. lia. }
  intros size Hsize. apply (Permutation_in _ Hperm) in Hsize.
  apply in_map_iff in Hsize as [y [<- Hy]].
  apply (proj1 (unique_In Z.eqb Z.eqb_eq _ _)) in Hy.
  unfold Pd.count.
  assert (In y (List.filter (Z.eqb y) labels)) as Hin
      by (apply filter_In; split; [exact Hy | apply Z.eqb_refl]).
  destruct (List.filter (Z.eqb y) labels); [contradiction | simpl; lia].
Qed.

Lemma get_cluster_statistics_counts_witness :
  ClusteringAnalyzer.clusters sample_clusters = Some sample_rows
  /\ exists stats : ClusterStatistics,
      ClusterQueries.get_cluster_statistics (H := TruncatedNumPy) sample_clusters
      = inr stats
      /\ cs_total_products stats = Z.of_nat (length sample_rows)
      /\ total_clusters stats
         = Z.of_nat (length (Py.unique Z.eqb (map cr_Cluster sample_rows)))
      /\ Py.sumZ (cluster_size_distribution stats) = cs_total_products stats
      /\ StronglySorted (fun a b => b <= a) (cluster_size_distribution stats)
      /\ (forall size, In size (cluster_size_distribution stats) -> 1 <= size).
Proof.
  split.
  - reflexivity.
  - apply (get_cluster_statistics_counts (H := TruncatedNumPy) sample_clusters sample_rows).
    reflexivity.
Defined.

(** ** Coherence *)

Lemma loc_range (sm : SimilarityMatrix) (p q : string) :
  (forall i j s, Array2.get (sm_values sm) i j = Some s -> unit_range s) ->
  unit_range (default (0 # 1)%Q (loc sm p q)).
Proof.
  intros Hrange. unfold loc.
  destruct (index_of p (sm_index sm)) as [i|]; simpl; [| apply unit_range_zero].
  destruct (index_of q (sm_index sm)) as [j|]; simpl; [| apply unit_range_zero].
  destruct (Array2.get (sm_values sm) i j) as [s|] eqn:Hs; simpl;
    [apply (Hrange i j s Hs) | apply unit_range_zero].
Qed.

Lemma pairwise_coherence_range (sm : SimilarityMatrix) (stock_codes : list string) :
  (forall i j s, Array2.get (sm_values sm) i j = Some s -> unit_range s) ->
  unit_range (ClusterQueries.pairwise_coherence sm stock_codes).
Proof.
  intros Hrange. unfold ClusterQueries.pairwise_coherence.
  match goal with
  | |- unit_range (match ?l with [] => _ | _ :: _ => _ end) =>
      assert (forall s, In s l -> (0 <= s /\ s <= 1)%Q) as Hall;
      [| destruct l as [|s0 l0]; [apply unit_range_zero |];
         apply (mean_bounds 0 1 (s0 :: l0)); [discriminate | exact Hall]]
  end.
  intros s Hs.
  apply in_flat_map in Hs as [ip1 [_ Hs]].
  apply in_flat_map in Hs as [jp2 [_ Hs]].
  destruct ((fst ip1 <? fst jp2)%nat && _ && _); [| contradiction].
  destruct Hs as [<- | []]. apply loc_range, Hrange.
Qed.

Lemma generator_coherence (self : RecommendationGenerator.t) (sm : SimilarityMatrix)
      (stock_codes : list string) :
  SimilarityCalculator.similarity_matrix
    (RecommendationGenerator.similarity_calculator self) = Some sm ->
  RecommendationGenerator._calculate_cluster_coherence self stock_codes
  = inr (if (length stock_codes <? 2)%nat then (0 # 1)%Q
         else ClusterQueries.pairwise_coherence sm stock_codes).
Proof.
  intros Hsm. unfold RecommendationGenerator._calculate_cluster_coherence.
  rewrite Hsm. destruct (length stock_codes <? 2)%nat; reflexivity.
Qed.

(** X15. Once clustering has run on a similarity matrix with entries
    between 0 and 1, [calculate_cluster_coherence] returns a score between
    0 and 1 for every cluster id, and exactly 0 for an id with fewer than
    2 members (an unknown id included). *)
Theorem calculate_cluster_coherence_range
        (self : ClusteringAnalyzer.t) (rows : list ClusterRow)
        (sm : SimilarityMatrix) (id : Z) :
  ClusteringAnalyzer.clusters self = Some rows ->
  ClusteringAnalyzer.similarity_matrix self = Some sm ->
  (forall i j s, Array2.get (sm_values sm) i j = Some s -> unit_range s) ->
  exists c : Q,
    ClusterQueries.calculate_cluster_coherence self id = inr c
    /\ unit_range c
    /\ (member_count rows id < 2 -> c = (0 # 1)%Q).
Proof.
  intros Hrows Hsm Hrange. unfold ClusterQueries.calculate_cluster_coherence,
    ClusteringAnalyzer.get_cluster_products.
  rewrite Hrows, Hsm. simpl. rewrite length_map.
  unfold member_count.
  destruct (length (List.filter (fun r => (cr_Cluster r =? id)%Z) rows) <? 2)%nat eqn:Hlen;
    eexists; (split; [reflexivity |]).
  - split; [apply unit_range_zero | reflexivity].
  - split; [apply pairwise_coherence_range, Hrange |].
    apply Nat.ltb_ge in Hlen. lia.
Qed.

Lemma calculate_cluster_coherence_range_witness :
  (ClusteringAnalyzer.clusters sample_clusters = Some sample_rows
   /\ ClusteringAnalyzer.similarity_matrix sample_clusters = Some scenario_similarity
   /\ (forall i j s, Array2.get (sm_values scenario_similarity) i j = Some s ->
                     unit_range s))
  /\ exists c : Q,
      ClusterQueries.calculate_cluster_coherence sample_clusters 0 = inr c
      /\ unit_range c
      /\ (member_count sample_rows 0 < 2 -> c = (0 # 1)%Q).
Proof.
  split.
  - split; [reflexivity |]. split; [reflexivity | exact scenario_similarity_range].
  - apply (calculate_cluster_coherence_range sample_clusters sample_rows
                                              scenario_similarity 0).
    + reflexivity.
    + reflexivity.
    + exact scenario_similarity_range.
Defined.

Section GeneratedRecommendations.
Context `{NumPy}.
Variable _generate_explanation : list ClusterRow -> string.

Lemma generated_In (self : RecommendationGenerator.t) (rows : list ClusterRow)
      (top_n min_cluster_size max_cluster_size : Z)
      (recs : list Recommendation) (r : Recommendation) :
  ClusteringAnalyzer.clusters (RecommendationGenerator.clustering_analyzer self)
  = Some rows ->
  RecommendationGenerator.generate_recommendations _generate_explanation self
    top_n min_cluster_size max_cluster_size = inr recs ->
  In r recs ->
  RecommendationGenerator.recommend_cluster _generate_explanation self (cluster_id r)
    (List.filter (fun row => cr_Cluster row =? cluster_id r) rows) = inr r.
Proof.
  intros Hrows. unfold RecommendationGenerator.generate_recommendations.
  rewrite Hrows.
  destruct (RecommendationGenerator.collect _ self _ _ _) as [e | built] eqn:Hbuilt;
    simpl; [discriminate |].
  intros Hrecs Hr. injection Hrecs as <-.
  apply slice_to_incl in Hr.
  apply (Permutation_in _ (sort_by_perm _ _)) in Hr.
  exact (collect_In _generate_explanation self rows _ _ _ built r Hrows Hbuilt Hr).
Qed.

Lemma recommend_cluster_coherence (self : RecommendationGenerator.t) (id : Z)
      (cluster_products : list ClusterRow) (r : Recommendation) :
  RecommendationGenerator.recommend_cluster _generate_explanation self id cluster_products
  = inr r ->
  RecommendationGenerator._calculate_cluster_coherence
    self (map cr_StockCode cluster_products) = inr (coherence_score r).
Proof.
  unfold RecommendationGenerator.recommend_cluster.
  destruct (RecommendationGenerator._calculate_cluster_coherence self _) as [e | c];
    simpl; [discriminate |].
  intros Hr. injection Hr as <-.
  destruct (match RecommendationGenerator.product_info self with
            | Some info => _ | None => [] end); reflexivity.
Qed.

End GeneratedRecommendations.

(** X16. When the clustering analyzer and the similarity calculator hold
    the same similarity matrix, the [coherence_score] of every returned
    recommendation is the value [calculate_cluster_coherence] reports for
    that recommendation's cluster. *)
Theorem recommendation_coherence_agrees `{NumPy}
        (_generate_explanation : list ClusterRow -> string)
        (self : RecommendationGenerator.t) (rows : list ClusterRow)
        (sm : SimilarityMatrix) (top_n min_cluster_size max_cluster_size : Z)
        (recs : list Recommendation) (r : Recommendation) :
  ClusteringAnalyzer.clusters (RecommendationGenerator.clustering_analyzer self)
  = Some rows ->
  ClusteringAnalyzer.similarity_matrix (RecommendationGenerator.clustering_analyzer self)
  = Some sm ->
  SimilarityCalculator.similarity_matrix (RecommendationGenerator.similarity_calculator self)
  = Some sm ->
  RecommendationGenerator.generate_recommendations _generate_explanation self
    top_n min_cluster_size max_cluster_size = inr recs ->
  In r recs ->
  ClusterQueries.calculate_cluster_coherence
    (RecommendationGenerator.clustering_analyzer self) (cluster_id r)
  = inr (coherence_score r).
Proof.
  intros Hrows Hsm1 Hsm2 Hrecs Hr.
  pose proof (generated_In _ self rows _ _ _ recs r Hrows Hrecs Hr) as Hbuilt.
  apply recommend_cluster_coherence in Hbuilt.
  rewrite (generator_coherence self sm _ Hsm2) in Hbuilt.
  unfold ClusterQueries.calculate_cluster_coherence,
    ClusteringAnalyzer.get_cluster_products.
  rewrite Hrows, Hsm1. simpl.
  destruct (length _ <? 2)%nat; exact Hbuilt.
Qed.

Lemma recommendation_coherence_agrees_witness :
  exists (recs : list Recommendation) (r : Recommendation),
    (ClusteringAnalyzer.clusters (RecommendationGenerator.clustering_analyzer sample_generator)
     = Some sample_rows
     /\ ClusteringAnalyzer.similarity_matrix
          (RecommendationGenerator.clustering_analyzer sample_generator)
        = Some scenario_similarity
     /\ SimilarityCalculator.similarity_matrix
          (RecommendationGenerator.similarity_calculator sample_generator)
        = Some scenario_similarity
     /\ RecommendationGenerator.generate_recommendations
          (H := TruncatedNumPy) sample_explanation sample_generator 10 2 100 = inr recs
     /\ In r recs)
    /\ ClusterQueries.calculate_cluster_coherence
         (RecommendationGenerator.clustering_analyzer sample_generator) (cluster_id r)
       = inr (coherence_score r).
Proof.
  eexists. eexists. split.
  - split; [reflexivity |]. split; [reflexivity |]. split; [reflexivity |].
    split; [vm_compute; reflexivity | left; reflexivity].
  - eapply (recommendation_coherence_agrees
              (H := TruncatedNumPy) sample_explanation sample_generator
              sample_rows scenario_similarity 10 2 100).
    + reflexivity.
    + reflexivity.
    + reflexivity.
    + vm_compute. reflexivity.
    + left. reflexivity.
Defined.

(** ** Recommendations and the product table *)

Section RecommendationContents.
Context `{NumPy}.
Variable _generate_explanation : list ClusterRow -> string.

Lemma recommend_cluster_without_table (self : RecommendationGenerator.t) (id : Z)
      (cluster_products : list ClusterRow) (r : Recommendation) :
  RecommendationGenerator.product_info self = None ->
  RecommendationGenerator.recommend_cluster _generate_explanation self id cluster_products
  = inr r ->
  recommendation_strength r = coherence_score r
  /\ total_quantity_sold r = 0
  /\ avg_unit_price r = (0 # 1)%Q
  /\ products r = map (fun row => mkProductEntry (cr_StockCode row) "N/A" 0)
                      cluster_products.
Proof.
  intros Hinfo. unfold RecommendationGenerator.recommend_cluster. rewrite Hinfo.
  destruct (RecommendationGenerator._calculate_cluster_coherence self _) as [e | c];
    simpl; [discriminate |].
  intros Hr. injection Hr as <-. simpl.
  rewrite product_entries_without_table, map_map. repeat split.
Qed.

Lemma generated_descending (self : RecommendationGenerator.t)
      (top_n min_cluster_size max_cluster_size : Z) (recs : list Recommendation) :
  RecommendationGenerator.generate_recommendations _generate_explanation self
    top_n min_cluster_size max_cluster_size = inr recs ->
  descending recommendation_strength recs.
Proof.
  unfold RecommendationGenerator.generate_recommendations.
  destruct (ClusteringAnalyzer.clusters _); [| discriminate].
  destruct (RecommendationGenerator.collect _ self _ _ _) as [e | built];
    simpl; [discriminate |].
  intros Hrecs. injection Hrecs as <-.
  apply slice_to_sorted, sort_by_descending.
Qed.

End RecommendationContents.

Lemma descending_ext {A : Type} (f g : A -> Q) (l : list A) :
  (forall x, In x l -> f x = g x) -> descending f l -> descending g l.
Proof.
  intros Hext Hs. induction Hs as [|x l Hs IH Hx]; constructor.
  - apply IH. intros y Hy. apply Hext. right. exact Hy.
  - rewrite List.Forall_forall in *. intros y Hy.
    rewrite <- (Hext x), <- (Hext y); [apply Hx, Hy | right; exact Hy | left; reflexivity].
Qed.

(** X17. A generator that was never given a product table ranks by
    coherence alone: every returned recommendation has
    [recommendation_strength] equal to its [coherence_score], total
    quantity 0 and average price 0, lists every member of its cluster with
    the description "N/A" and quantity 0, and the returned list is in
    descending order of coherence. *)
Theorem generate_recommendations_without_product_table `{NumPy}
        (_generate_explanation : list ClusterRow -> string)
        (self : RecommendationGenerator.t) (rows : list ClusterRow)
        (top_n min_cluster_size max_cluster_size : Z)
        (recs : list Recommendation) :
  RecommendationGenerator.product_info self = None ->
  ClusteringAnalyzer.clusters (RecommendationGenerator.clustering_analyzer self)
  = Some rows ->
  RecommendationGenerator.generate_recommendations _generate_explanation self
    top_n min_cluster_size max_cluster_size = inr recs ->
  descending coherence_score recs
  /\ forall r, In r recs ->
       recommendation_strength r = coherence_score r
       /\ total_quantity_sold r = 0
       /\ avg_unit_price r = (0 # 1)%Q
       /\ products r
          = map (fun row => mkProductEntry (cr_StockCode row) "N/A" 0)
                (List.filter (fun row => cr_Cluster row =? cluster_id r) rows).
Proof.
  intros Hinfo Hrows Hrecs.
  assert (forall r, In r recs ->
            recommendation_strength r = coherence_score r
            /\ total_quantity_sold r = 0
            /\ avg_unit_price r = (0 # 1)%Q
            /\ products r
               = map (fun row => mkProductEntry (cr_StockCode row) "N/A" 0)
                     (List.filter (fun row => cr_Cluster row =? cluster_id r) rows))
    as Hall.
  { intros r Hr.
    apply (recommend_cluster_without_table _generate_explanation self (cluster_id r));
      [exact Hinfo |].
    exact (generated_In _ self rows _ _ _ recs r Hrows Hrecs Hr). }
  split; [| exact Hall].
  apply (descending_ext recommendation_strength).
  - intros r Hr. apply (Hall r Hr).
  - exact (generated_descending _ self _ _ _ recs Hrecs).
Qed.

Lemma generate_recommendations_without_product_table_witness :
  exists recs : list Recommendation,
    (RecommendationGenerator.product_info generator_without_table = None
     /\ ClusteringAnalyzer.clusters
          (RecommendationGenerator.clustering_analyzer generator_without_table)
        = Some sample_rows
     /\ RecommendationGenerator.generate_recommendations
          (H := TruncatedNumPy) sample_explanation generator_without_table 10 2 100
        = inr recs)
    /\ descending coherence_score recs
    /\ forall r, In r recs ->
         recommendation_strength r = coherence_score r
         /\ total_quantity_sold r = 0
         /\ avg_unit_price r = (0 # 1)%Q
         /\ products r
            = map (fun row => mkProductEntry (cr_StockCode row) "N/A" 0)
                  (List.filter (fun row => cr_Cluster row =? cluster_id r) sample_rows).
Proof.
  eexists. split.
  - split; [reflexivity |]. split; [reflexivity | vm_compute; reflexivity].
  - eapply (generate_recommendations_without_product_table
              (H := TruncatedNumPy) sample_explanation generator_without_table
              sample_rows 10 2 100).
    + reflexivity.
    + reflexivity.
    + vm_compute. reflexivity.
Defined.

(** The quantities shown for the members add up to the quantities of the
    rows of the table that belong to the cluster. *)
Lemma sumZ_app (l l' : list Z) : Py.sumZ (l ++ l') = Py.sumZ l + Py.sumZ l'.
Proof.
  unfold Py.sumZ. induction l as [|x l IH]; simpl; lia.
Qed.

Lemma entry_quantity (info : list ProductInfo) (code : string) :
  Py.sumZ (map pe_Quantity
               (RecommendationGenerator.product_entries (Some info) [code]))
  = shown_quantity info code.
Proof.
  unfold RecommendationGenerator.product_entries, shown_quantity, info_of.
  cbn [flat_map]. rewrite app_nil_r.
  induction info as [|p info IH]; simpl; [reflexivity |].
  destruct (String.eqb (pi_StockCode p) code); simpl; [lia | exact IH].
Qed.

Lemma entries_quantity (info : list ProductInfo) (codes : list string) :
  Py.sumZ (map pe_Quantity
               (RecommendationGenerator.product_entries (Some info) codes))
  = Py.sumZ (map (shown_quantity info) codes).
Proof.
  induction codes as [|c codes IH]; [reflexivity |].
  assert (RecommendationGenerator.product_entries (Some info) (c :: codes)
          = RecommendationGenerator.product_entries (Some info) [c]
            ++ RecommendationGenerator.product_entries (Some info) codes) as ->.
  { unfold RecommendationGenerator.product_entries. cbn [flat_map].
    rewrite app_nil_r. reflexivity. }
  rewrite map_app, sumZ_app, IH, entry_quantity. reflexivity.
Qed.

Lemma shown_quantity_unknown (info : list ProductInfo) (code : string) :
  ~ In code (map pi_StockCode info) -> shown_quantity info code = 0.
Proof.
  unfold shown_quantity, info_of.
  induction info as [|p info IH]; simpl; intros Hnot; [reflexivity |].
  destruct (String.eqb_spec (pi_StockCode p) code) as [Heq | _].
  - exfalso. apply Hnot. left. exact Heq.
  - apply IH. intros Hin. apply Hnot. right. exact Hin.
Qed.

Lemma shown_quantity_cons (p : ProductInfo) (info : list ProductInfo)
      (codes : list string) :
  ~ In (pi_StockCode p) (map pi_StockCode info) ->
  List.NoDup codes ->
  Py.sumZ (map (shown_quantity (p :: info)) codes)
  = (if Py.mem (pi_StockCode p) codes then pi_TotalQuantity p else 0)
    + Py.sumZ (map (shown_quantity info) codes).
Proof.
  intros Hp. induction codes as [|c codes IH]; intros Hnd; [reflexivity |].
  apply List.NoDup_cons_iff in Hnd as [Hc Hnd]. specialize (IH Hnd).
  cbn [map]. change (Py.sumZ (?a :: ?b)) with (a + Py.sumZ b). rewrite IH.
  unfold Py.mem. cbn [existsb]. fold (Py.mem (pi_StockCode p) codes).
  unfold shown_quantity at 1 3, info_of. cbn [List.find].
  destruct (String.eqb_spec (pi_StockCode p) c) as [Heq | Hne].
  - subst c.
    assert (Py.mem (pi_StockCode p) codes = false) as Hmem.
    { destruct (Py.mem (pi_StockCode p) codes) eqn:Hm; [| reflexivity].
      apply mem_In in Hm. contradiction. }
    rewrite Hmem. cbn [orb].
    pose proof (shown_quantity_unknown info (pi_StockCode p) Hp) as Hzero.
    unfold shown_quantity, info_of in Hzero. rewrite Hzero. lia.
  - destruct (String.eqb (pi_StockCode p) c) eqn:E.
    + apply String.eqb_eq in E. contradiction.
    + cbn [orb]. lia.
Qed.

Lemma table_quantity (info : list ProductInfo) (codes : list string) :
  List.NoDup (map pi_StockCode info) ->
  List.NoDup codes ->
  Py.sumZ (map pi_TotalQuantity
               (List.filter (fun p => Py.mem (pi_StockCode p) codes) info))
  = Py.sumZ (map (shown_quantity info) codes).
Proof.
  intros Hinfo Hcodes. induction info as [|p info IH].
  - simpl. induction codes as [|c codes IHc]; [reflexivity |].
    apply List.NoDup_cons_iff in Hcodes as [_ Hcodes]. simpl. apply (IHc Hcodes).
  - simpl in Hinfo. apply List.NoDup_cons_iff in Hinfo as [Hp Hinfo].
    rewrite (shown_quantity_cons p info codes Hp Hcodes), <- (IH Hinfo).
    cbn [List.filter]. destruct (Py.mem (pi_StockCode p) codes); simpl; lia.
Qed.

Lemma NoDup_map_filter {A B : Type} (f : A -> B) (g : A -> bool) (l : list A) :
  List.NoDup (map f l) -> List.NoDup (map f (List.filter g l)).
Proof.
  induction l as [|x l IH]; simpl; intros Hnd; [constructor |].
  apply List.NoDup_cons_iff in Hnd as [Hx Hnd].
  destruct (g x); simpl; [| apply IH, Hnd].
  constructor; [| apply IH, Hnd].
  intros Hin. apply Hx. apply in_map_iff in Hin as [y [Hy Hin]].
  apply filter_In in Hin as [Hin _]. apply in_map_iff. exists y. split; assumption.
Qed.

Section RecommendationTotals.
Context `{NumPy}.
Variable _generate_explanation : list ClusterRow -> string.

Lemma recommend_cluster_total (self : RecommendationGenerator.t)
      (info : list ProductInfo) (id : Z)
      (cluster_products : list ClusterRow) (r : Recommendation) :
  RecommendationGenerator.product_info self = Some info ->
  List.NoDup (map pi_StockCode info) ->
  List.NoDup (map cr_StockCode cluster_products) ->
  RecommendationGenerator.recommend_cluster _generate_explanation self id cluster_products
  = inr r ->
  total_quantity_sold r = Np.int64 (Py.sumZ (map pe_Quantity (products r))).
Proof.
  intros Hinfo Hnd Hcodes. unfold RecommendationGenerator.recommend_cluster.
  rewrite Hinfo.
  destruct (RecommendationGenerator._calculate_cluster_coherence self _) as [e | c];
    cbn [bind_exn]; [discriminate |].
  intros Hr.
  pose proof (table_quantity info (map cr_StockCode cluster_products) Hnd Hcodes)
    as Htable.
  rewrite <- entries_quantity in Htable.
  destruct (List.filter _ info) as [|p ps]; injection Hr as <-;
    cbn [total_quantity_sold products]; rewrite <- Htable; reflexivity.
Qed.

End RecommendationTotals.

(** X18. With a product table and a cluster table that each list a stock
    code at most once, the [total_quantity_sold] of every returned
    recommendation is the [int64] sum of the quantities shown in its
    [products] list: their sum when that sum is an [int64] value, and the
    sum wrapped around otherwise. *)
Theorem generate_recommendations_total_quantity `{NumPy}
        (_generate_explanation : list ClusterRow -> string)
        (self : RecommendationGenerator.t) (rows : list ClusterRow)
        (info : list ProductInfo)
        (top_n min_cluster_size max_cluster_size : Z)
        (recs : list Recommendation) (r : Recommendation) :
  RecommendationGenerator.product_info self = Some info ->
  ClusteringAnalyzer.clusters (RecommendationGenerator.clustering_analyzer self)
  = Some rows ->
  List.NoDup (map pi_StockCode info) ->
  List.NoDup (map cr_StockCode rows) ->
  RecommendationGenerator.generate_recommendations _generate_explanation self
    top_n min_cluster_size max_cluster_size = inr recs ->
  In r recs ->
  total_quantity_sold r = Np.int64 (Py.sumZ (map pe_Quantity (products r)))
  /\ (- 2 ^ 63 <= Py.sumZ (map pe_Quantity (products r)) < 2 ^ 63 ->
      total_quantity_sold r = Py.sumZ (map pe_Quantity (products r))).
Proof.
  intros Hinfo Hrows Hnd Hcodes Hrecs Hr.
  assert (total_quantity_sold r
          = Np.int64 (Py.sumZ (map pe_Quantity (products r)))) as Htotal.
  { apply (recommend_cluster_total _generate_explanation self info (cluster_id r)
             (List.filter (fun row => cr_Cluster row =? cluster_id r) rows)).
    - exact Hinfo.
    - exact Hnd.
    - apply NoDup_map_filter, Hcodes.
    - exact (generated_In _ self rows _ _ _ recs r Hrows Hrecs Hr). }
  split; [exact Htotal |].
  intros Hsum. rewrite Htotal. apply int64_in_range, Hsum.
Qed.

Lemma generate_recommendations_total_quantity_witness :
  exists (recs : list Recommendation) (r : Recommendation),
    (RecommendationGenerator.product_info sample_generator = Some sample_product_info
     /\ ClusteringAnalyzer.clusters
          (RecommendationGenerator.clustering_analyzer sample_generator)
        = Some sample_rows
     /\ List.NoDup (map pi_StockCode sample_product_info)
     /\ List.NoDup (map cr_StockCode sample_rows)
     /\ RecommendationGenerator.generate_recommendations
          (H := TruncatedNumPy) sample_explanation sample_generator 10 1 100 = inr recs
     /\ In r recs)
    /\ total_quantity_sold r = Py.sumZ (map pe_Quantity (products r)).
Proof.
  assert (List.NoDup (map pi_StockCode sample_product_info)) as Hnd.
  { simpl. repeat constructor; simpl; intuition discriminate. }
  assert (List.NoDup (map cr_StockCode sample_rows)) as Hcodes.
  { vm_compute. repeat constructor; simpl; intuition discriminate. }
  eexists. eexists. split.
  - split; [reflexivity |]. split; [reflexivity |]. split; [exact Hnd |].
    split; [exact Hcodes |].
    split; [vm_compute; reflexivity | left; reflexivity].
  - eapply (generate_recommendations_total_quantity
              (H := TruncatedNumPy) sample_explanation sample_generator
              sample_rows sample_product_info 10 1 100).
    + reflexivity.
    + reflexivity.
    + exact Hnd.
    + exact Hcodes.
    + vm_compute. reflexivity.
    + left. reflexivity.
    + vm_compute. split; [discriminate | reflexivity].
Defined.

(** ** Summaries and filters of a recommendation list *)

(** The extremes of the scores of a non-empty list. *)
Lemma score_summary {A : Type} (score : A -> Q) (first : A) (others : list A) :
  let lo := RecommendationQueries.least (score first) (map score others) in
  let hi := RecommendationQueries.greatest (score first) (map score others) in
  In lo (map score (first :: others))
  /\ In hi (map score (first :: others))
  /\ forall x, In x (first :: others) -> (lo <= score x /\ score x <= hi)%Q.
Proof.
  intros lo hi.
  split; [apply fold_qmin_In |]. split; [apply fold_qmax_In |].
  intros x Hx. apply (in_map score) in Hx.
  split; [apply fold_qmin_le | apply fold_qmax_ge]; exact Hx.
Qed.

(** X19. For a non-empty list [get_recommendation_summary] returns a
    summary whose minimum and maximum coherence (and strength) are scores
    of recommendations of the list and bound every recommendation's
    score; [total_recommendations] is the length of the list and
    [total_products_recommended] the number of product entries of all its
    recommendations together.  The empty list gives the empty summary. *)
Theorem get_recommendation_summary_bounds (recommendations : list Recommendation) :
  RecommendationQueries.get_recommendation_summary [] = None
  /\ (recommendations <> [] ->
      exists summary : RecommendationSummary,
        RecommendationQueries.get_recommendation_summary recommendations
        = Some summary
        /\ total_recommendations summary = Z.of_nat (length recommendations)
        /\ total_products_recommended summary
           = Z.of_nat (length (concat (map products recommendations)))
        /\ In (min_coherence_score summary) (map coherence_score recommendations)
        /\ In (max_coherence_score summary) (map coherence_score recommendations)
        /\ In (min_strength_score summary)
              (map recommendation_strength recommendations)
        /\ In (max_strength_score summary)
              (map recommendation_strength recommendations)
        /\ forall r, In r recommendations ->
             (min_coherence_score summary <= coherence_score r
              /\ coherence_score r <= max_coherence_score summary
              /\ min_strength_score summary <= recommendation_strength r
              /\ recommendation_strength r <= max_strength_score summary)%Q).
Proof.
  split; [reflexivity |].
  destruct recommendations as [|first others]; [congruence |]. intros _.
  eexists. split; [reflexivity |]. cbn [total_recommendations
    total_products_recommended
    min_coherence_score max_coherence_score
    min_strength_score max_strength_score].
  destruct (score_summary coherence_score first others)
    as [Hcmin [Hcmax Hcall]].
  destruct (score_summary recommendation_strength first others)
    as [Hsmin [Hsmax Hsall]].
  split; [reflexivity |].
  split.
  { generalize (first :: others). intros l. unfold Py.sumZ.
    induction l as [|r l IH]; [reflexivity |].
    cbn [map concat fold_right]. rewrite IH, length_app. lia. }
  split; [exact Hcmin |]. split; [exact Hcmax |].
  split; [exact Hsmin |]. split; [exact Hsmax |].
  intros r Hr. destruct (Hcall r Hr) as [? ?]. destruct (Hsall r Hr) as [? ?].
  repeat split; assumption.
Qed.

Lemma get_recommendation_summary_bounds_witness :
  sample_recommendations <> []
  /\ exists summary : RecommendationSummary,
      RecommendationQueries.get_recommendation_summary sample_recommendations
      = Some summary
      /\ total_recommendations summary = Z.of_nat (length sample_recommendations)
      /\ total_products_recommended summary
         = Z.of_nat (length (concat (map products sample_recommendations)))
      /\ In (min_coherence_score summary) (map coherence_score sample_recommendations)
      /\ In (max_coherence_score summary) (map coherence_score sample_recommendations)
      /\ In (min_strength_score summary)
            (map recommendation_strength sample_recommendations)
      /\ In (max_strength_score summary)
            (map recommendation_strength sample_recommendations)
      /\ forall r, In r sample_recommendations ->
           (min_coherence_score summary <= coherence_score r
            /\ coherence_score r <= max_coherence_score summary
            /\ min_strength_score summary <= recommendation_strength r
            /\ recommendation_strength r <= max_strength_score summary)%Q.
Proof.
  split.
  - discriminate.
  - apply (proj2 (get_recommendation_summary_bounds sample_recommendations)).
    discriminate.
Defined.

Lemma filter_descending_prefix {A : Type} (score : A -> Q) (threshold : Q)
      (l : list A) :
  descending score l ->
  List.filter (fun x => Qle_bool threshold (score x)) l
  = firstn (length (List.filter (fun x => Qle_bool threshold (score x)) l)) l.
Proof.
  induction 1 as [|x l Hs IH Hx]; [reflexivity |].
  cbn [List.filter]. destruct (Qle_bool threshold (score x)) eqn:Ex.
  - cbn [length firstn]. f_equal. exact IH.
  - rewrite filter_none; [reflexivity |].
    intros y Hy. rewrite List.Forall_forall in Hx. specialize (Hx y Hy).
    destruct (Qle_bool threshold (score y)) eqn:Ey; [| reflexivity].
    apply Qle_bool_iff in Ey.
    assert (Qle_bool threshold (score x) = true) as Hc
        by (apply Qle_bool_iff; eapply Qle_trans; eassumption).
    congruence.
Qed.

(** X20. [filter_recommendations_by_strength] keeps exactly the
    recommendations whose strength reaches the threshold; on a list in
    descending order of strength, as [generate_recommendations] returns
    it, the kept recommendations are a leading segment of the list. *)
Theorem filter_recommendations_by_strength_prefix
        (recommendations : list Recommendation) (min_strength : Q) :
  (forall r,
      In r (RecommendationQueries.filter_recommendations_by_strength
              recommendations min_strength)
      <-> In r recommendations /\ (min_strength <= recommendation_strength r)%Q)
  /\ (descending recommendation_strength recommendations ->
      RecommendationQueries.filter_recommendations_by_strength
        recommendations min_strength
      = firstn (length (RecommendationQueries.filter_recommendations_by_strength
                          recommendations min_strength))
               recommendations).
Proof.
  unfold RecommendationQueries.filter_recommendations_by_strength. split.
  - intros r. rewrite filter_In, Qle_bool_iff. reflexivity.
  - apply filter_descending_prefix.
Qed.

Lemma filter_recommendations_by_strength_prefix_witness :
  descending recommendation_strength sample_recommendations
  /\ RecommendationQueries.filter_recommendations_by_strength
       sample_recommendations (2 # 1)
     = firstn (length (RecommendationQueries.filter_recommendations_by_strength
                         sample_recommendations (2 # 1)))
              sample_recommendations.
Proof.
  assert (descending recommendation_strength sample_recommendations) as Hd.
  { unfold descending, sample_recommendations.
    repeat constructor. simpl. unfold Qle. simpl. lia. }
  split.
  - exact Hd.
  - apply (proj2 (filter_recommendations_by_strength_prefix
                    sample_recommendations (2 # 1))).
    exact Hd.
Defined.

Lemma filter_filter_comm {A : Type} (f g : A -> bool) (l : list A) :
  List.filter f (List.filter g l) = List.filter g (List.filter f l).
Proof.
  induction l as [|x l IH]; simpl; [reflexivity |].
  destruct (f x) eqn:Ef; destruct (g x) eqn:Eg; simpl; rewrite ?Ef, ?Eg, IH;
    reflexivity.
Qed.

(** X21. [filter_recommendations_by_coherence] keeps exactly the
    recommendations whose coherence reaches the threshold, keeps a list
    that is in descending order of strength in that order, and can be
    applied before or after [filter_recommendations_by_strength] with the
    same result. *)
Theorem filter_recommendations_by_coherence_spec
        (recommendations : list Recommendation) (min_coherence min_strength : Q) :
  (forall r,
      In r (RecommendationQueries.filter_recommendations_by_coherence
              recommendations min_coherence)
      <-> In r recommendations /\ (min_coherence <= coherence_score r)%Q)
  /\ (descending recommendation_strength recommendations ->
      descending recommendation_strength
        (RecommendationQueries.filter_recommendations_by_coherence
           recommendations min_coherence))
  /\ RecommendationQueries.filter_recommendations_by_coherence
       (RecommendationQueries.filter_recommendations_by_strength
          recommendations min_strength) min_coherence
     = RecommendationQueries.filter_recommendations_by_strength
         (RecommendationQueries.filter_recommendations_by_coherence
            recommendations min_coherence) min_strength.
Proof.
  unfold RecommendationQueries.filter_recommendations_by_coherence,
    RecommendationQueries.filter_recommendations_by_strength.
  split; [| split].
  - intros r. rewrite filter_In, Qle_bool_iff. reflexivity.
  - apply StronglySorted_filter.
  - apply filter_filter_comm.
Qed.

Lemma filter_recommendations_by_coherence_spec_witness :
  descending recommendation_strength sample_recommendations
  /\ descending recommendation_strength
       (RecommendationQueries.filter_recommendations_by_coherence
          sample_recommendations (3 # 5)).
Proof.
  assert (descending recommendation_strength sample_recommendations) as Hd.
  { unfold descending, sample_recommendations.
    repeat constructor. simpl. unfold Qle. simpl. lia. }
  split.
  - exact Hd.
  - apply (proj1 (proj2 (filter_recommendations_by_coherence_spec
                           sample_recommendations (3 # 5) (0 # 1)))).
    exact Hd.
Defined.

(** ** The orchestrating class *)

Section SystemFacts.
Context `{NumPy}.
Variable db_load_data :
  option string -> option Z -> exn + option (list TransactionRecord).
Variable db_create_product_info : list TransactionRecord -> exn + list ProductInfo.
Variable fit_predict :
  option Z -> option Q -> string -> Array2.t -> exn + list Z.
Variable _generate_explanation : list ClusterRow -> string.

Lemma reachable_invariant (self : WarehouseRecommendationSystem.t) :
  reachable db_load_data db_create_product_info fit_predict self ->
  WarehouseRecommendationSystem.generator_product_info self
  = WarehouseRecommendationSystem.product_info self
  /\ (is_Some (SimilarityCalculator.similarity_matrix
                 (WarehouseRecommendationSystem.similarity_calculator self)) ->
      is_Some (MarketBasketAnalyzer.basket_matrix
                 (WarehouseRecommendationSystem.basket_analyzer self)))
  /\ (is_Some (ClusteringAnalyzer.clusters
                 (WarehouseRecommendationSystem.clustering_analyzer self)) ->
      is_Some (SimilarityCalculator.similarity_matrix
                 (WarehouseRecommendationSystem.similarity_calculator self))
      /\ is_Some (WarehouseRecommendationSystem.product_info self)).
Proof.
  induction 1 as [| self query limit _ IH | self min_support _ IH
                  | self metric _ IH | self n l d m _ IH].
  - simpl. split; [reflexivity |].
    split; intros [x Hx]; discriminate Hx.
  - destruct IH as [Hgen [Hs Hc]].
    unfold WarehouseRecommendationSystem.load_data.
    destruct (db_load_data query limit) as [e | [loaded|]]; simpl.
    + repeat split; try assumption; apply Hc; assumption.
    + destruct (db_create_product_info loaded) as [e | info]; simpl.
      * split; [exact Hgen |]. split; [exact Hs | exact Hc].
      * split; [reflexivity |]. split; [exact Hs |].
        intros Hclusters. split; [apply Hc, Hclusters | eexists; reflexivity].
    + split; [exact Hgen |]. split; [exact Hs | exact Hc].
  - destruct IH as [Hgen [Hs Hc]].
    unfold WarehouseRecommendationSystem.create_market_baskets.
    destruct (WarehouseRecommendationSystem.df self) eqn:Edf; simpl.
    + split; [exact Hgen |].
      split; [intros _; eexists; reflexivity | exact Hc].
    + split; [exact Hgen |]. split; [exact Hs | exact Hc].
  - destruct IH as [Hgen [Hs Hc]].
    unfold WarehouseRecommendationSystem.calculate_similarity_matrix.
    destruct (MarketBasketAnalyzer.basket_matrix _) as [bm|] eqn:Ebm.
    + destruct (SimilarityCalculator.calculate_similarity_matrix _ bm metric)
        as [calculator result] eqn:Ecalc. simpl. rewrite ?Ebm.
      split; [exact Hgen |].
      split; [intros _; eexists; reflexivity |].
      intros Hclusters. specialize (Hc Hclusters). destruct Hc as [[sm Hsm] Hinfo].
      split; [| exact Hinfo].
      unfold SimilarityCalculator.calculate_similarity_matrix in Ecalc.
      rewrite Hsm in Ecalc.
      destruct (if String.eqb metric "jaccard" then _ else _) as [e | values];
        injection Ecalc as <- _; eexists; reflexivity.
    + simpl. rewrite ?Ebm. split; [exact Hgen |]. split; [exact Hs | exact Hc].
  - destruct IH as [Hgen [Hs Hc]].
    unfold WarehouseRecommendationSystem.perform_clustering.
    destruct (SimilarityCalculator.similarity_matrix _) as [sm|] eqn:Esm.
    + destruct (WarehouseRecommendationSystem.product_info self) as [info|] eqn:Einfo.
      * destruct (ClusteringAnalyzer.perform_clustering _ _ sm info n l d m)
          as [analyzer result]. simpl. rewrite ?Esm, ?Einfo.
        split; [exact Hgen |]. split; [exact Hs |].
        intros _. split; eexists; reflexivity.
      * simpl. rewrite ?Esm, ?Einfo.
        split; [exact Hgen |]. split; [exact Hs | exact Hc].
    + simpl. rewrite ?Esm. split; [exact Hgen |]. split; [exact Hs | exact Hc].
Qed.

(** When the handler's [create_product_info] never raises, a loaded table
    and a basket matrix come with a product table. *)
Lemma reachable_product_info (self : WarehouseRecommendationSystem.t) :
  (forall table, exists info, db_create_product_info table = inr info) ->
  reachable db_load_data db_create_product_info fit_predict self ->
  (is_Some (WarehouseRecommendationSystem.df self) ->
   is_Some (WarehouseRecommendationSystem.product_info self))
  /\ (is_Some (MarketBasketAnalyzer.basket_matrix
                 (WarehouseRecommendationSystem.basket_analyzer self)) ->
      is_Some (WarehouseRecommendationSystem.product_info self)).
Proof.
  intros Hcreate.
  induction 1 as [| self query limit _ IH | self min_support _ IH
                  | self metric _ IH | self n l d m _ IH].
  - simpl. split; intros [x Hx]; discriminate Hx.
  - destruct IH as [Hdf Hb].
    unfold WarehouseRecommendationSystem.load_data.
    destruct (db_load_data query limit) as [e | [loaded|]]; simpl.
    + split; assumption.
    + destruct (Hcreate loaded) as [info ->]. simpl.
      split; intros _; eexists; reflexivity.
    + split; [intros [x Hx]; discriminate Hx | exact Hb].
  - destruct IH as [Hdf Hb].
    unfold WarehouseRecommendationSystem.create_market_baskets.
    destruct (WarehouseRecommendationSystem.df self) eqn:Edf; simpl.
    + split; [exact Hdf |]. intros _. apply Hdf. eexists; reflexivity.
    + rewrite ?Edf. split; assumption.
  - destruct IH as [Hdf Hb].
    unfold WarehouseRecommendationSystem.calculate_similarity_matrix.
    destruct (MarketBasketAnalyzer.basket_matrix _) as [bm|] eqn:Ebm.
    + destruct (SimilarityCalculator.calculate_similarity_matrix _ bm metric)
        as [calculator result]. simpl. rewrite ?Ebm. split; assumption.
    + simpl. rewrite ?Ebm. split; assumption.
  - destruct IH as [Hdf Hb].
    unfold WarehouseRecommendationSystem.perform_clustering.
    destruct (SimilarityCalculator.similarity_matrix _) as [sm|] eqn:Esm.
    + destruct (WarehouseRecommendationSystem.product_info self) as [info|] eqn:Einfo.
      * destruct (ClusteringAnalyzer.perform_clustering _ _ sm info n l d m)
          as [analyzer result]. simpl. rewrite ?Einfo. split; assumption.
      * simpl. rewrite ?Einfo. split; assumption.
    + simpl. split; assumption.
Qed.


End SystemFacts.

Lemma sample_system_reachable :
  reachable (H := TruncatedNumPy) sample_load_data sample_create_product_info
            sample_fit_predict sample_system.
Proof.
  unfold sample_system, sample_scored, sample_basketed, sample_loaded.
  apply reachable_perform_clustering, reachable_calculate_similarity_matrix,
    reachable_create_market_baskets, reachable_load_data, reachable_init.
Qed.

Lemma sample_create_product_info_returns (table : list TransactionRecord) :
  exists info, sample_create_product_info table = inr info.
Proof. eexists. reflexivity. Qed.

(** A handler whose [create_product_info] raises leaves a loaded table
    without a product table; baskets and similarities can then be
    computed, and [perform_clustering] stops at its second guard. *)
Example perform_clustering_without_product_info :
  reachable (H := TruncatedNumPy) sample_load_data failing_create_product_info
            sample_fit_predict system_without_product_info
  /\ is_Some (SimilarityCalculator.similarity_matrix
                (WarehouseRecommendationSystem.similarity_calculator
                   system_without_product_info))
  /\ snd (WarehouseRecommendationSystem.perform_clustering
            sample_fit_predict system_without_product_info
            (Some 3) "complete" None None)
     = inl (ValueError "Product info not available. Please load data first.").
Proof.
  split; [| split].
  - unfold system_without_product_info.
    apply reachable_calculate_similarity_matrix,
      reachable_create_market_baskets, reachable_load_data, reachable_init.
  - eexists. vm_compute. reflexivity.
  - vm_compute. reflexivity.
Qed.

(** X22. In every state the orchestrating class can be brought into
    (calls that raised included), the generator's product table is the
    system's own, clusters are present only together with a similarity
    matrix and a product table, and a similarity matrix only together
    with a basket matrix.  If moreover the handler's [create_product_info]
    never raises, a basket matrix is present only together with the
    product table, so that once a similarity matrix is present
    [perform_clustering] passes both of its guards and answers what the
    clustering analyzer answers. *)
Theorem system_stage_order `{NumPy}
        (db_load_data :
           option string -> option Z -> exn + option (list TransactionRecord))
        (db_create_product_info : list TransactionRecord -> exn + list ProductInfo)
        (fit_predict : option Z -> option Q -> string -> Array2.t -> exn + list Z)
        (self : WarehouseRecommendationSystem.t) :
  reachable db_load_data db_create_product_info fit_predict self ->
  WarehouseRecommendationSystem.generator_product_info self
  = WarehouseRecommendationSystem.product_info self
  /\ (is_Some (ClusteringAnalyzer.clusters
                 (WarehouseRecommendationSystem.clustering_analyzer self)) ->
      is_Some (SimilarityCalculator.similarity_matrix
                 (WarehouseRecommendationSystem.similarity_calculator self))
      /\ is_Some (WarehouseRecommendationSystem.product_info self))
  /\ (is_Some (SimilarityCalculator.similarity_matrix
                 (WarehouseRecommendationSystem.similarity_calculator self)) ->
      is_Some (MarketBasketAnalyzer.basket_matrix
                 (WarehouseRecommendationSystem.basket_analyzer self)))
  /\ ((forall table, exists info, db_create_product_info table = inr info) ->
      (is_Some (MarketBasketAnalyzer.basket_matrix
                  (WarehouseRecommendationSystem.basket_analyzer self)) ->
       is_Some (WarehouseRecommendationSystem.product_info self))
      /\ forall (sm : SimilarityMatrix) (n_clusters : option Z) (linkage : string)
                (distance_threshold : option Q) (max_cluster_size : option Z),
           SimilarityCalculator.similarity_matrix
             (WarehouseRecommendationSystem.similarity_calculator self) = Some sm ->
           exists info : list ProductInfo,
             WarehouseRecommendationSystem.product_info self = Some info
             /\ snd (WarehouseRecommendationSystem.perform_clustering
                       fit_predict self n_clusters linkage distance_threshold
                       max_cluster_size)
                = snd (ClusteringAnalyzer.perform_clustering
                         fit_predict
                         (WarehouseRecommendationSystem.clustering_analyzer self)
                         sm info n_clusters linkage distance_threshold
                         max_cluster_size)).
Proof.
  intros Hreach.
  destruct (reachable_invariant _ _ _ self Hreach) as [Hgen [Hs Hc]].
  split; [exact Hgen |]. split; [exact Hc |]. split; [exact Hs |].
  intros Hcreate.
  destruct (reachable_product_info _ _ _ self Hcreate Hreach) as [_ Hb].
  split; [exact Hb |].
  intros sm n l d m Hsm.
  destruct (Hb (Hs (ex_intro _ sm Hsm))) as [info Hinfo].
  exists info. split; [exact Hinfo |].
  unfold WarehouseRecommendationSystem.perform_clustering.
  rewrite Hsm, Hinfo.
  destruct (ClusteringAnalyzer.perform_clustering _ _ sm info n l d m); reflexivity.
Qed.

Lemma system_stage_order_witness :
  (reachable (H := TruncatedNumPy) sample_load_data sample_create_product_info
             sample_fit_predict sample_system
   /\ forall table, exists info, sample_create_product_info table = inr info)
  /\ WarehouseRecommendationSystem.generator_product_info sample_system
     = WarehouseRecommendationSystem.product_info sample_system
  /\ (is_Some (MarketBasketAnalyzer.basket_matrix
                 (WarehouseRecommendationSystem.basket_analyzer sample_system)) ->
      is_Some (WarehouseRecommendationSystem.product_info sample_system)).
Proof.
  split.
  - split; [exact sample_system_reachable | exact sample_create_product_info_returns].
  - destruct (system_stage_order (H := TruncatedNumPy)
                sample_load_data sample_create_product_info sample_fit_predict
                sample_system sample_system_reachable)
      as [Hgen [_ [_ Hcond]]].
    split; [exact Hgen |].
    exact (proj1 (Hcond sample_create_product_info_returns)).
Defined.



(** ** The quick-test run *)

